(** * VimEditor: the modal editing engine of [src/components/VimEditor.tsx]

    The component keeps its state in React hooks and changes it from event
    handlers.  The embedding below follows the source callback by callback:

    - a JavaScript string is a [string]: a sequence of code units (the
      8-bit ones, which cover every character the editor's logic looks at:
      digits, ['/'], ['$'], ['g'], white space);
    - a JavaScript number that holds a line, a column or a count is a [Z]
      (columns really go negative, see [moveToFirstNonWhitespace]);
    - an array of lines is a [list string]; [slice], [splice], indexed
      reads and indexed writes are written out with the clamping that
      ECMAScript gives them;
    - every callback is a function [snapshot -> pending -> pending]: the
      first argument is the state of the render in which the callback was
      created (what its closure reads as [lines], [cursor], [mode], ...),
      the second is the state the queued updates have produced so far
      (what a functional update [setX(prev => ...)] receives as [prev]).
      An event handler starts with [pending = snapshot]; React renders again
      with the final pending state before the next event is handled;
    - [onSave], [onExit] and [setTimeout] are recorded in the [out] log. *)

From Stdlib Require Import ZArith List Bool Ascii String Lia.
Import ListNotations.

Local Open Scope string_scope.
Local Open Scope Z_scope.

(** ** JavaScript strings *)

Module Js.

Definition length (s : string) : Z := Z.of_nat (String.length s).

(** Relative index of [slice] and [splice]: a negative index counts from the
    end, and the result is clamped to [0, len]. *)
Definition relIndex (len i : Z) : Z :=
  if i <? 0 then Z.max (len + i) 0 else Z.min i len.

(** [s.slice(from, to)] *)
Definition slice (s : string) (from to : Z) : string :=
  let len := length s in
  let a := relIndex len from in
  let b := relIndex len to in
  substring (Z.to_nat a) (Z.to_nat (b - a)) s.

(** [s.slice(from)] *)
Definition sliceFrom (s : string) (from : Z) : string :=
  slice s from (length s).

(** [s.startsWith(p)] *)
Definition startsWith (s p : string) : bool := prefix p s.

(** White space of [\s], [trim] and [parseInt] among the 8-bit code units:
    TAB, LF, VT, FF, CR, SP and NBSP. *)
Definition isSpace (c : ascii) : bool :=
  let n := nat_of_ascii c in
  ((9 <=? n) && (n <=? 13) || (n =? 32) || (n =? 160))%nat.

Fixpoint trimStart (s : string) : string :=
  match s with
  | String c r => if isSpace c then trimStart r else s
  | EmptyString => EmptyString
  end.

Fixpoint rev_acc (s acc : string) : string :=
  match s with
  | EmptyString => acc
  | String c r => rev_acc r (String c acc)
  end.

Definition rev (s : string) : string := rev_acc s EmptyString.

Definition trimEnd (s : string) : string := rev (trimStart (rev s)).

Definition trim (s : string) : string := trimEnd (trimStart s).

(** [s.indexOf(p)] as a position counted from the start of [s]; [None] is
    the source's [-1].  The candidate positions are tried from the left. *)
Fixpoint find (p s : string) : option nat :=
  if prefix p s then Some O
  else match s with
       | EmptyString => None
       | String _ r => option_map S (find p r)
       end.

(** [s.indexOf(p, from)]: the search starts at [from] clamped to
    [0, s.length]. *)
Definition indexOf (s p : string) (from : Z) : Z :=
  let len := length s in
  let start := Z.max 0 (Z.min from len) in
  match find p (substring (Z.to_nat start) (String.length s) s) with
  | Some k => start + Z.of_nat k
  | None => -1
  end.

(** [s.lastIndexOf(p)]: the last position at which [p] occurs. *)
Fixpoint findLast (p s : string) : option nat :=
  match s with
  | EmptyString => if prefix p s then Some O else None
  | String _ r =>
      match findLast p r with
      | Some k => Some (S k)
      | None => if prefix p s then Some O else None
      end
  end.

Definition lastIndexOf (s p : string) : Z :=
  match findLast p s with
  | Some k => Z.of_nat k
  | None => -1
  end.

(** [s.includes(p)] *)
Definition includes (s p : string) : bool :=
  match find p s with Some _ => true | None => false end.

(** [parts.join(sep)] *)
Fixpoint join (sep : string) (parts : list string) : string :=
  match parts with
  | [] => ""
  | [x] => x
  | x :: rest => x ++ sep ++ join sep rest
  end.

(** [s.split(sep)] for a non-empty separator [sep]: [cur] holds, reversed,
    the characters of the piece being read.  [fuel] bounds the number of
    steps; [String.length s + 1] always suffices. *)
Fixpoint split_go (fuel : nat) (sep s cur : string) : list string :=
  match fuel with
  | O => [rev cur]
  | S fuel' =>
      match s with
      | EmptyString => [rev cur]
      | String c r =>
          if prefix sep s
          then rev cur ::
               split_go fuel' sep
                 (substring (String.length sep) (String.length s) s) ""
          else split_go fuel' sep r (String c cur)
      end
  end.

(** The pieces of [s.split("")]: one string per code unit. *)
Fixpoint chars (s : string) : list string :=
  match s with
  | EmptyString => []
  | String c r => String c "" :: chars r
  end.

Definition split (s sep : string) : list string :=
  match sep with
  | EmptyString => chars s
  | _ => split_go (S (String.length s)) sep s ""
  end.

(** The replacement text of [s.replace(pattern, newText)] with a string
    pattern (ECMAScript GetSubstitution with no captures): [$$] is a dollar,
    [$&] the matched text, [$`] what precedes the match, [$'] what follows
    it; any other character, a dollar included, stands for itself. *)
Fixpoint getSubstitution (matched before after template : string) : string :=
  match template with
  | EmptyString => ""
  | String "$" (String "$" r) => "$" ++ getSubstitution matched before after r
  | String "$" (String "&" r) => matched ++ getSubstitution matched before after r
  | String "$" (String "`" r) => before ++ getSubstitution matched before after r
  | String "$" (String "'" r) => after ++ getSubstitution matched before after r
  | String c r => String c (getSubstitution matched before after r)
  end.

(** [s.replace(pattern, newText)] with a string pattern: the first
    occurrence only, and [s] itself when there is none. *)
Definition replace (s pattern newText : string) : string :=
  match find pattern s with
  | None => s
  | Some k =>
      let before := substring 0 k s in
      let after :=
        substring (k + String.length pattern) (String.length s) s in
      before ++ getSubstitution pattern before after newText ++ after
  end.

(** Decimal digits of a number, as a template literal prints an integer. *)
Fixpoint digits (fuel : nat) (n : Z) (acc : string) : string :=
  match fuel with
  | O => acc
  | S fuel' =>
      let d := ascii_of_nat (48 + Z.to_nat (n mod 10)) in
      if n <? 10 then String d acc
      else digits fuel' (n / 10) (String d acc)
  end.

Definition ofNumber (n : Z) : string :=
  if n <? 0 then "-" ++ digits (S (Z.to_nat (Z.log2 (- n)))) (- n) ""
  else digits (S (Z.to_nat (Z.log2 n))) n "".

Definition isDigit (c : ascii) : bool :=
  let n := nat_of_ascii c in ((48 <=? n) && (n <=? 57))%nat.

Definition hexValue (c : ascii) : option Z :=
  let n := nat_of_ascii c in
  if ((48 <=? n) && (n <=? 57))%nat then Some (Z.of_nat n - 48)
  else if ((97 <=? n) && (n <=? 102))%nat then Some (Z.of_nat n - 87)
  else if ((65 <=? n) && (n <=? 70))%nat then Some (Z.of_nat n - 55)
  else None.

(** The longest prefix of digits in the given radix, read as a number;
    [None] when there is no digit at all. *)
Fixpoint readDigits (radix : Z) (s : string) (acc : option Z) : option Z :=
  match s with
  | EmptyString => acc
  | String c r =>
      match hexValue c with
      | Some d =>
          if d <? radix
          then readDigits radix r
                 (Some (match acc with Some a => a * radix + d | None => d end))
          else acc
      | None => acc
      end
  end.

(** [parseInt(s)] without a radix: leading white space, an optional sign,
    [0x]/[0X] for hexadecimal, then the longest prefix of digits.  [None]
    is [NaN].  The value is the mathematical integer; the source's double
    equals it below [2^53]. *)
Definition parseInt (s : string) : option Z :=
  let s1 := trimStart s in
  let '(sign, s2) :=
    match s1 with
    | String "-" r => (-1, r)
    | String "+" r => (1, r)
    | _ => (1, s1)
    end in
  match s2 with
  | String "0" (String "x" r) | String "0" (String "X" r) =>
      option_map (Z.mul sign) (readDigits 16 r None)
  | _ => option_map (Z.mul sign) (readDigits 10 s2 None)
  end.

End Js.

(** ** JavaScript arrays *)

Module Arr.

Section Ops.
Context {A : Type}.

Definition length (l : list A) : Z := Z.of_nat (List.length l).

(** [l[i]]; [None] is [undefined]. *)
Definition get (l : list A) (i : Z) : option A :=
  if i <? 0 then None else nth_error l (Z.to_nat i).

(** [l.slice(from, to)] *)
Definition slice (l : list A) (from to : Z) : list A :=
  let len := length l in
  let a := Js.relIndex len from in
  let b := Js.relIndex len to in
  firstn (Z.to_nat (b - a)) (skipn (Z.to_nat a) l).

(** The array after [l.splice(start, deleteCount, ...items)]. *)
Definition splice (l : list A) (start deleteCount : Z) (items : list A)
  : list A :=
  let len := length l in
  let a := Js.relIndex len start in
  let d := Z.min (Z.max deleteCount 0) (len - a) in
  (firstn (Z.to_nat a) l ++ items ++ skipn (Z.to_nat (a + d)) l)%list.

(** The array after [l[i] = v].  Inside the array the element is replaced,
    at [i = l.length] the array grows by one.  Further out JavaScript
    leaves holes, and a negative [i] names a property that is no element:
    neither has a list of lines to stand for it, so the result is [None]. *)
Definition set (l : list A) (i : Z) (v : A) : option (list A) :=
  if i <? 0 then None
  else if i <? length l
       then Some (firstn (Z.to_nat i) l ++ v :: skipn (S (Z.to_nat i)) l)%list
       else if i =? length l then Some (l ++ [v])%list else None.

End Ops.

End Arr.


(** ** The state of the component *)

Inductive VimMode := normal | insert | visual | command | replace.

Definition VimMode_eqb (a b : VimMode) : bool :=
  match a, b with
  | normal, normal | insert, insert | visual, visual
  | command, command | replace, replace => true
  | _, _ => false
  end.

Record CursorPosition := { line : Z; col : Z }.

(** What the component asks of its host: the two collaborators passed as
    props, and the timers it sets. *)
Inductive TimerCallback := ClearStatus | CallOnExit.

Inductive Effect :=
| OnSave (content : string)
| OnExit
| SetTimeout (callback : TimerCallback) (ms : Z).

(** One field per [useState] hook, under the hook's name; [out] lists, oldest
    first, what the component has asked of its host so far. *)
Record State := mkState {
  lines : list string;
  mode : VimMode;
  cursor : CursorPosition;
  commandBuffer : string;
  statusMessage : string;
  modified : bool;
  visualStart : option CursorPosition;
  yankBuffer : list string;
  searchPattern : string;
  lastCommand : string;
  numberBuffer : string;
  out : list Effect
}.

Definition setLines (v : list string) (p : State) : State :=
  mkState v (mode p) (cursor p) (commandBuffer p) (statusMessage p)
    (modified p) (visualStart p) (yankBuffer p) (searchPattern p)
    (lastCommand p) (numberBuffer p) (out p).

Definition setMode (v : VimMode) (p : State) : State :=
  mkState (lines p) v (cursor p) (commandBuffer p) (statusMessage p)
    (modified p) (visualStart p) (yankBuffer p) (searchPattern p)
    (lastCommand p) (numberBuffer p) (out p).

Definition setCursor (v : CursorPosition) (p : State) : State :=
  mkState (lines p) (mode p) v (commandBuffer p) (statusMessage p)
    (modified p) (visualStart p) (yankBuffer p) (searchPattern p)
    (lastCommand p) (numberBuffer p) (out p).

Definition setCommandBuffer (v : string) (p : State) : State :=
  mkState (lines p) (mode p) (cursor p) v (statusMessage p)
    (modified p) (visualStart p) (yankBuffer p) (searchPattern p)
    (lastCommand p) (numberBuffer p) (out p).

Definition setStatusMessage (v : string) (p : State) : State :=
  mkState (lines p) (mode p) (cursor p) (commandBuffer p) v
    (modified p) (visualStart p) (yankBuffer p) (searchPattern p)
    (lastCommand p) (numberBuffer p) (out p).

Definition setModified (v : bool) (p : State) : State :=
  mkState (lines p) (mode p) (cursor p) (commandBuffer p) (statusMessage p)
    v (visualStart p) (yankBuffer p) (searchPattern p)
    (lastCommand p) (numberBuffer p) (out p).

Definition setVisualStart (v : option CursorPosition) (p : State) : State :=
  mkState (lines p) (mode p) (cursor p) (commandBuffer p) (statusMessage p)
    (modified p) v (yankBuffer p) (searchPattern p)
    (lastCommand p) (numberBuffer p) (out p).

Definition setYankBuffer (v : list string) (p : State) : State :=
  mkState (lines p) (mode p) (cursor p) (commandBuffer p) (statusMessage p)
    (modified p) (visualStart p) v (searchPattern p)
    (lastCommand p) (numberBuffer p) (out p).

Definition setSearchPattern (v : string) (p : State) : State :=
  mkState (lines p) (mode p) (cursor p) (commandBuffer p) (statusMessage p)
    (modified p) (visualStart p) (yankBuffer p) v
    (lastCommand p) (numberBuffer p) (out p).

Definition setLastCommand (v : string) (p : State) : State :=
  mkState (lines p) (mode p) (cursor p) (commandBuffer p) (statusMessage p)
    (modified p) (visualStart p) (yankBuffer p) (searchPattern p)
    v (numberBuffer p) (out p).

Definition setNumberBuffer (v : string) (p : State) : State :=
  mkState (lines p) (mode p) (cursor p) (commandBuffer p) (statusMessage p)
    (modified p) (visualStart p) (yankBuffer p) (searchPattern p)
    (lastCommand p) v (out p).

(** A call of a collaborator or of [setTimeout]. *)
Definition emit (e : Effect) (p : State) : State :=
  mkState (lines p) (mode p) (cursor p) (commandBuffer p) (statusMessage p)
    (modified p) (visualStart p) (yankBuffer p) (searchPattern p)
    (lastCommand p) (numberBuffer p) (out p ++ [e])%list.

(** ** Queued updates

    An [Update] is what a callback adds to the queue of the event being
    handled.  The result is [None] where the source leaves the model: a
    handler that throws a [TypeError] (it reads a property of [undefined]),
    or a buffer or register that would hold something other than a string
    (a hole after a write far beyond the end, [undefined] read from a line
    that does not exist). *)
Definition Update := State -> option State.

Definition andThen (u v : Update) : Update :=
  fun p => match u p with Some p' => v p' | None => None end.

Notation "u ;; v" := (andThen u v) (at level 61, right associativity).

Definition upd (f : State -> State) : Update := fun p => Some (f p).

Definition skip : Update := fun p => Some p.

Definition throw : Update := fun _ => None.

(** [setLines(prev => ...)] with an updater that writes by index. *)
Definition updLines (f : list string -> option (list string)) : Update :=
  fun p => option_map (fun l => setLines l p) (f (lines p)).

(** [setCursor(prev => ...)] *)
Definition updCursor (f : CursorPosition -> CursorPosition) : Update :=
  upd (fun p => setCursor (f (cursor p)) p).

(** [for (let i = 0; i < count; i++) u()] *)
Fixpoint times (n : nat) (u : Update) : Update :=
  match n with
  | O => skip
  | S k => u ;; times k u
  end.

(** [lns[i] || ''] *)
Definition lineOr (lns : list string) (i : Z) : string :=
  match Arr.get lns i with Some l => l | None => "" end.

(** [lns[i]?.length || dflt] *)
Definition lengthOr (lns : list string) (i : Z) (dflt : Z) : Z :=
  match Arr.get lns i with
  | Some l => if Js.length l =? 0 then dflt else Js.length l
  | None => dflt
  end.

(** [filename] between double quotes, as the status line prints it. *)
Definition quoted (name : string) : string :=
  String "034" name ++ String "034" EmptyString.

(** [`${n} line${n > 1 ? 's' : ''} ${what}`] *)
Definition linesMessage (n : Z) (what : string) : string :=
  Js.ofNumber n ++ " line" ++ (if 1 <? n then "s" else "") ++ " " ++ what.

Section VimEditor.

(** The [filename] prop. *)
Variable filename : string.

Definition showStatus (message : string) (duration : Z) : Update :=
  upd (setStatusMessage message) ;;
  (if 0 <? duration then upd (emit (SetTimeout ClearStatus duration))
   else skip).

(** The default of [showStatus]'s second parameter. *)
Definition defaultDuration : Z := 2000.

Definition getContent (s : State) : string := Js.join (String "010" "") (lines s).

(** [clampCursor]; [m] is the [mode] of the render that created it. *)
Definition clampCursor (m : VimMode) (pos : CursorPosition)
  (lns : list string) : CursorPosition :=
  let line := Z.max 0 (Z.min (line pos) (Arr.length lns - 1)) in
  let maxCol := Z.max 0 (lengthOr lns line 1 - 1) in
  let col :=
    if VimMode_eqb m insert
    then Z.max 0 (Z.min (col pos) (lengthOr lns line 0))
    else Z.max 0 (Z.min (col pos) maxCol) in
  {| line := line; col := col |}.

(** *** Movement commands *)

Definition moveLeft (s : State) : Update :=
  updCursor (fun prev =>
    clampCursor (mode s) {| line := line prev; col := col prev - 1 |} (lines s)).

Definition moveRight (s : State) : Update :=
  updCursor (fun prev =>
    clampCursor (mode s) {| line := line prev; col := col prev + 1 |} (lines s)).

Definition moveUp (s : State) : Update :=
  updCursor (fun prev =>
    clampCursor (mode s) {| line := line prev - 1; col := col prev |} (lines s)).

Definition moveDown (s : State) : Update :=
  updCursor (fun prev =>
    clampCursor (mode s) {| line := line prev + 1; col := col prev |} (lines s)).

Definition moveToLineStart : Update :=
  updCursor (fun prev => {| line := line prev; col := 0 |}).

Definition moveToLineEnd (s : State) : Update :=
  updCursor (fun prev =>
    let lineLen := lengthOr (lines s) (line prev) 0 in
    {| line := line prev; col := Z.max 0 (lineLen - 1) |}).

(** Length of the longest prefix of white space: what [/^\s*/] matches. *)
Fixpoint spanSpace (t : string) : nat :=
  match t with
  | String c r => if Js.isSpace c then S (spanSpace r) else O
  | EmptyString => O
  end.

(** Length of the longest prefix without white space: a greedy [\S*]. *)
Fixpoint spanWord (t : string) : nat :=
  match t with
  | String c r => if Js.isSpace c then O else S (spanWord r)
  | EmptyString => O
  end.

Definition dropChars (n : nat) (t : string) : string :=
  substring n (String.length t) t.

Definition moveToFirstNonWhitespace (s : State) : Update :=
  updCursor (fun prev =>
    let line_ := lineOr (lines s) (line prev) in
    let col := Z.of_nat (spanSpace line_) in
    {| line := line prev; col := Z.min col (Js.length line_ - 1) |}).

(** Length of the match of [/^\s*\S+\s*/], if any.  [\s] and [\S] are
    complementary, so the greedy spans are the only way to match. *)
Definition matchWordForward (rest : string) : option Z :=
  let a := spanSpace rest in
  let r1 := dropChars a rest in
  let b := spanWord r1 in
  let r2 := dropChars b r1 in
  if (b =? 0)%nat then None
  else Some (Z.of_nat (a + b + spanSpace r2)).

Definition moveWordForward (s : State) : Update :=
  updCursor (fun prev =>
    let line_ := lineOr (lines s) (line prev) in
    let rest := Js.sliceFrom line_ (col prev) in
    let next :=
      if line prev <? Arr.length (lines s) - 1
      then {| line := line prev + 1; col := 0 |}
      else prev in
    match matchWordForward rest with
    | Some len =>
        let newCol := col prev + len in
        if newCol <? Js.length line_
        then {| line := line prev; col := newCol |}
        else next
    | None => next
    end).

(** Length of the match of [/\S+\s*$/], if any: the leftmost position from
    which a word and then only white space reach the end is the start of the
    last word, so the match is the last word with the white space after
    it. *)
Definition matchWordBackward (before : string) : option Z :=
  let r := Js.rev before in
  let a := spanSpace r in
  let b := spanWord (dropChars a r) in
  if (b =? 0)%nat then None else Some (Z.of_nat (a + b)).

Definition moveWordBackward (s : State) : Update :=
  updCursor (fun prev =>
    if col prev =? 0
    then
      if 0 <? line prev
      then {| line := line prev - 1;
              col := Z.max 0 (lengthOr (lines s) (line prev - 1) 1 - 1) |}
      else prev
    else
      let line_ := lineOr (lines s) (line prev) in
      let before := Js.slice line_ 0 (col prev) in
      match matchWordBackward before with
      | Some len => {| line := line prev; col := col prev - len |}
      | None => {| line := line prev; col := 0 |}
      end).

Definition moveToTop : Update := upd (setCursor {| line := 0; col := 0 |}).

Definition moveToBottom (s : State) : Update :=
  upd (setCursor {| line := Arr.length (lines s) - 1; col := 0 |}).


(** *** Editing commands *)

Definition insertChar (s : State) (char : string) : Update :=
  updLines (fun prev =>
    let line_ := lineOr prev (line (cursor s)) in
    Arr.set prev (line (cursor s))
      (Js.slice line_ 0 (col (cursor s)) ++ char
       ++ Js.sliceFrom line_ (col (cursor s)))) ;;
  updCursor (fun prev => {| line := line prev; col := col prev + 1 |}) ;;
  upd (setModified true).

Definition insertNewLine (s : State) : Update :=
  updLines (fun prev =>
    let line_ := lineOr prev (line (cursor s)) in
    let before := Js.slice line_ 0 (col (cursor s)) in
    let after := Js.sliceFrom line_ (col (cursor s)) in
    option_map (fun newLines => Arr.splice newLines (line (cursor s) + 1) 0 [after])
      (Arr.set prev (line (cursor s)) before)) ;;
  updCursor (fun prev => {| line := line prev + 1; col := 0 |}) ;;
  upd (setModified true).

Definition deleteChar (s : State) : Update :=
  updLines (fun prev =>
    let line_ := lineOr prev (line (cursor s)) in
    if col (cursor s) <? Js.length line_
    then Arr.set prev (line (cursor s))
           (Js.slice line_ 0 (col (cursor s))
            ++ Js.sliceFrom line_ (col (cursor s) + 1))
    else if line (cursor s) <? Arr.length prev - 1
    then (* Join with next line *)
      option_map (fun newLines => Arr.splice newLines (line (cursor s) + 1) 1 [])
        (Arr.set prev (line (cursor s))
           (line_ ++ lineOr prev (line (cursor s) + 1)))
    else Some prev) ;;
  upd (setModified true).

Definition backspace (s : State) : Update :=
  if 0 <? col (cursor s)
  then
    updLines (fun prev =>
      let line_ := lineOr prev (line (cursor s)) in
      Arr.set prev (line (cursor s))
        (Js.slice line_ 0 (col (cursor s) - 1)
         ++ Js.sliceFrom line_ (col (cursor s)))) ;;
    updCursor (fun prev => {| line := line prev; col := col prev - 1 |}) ;;
    upd (setModified true)
  else if 0 <? line (cursor s)
  then (* Join with previous line *)
    let prevLineLen := lengthOr (lines s) (line (cursor s) - 1) 0 in
    updLines (fun prev =>
      option_map (fun newLines => Arr.splice newLines (line (cursor s)) 1 [])
        (Arr.set prev (line (cursor s) - 1)
           (lineOr prev (line (cursor s) - 1) ++ lineOr prev (line (cursor s))))) ;;
    upd (setCursor {| line := line (cursor s) - 1; col := prevLineLen |}) ;;
    upd (setModified true)
  else skip.

(** [if (newLines.length === 0) newLines.push('')] *)
Definition pushIfEmpty (newLines : list string) : list string :=
  match newLines with
  | [] => [""]
  | _ => newLines
  end.

Definition deleteLine (s : State) (count : Z) : Update :=
  let linesToDelete :=
    Arr.slice (lines s) (line (cursor s)) (line (cursor s) + count) in
  upd (setYankBuffer linesToDelete) ;;
  updLines (fun prev =>
    Some (pushIfEmpty (Arr.splice prev (line (cursor s)) count []))) ;;
  updCursor (fun prev =>
    clampCursor (mode s) prev
      (if count <? Arr.length (lines s) then lines s else [""])) ;;
  upd (setModified true) ;;
  showStatus (linesMessage count "deleted") defaultDuration.

Definition yankLine (s : State) (count : Z) : Update :=
  let linesToYank :=
    Arr.slice (lines s) (line (cursor s)) (line (cursor s) + count) in
  upd (setYankBuffer linesToYank) ;;
  showStatus (linesMessage count "yanked") defaultDuration.

Definition pasteBefore (s : State) : Update :=
  if Arr.length (yankBuffer s) =? 0 then skip
  else
    updLines (fun prev =>
      Some (Arr.splice prev (line (cursor s)) 0 (yankBuffer s))) ;;
    upd (setModified true) ;;
    showStatus (linesMessage (Arr.length (yankBuffer s)) "pasted")
      defaultDuration.

Definition pasteAfter (s : State) : Update :=
  if Arr.length (yankBuffer s) =? 0 then skip
  else
    updLines (fun prev =>
      Some (Arr.splice prev (line (cursor s) + 1) 0 (yankBuffer s))) ;;
    updCursor (fun prev => {| line := line prev + 1; col := 0 |}) ;;
    upd (setModified true) ;;
    showStatus (linesMessage (Arr.length (yankBuffer s)) "pasted")
      defaultDuration.

Definition openLineBelow (s : State) : Update :=
  updLines (fun prev => Some (Arr.splice prev (line (cursor s) + 1) 0 [""])) ;;
  updCursor (fun prev => {| line := line prev + 1; col := 0 |}) ;;
  upd (setMode insert) ;;
  upd (setModified true).

Definition openLineAbove (s : State) : Update :=
  updLines (fun prev => Some (Arr.splice prev (line (cursor s)) 0 [""])) ;;
  updCursor (fun prev => {| line := line prev; col := 0 |}) ;;
  upd (setMode insert) ;;
  upd (setModified true).

Definition joinLines (s : State) : Update :=
  if Arr.length (lines s) - 1 <=? line (cursor s) then skip
  else
    updLines (fun prev =>
      let currentLine := lineOr prev (line (cursor s)) in
      let nextLine := Js.trimStart (lineOr prev (line (cursor s) + 1)) in
      option_map (fun newLines => Arr.splice newLines (line (cursor s) + 1) 1 [])
        (Arr.set prev (line (cursor s))
           (currentLine ++ (if 0 <? Js.length currentLine then " " else "")
            ++ nextLine))) ;;
    upd (setModified true).

Definition undoLastChange : Update :=
  showStatus "Undo not yet implemented" defaultDuration.

Definition redoLastChange : Update :=
  showStatus "Redo not yet implemented" defaultDuration.

(** *** Command mode execution *)

(** The loop of a forward search: the first line from index [i] on, among
    [rest], in which [pattern] occurs; on the cursor's line the search
    starts after the cursor's column. *)
Fixpoint searchForward (pattern : string) (cur : CursorPosition)
  (i : Z) (rest : list string) : option CursorPosition :=
  match rest with
  | [] => None
  | l :: rest' =>
      let idx := Js.indexOf l pattern (if i =? line cur then col cur + 1 else 0) in
      if idx =? -1 then searchForward pattern cur (i + 1) rest'
      else Some {| line := i; col := idx |}
  end.

(** The lines from index [i] on: what [for (i = ...; i < lines.length; i++)]
    visits.  A negative [i] makes the first [lines[i]] undefined. *)
Definition linesFrom (lns : list string) (i : Z) : option (list string) :=
  if i <? 0 then None else Some (skipn (Z.to_nat i) lns).

(** The substitution rule of [s/old/new/flags], applied to one line. *)
Definition substituteLine (flags oldText newText line_ : string) : string :=
  if Js.includes flags "g"
  then Js.join newText (Js.split line_ oldText)
  else Js.replace line_ oldText newText.

(** The updater of [%s]: [prev.map(line => ...)] with the value it leaves in
    the handler's local variable [count]. *)
Fixpoint substituteAll (flags oldText newText : string)
  (prev : list string) (count : Z) : list string * Z :=
  match prev with
  | [] => ([], count)
  | line_ :: rest =>
      let newLine := substituteLine flags oldText newText line_ in
      let count' := if String.eqb newLine line_ then count else count + 1 in
      let '(rest', count'') := substituteAll flags oldText newText rest count' in
      (newLine :: rest', count'')
  end.

(** [parts[i] || ''] *)
Definition partOr (parts : list string) (i : Z) : string := lineOr parts i.

(** [idle]: no update is pending on the component when the handler runs, so
    that React runs the first updater the handler queues inside the call
    that queues it, on the rendered state; see [Event]. *)
Definition executeVimCommand (s : State) (cmd : string) (idle : bool)
  : Update :=
  let trimmedCmd := Js.trim cmd in
  match Js.parseInt trimmedCmd with
  | Some lineNum =>
      (* Handle line number jumps *)
      upd (setCursor
             {| line := Z.max 0 (Z.min (lineNum - 1) (Arr.length (lines s) - 1));
                col := 0 |}) ;;
      upd (setMode normal)
  | None =>
      if String.eqb trimmedCmd "w" then
        upd (emit (OnSave (getContent s))) ;;
        showStatus
          (quoted filename ++ " " ++ Js.ofNumber (Arr.length (lines s))
           ++ "L, " ++ Js.ofNumber (Js.length (getContent s)) ++ "C written")
          defaultDuration ;;
        upd (setModified false) ;;
        upd (setMode normal)
      else if String.eqb trimmedCmd "q" then
        if modified s
        then
          showStatus "E37: No write since last change (add ! to override)" 0 ;;
          upd (setMode normal)
        else upd (emit OnExit)
      else if String.eqb trimmedCmd "q!" then
        upd (emit OnExit)
      else if String.eqb trimmedCmd "wq" || String.eqb trimmedCmd "x" then
        upd (emit (OnSave (getContent s))) ;;
        showStatus
          (quoted filename ++ " " ++ Js.ofNumber (Arr.length (lines s))
           ++ "L written")
          defaultDuration ;;
        upd (emit (SetTimeout CallOnExit 100))
      else if String.eqb trimmedCmd "wq!" then
        upd (emit (OnSave (getContent s))) ;;
        upd (emit OnExit)
      else if Js.startsWith trimmedCmd "/" then
        let pattern := Js.sliceFrom trimmedCmd 1 in
        upd (setSearchPattern pattern) ;;
        match linesFrom (lines s) (line (cursor s)) with
        | None => throw
        | Some rest =>
            match searchForward pattern (cursor s) (line (cursor s)) rest with
            | Some found =>
                upd (setCursor found) ;;
                showStatus ("/" ++ pattern) defaultDuration ;;
                upd (setMode normal)
            | None =>
                showStatus ("Pattern not found: " ++ pattern) defaultDuration ;;
                upd (setMode normal)
            end
        end
      else if Js.startsWith trimmedCmd "?" then
        upd (setSearchPattern (Js.sliceFrom trimmedCmd 1)) ;;
        showStatus "Backward search not yet implemented" defaultDuration ;;
        upd (setMode normal)
      else if Js.startsWith trimmedCmd "s/" then
        let parts := Js.split trimmedCmd "/" in
        (if 3 <=? Arr.length parts
         then
           let oldText := partOr parts 1 in
           let newText := partOr parts 2 in
           let flags := partOr parts 3 in
           let currentLine := lineOr (lines s) (line (cursor s)) in
           let newLine := substituteLine flags oldText newText currentLine in
           if String.eqb newLine currentLine
           then showStatus "Pattern not found" defaultDuration
           else
             updLines (fun prev => Arr.set prev (line (cursor s)) newLine) ;;
             upd (setModified true) ;;
             showStatus "1 substitution" defaultDuration
         else skip) ;;
        upd (setMode normal)
      else if Js.startsWith trimmedCmd "%s/" then
        let parts := Js.split (Js.sliceFrom trimmedCmd 1) "/" in
        (if 3 <=? Arr.length parts
         then
           let oldText := partOr parts 1 in
           let newText := partOr parts 2 in
           let flags := partOr parts 3 in
           (* let count = 0; the updater below increments it when React
              runs it: inside the setLines call, on the rendered lines, when
              no update is pending on the component ([idle]); otherwise at
              the next render, after this handler has returned *)
           let count :=
             if idle
             then snd (substituteAll flags oldText newText (lines s) 0)
             else 0 in
           updLines (fun prev =>
             Some (fst (substituteAll flags oldText newText prev 0))) ;;
           upd (setModified true) ;;
           showStatus
             (Js.ofNumber count ++ " substitution"
              ++ (if count =? 1 then "" else "s"))
             defaultDuration
         else skip) ;;
        upd (setMode normal)
      else if String.eqb trimmedCmd "set nu"
              || String.eqb trimmedCmd "set number" then
        showStatus "Line numbers are always shown" defaultDuration ;;
        upd (setMode normal)
      else if String.eqb trimmedCmd "set nonu"
              || String.eqb trimmedCmd "set nonumber" then
        showStatus "Line numbers cannot be hidden in this version"
          defaultDuration ;;
        upd (setMode normal)
      else
        showStatus ("E492: Not an editor command: " ++ trimmedCmd)
          defaultDuration ;;
        upd (setMode normal)
  end.


(** *** Normal mode keys *)

(** The labels of the [switch (key)] of [handleNormalModeKey]. *)
Inductive NormalCase :=
| On_h | On_j | On_k | On_l | On_0 | On_dollar | On_caret | On_w | On_b
| On_g | On_G | On_i | On_I | On_a | On_A | On_o | On_O | On_R | On_v | On_V
| On_colon | On_slash | On_x | On_X | On_d | On_D | On_y | On_Y | On_p | On_P
| On_J | On_u | On_r | On_c | On_C | On_s | On_S | On_n | On_N
| On_Escape | On_dot | On_Control | On_default.

Definition normalCases : list (string * NormalCase) :=
  [ ("h", On_h); ("ArrowLeft", On_h); ("j", On_j); ("ArrowDown", On_j);
    ("k", On_k); ("ArrowUp", On_k); ("l", On_l); ("ArrowRight", On_l);
    ("0", On_0); ("$", On_dollar); ("^", On_caret); ("w", On_w); ("b", On_b);
    ("g", On_g); ("G", On_G); ("i", On_i); ("I", On_I); ("a", On_a);
    ("A", On_A); ("o", On_o); ("O", On_O); ("R", On_R); ("v", On_v);
    ("V", On_V); (":", On_colon); ("/", On_slash); ("x", On_x); ("X", On_X);
    ("d", On_d); ("D", On_D); ("y", On_y); ("Y", On_Y); ("p", On_p);
    ("P", On_P); ("J", On_J); ("u", On_u); ("r", On_r); ("c", On_c);
    ("C", On_C); ("s", On_s); ("S", On_S); ("n", On_n); ("N", On_N);
    ("Escape", On_Escape); (".", On_dot); ("Control", On_Control) ].

Fixpoint switchOn {C : Type} (cases : list (string * C)) (dflt : C)
  (key : string) : C :=
  match cases with
  | [] => dflt
  | (label, c) :: rest =>
      if String.eqb key label then c else switchOn rest dflt key
  end.

(** [/^[0-9]$/.test(key)] *)
Definition isDigitKey (key : string) : bool :=
  match key with
  | String c EmptyString => Js.isDigit c
  | _ => false
  end.

(** [parseInt(numberBuffer) || 1] *)
Definition countOf (numberBuffer : string) : Z :=
  match Js.parseInt numberBuffer with
  | Some n => if n =? 0 then 1 else n
  | None => 1
  end.

(** The loop of [N]: the nearest line at or above index [i], among [upto]
    listed from line [i] down to line 0, in which the pattern occurs; on the
    cursor's line only what precedes the cursor is searched. *)
Fixpoint searchBackward (pattern : string) (cur : CursorPosition)
  (i : Z) (downto : list string) : option CursorPosition :=
  match downto with
  | [] => None
  | l :: rest =>
      let searchIn := if i =? line cur then Js.slice l 0 (col cur) else l in
      let idx := Js.lastIndexOf searchIn pattern in
      if idx =? -1 then searchBackward pattern cur (i - 1) rest
      else Some {| line := i; col := idx |}
  end.

(** The lines from index [i] down to 0, in that order; [None] when [lines[i]]
    is undefined. *)
Definition linesDownFrom (lns : list string) (i : Z) : option (list string) :=
  if (i <? 0) || (Arr.length lns <=? i) then None
  else Some (List.rev (firstn (S (Z.to_nat i)) lns)).

(** [[lines[cursor.line]]]: the register of [cc] and [S]. *)
Definition yankCurrentLine (s : State) : Update :=
  match Arr.get (lines s) (line (cursor s)) with
  | Some l => upd (setYankBuffer [l])
  | None => throw
  end.

Definition clearCurrentLine (s : State) : Update :=
  updLines (fun prev => Arr.set prev (line (cursor s)) "") ;;
  updCursor (fun prev => {| line := line prev; col := 0 |}) ;;
  upd (setMode insert) ;;
  upd (setModified true).

Definition truncateAtCursor (s : State) : Update :=
  updLines (fun prev =>
    Arr.set prev (line (cursor s))
      (Js.slice (lineOr prev (line (cursor s))) 0 (col (cursor s)))).

Definition handleNormalModeKey (s : State) (key : string) : Update :=
  let count := countOf (numberBuffer s) in
  if isDigitKey key
     && (negb (String.eqb (numberBuffer s) "") || negb (String.eqb key "0"))
  then upd (fun p => setNumberBuffer (numberBuffer p ++ key) p)
  else
    let resetNumber := upd (setNumberBuffer "") in
    let n := Z.to_nat count in
    match switchOn normalCases On_default key with
    (* Movement *)
    | On_h => times n (moveLeft s) ;; resetNumber
    | On_j => times n (moveDown s) ;; resetNumber
    | On_k => times n (moveUp s) ;; resetNumber
    | On_l => times n (moveRight s) ;; resetNumber
    | On_0 => moveToLineStart ;; resetNumber
    | On_dollar => moveToLineEnd s ;; resetNumber
    | On_caret => moveToFirstNonWhitespace s ;; resetNumber
    | On_w => times n (moveWordForward s) ;; resetNumber
    | On_b => times n (moveWordBackward s) ;; resetNumber
    | On_g =>
        (if String.eqb (lastCommand s) "g"
         then moveToTop ;; upd (setLastCommand "")
         else upd (setLastCommand "g")) ;;
        resetNumber
    | On_G =>
        (if negb (String.eqb (numberBuffer s) "")
         then upd (setCursor
                {| line := Z.max 0 (Z.min (count - 1) (Arr.length (lines s) - 1));
                   col := 0 |})
         else moveToBottom s) ;;
        resetNumber
    (* Mode switching *)
    | On_i => upd (setMode insert) ;; resetNumber
    | On_I => moveToFirstNonWhitespace s ;; upd (setMode insert) ;; resetNumber
    | On_a =>
        updCursor (fun prev =>
          {| line := line prev;
             col := Z.min (col prev + 1) (lengthOr (lines s) (line prev) 0) |}) ;;
        upd (setMode insert) ;; resetNumber
    | On_A =>
        updCursor (fun prev =>
          {| line := line prev; col := lengthOr (lines s) (line prev) 0 |}) ;;
        upd (setMode insert) ;; resetNumber
    | On_o => openLineBelow s ;; resetNumber
    | On_O => openLineAbove s ;; resetNumber
    | On_R => upd (setMode replace) ;; resetNumber
    | On_v =>
        upd (setMode visual) ;; upd (setVisualStart (Some (cursor s))) ;;
        resetNumber
    | On_V =>
        upd (setMode visual) ;;
        upd (setVisualStart (Some {| line := line (cursor s); col := 0 |})) ;;
        resetNumber
    | On_colon => upd (setMode command) ;; upd (setCommandBuffer "") ;; resetNumber
    | On_slash => upd (setMode command) ;; upd (setCommandBuffer "/") ;; resetNumber
    (* Editing *)
    | On_x => times n (deleteChar s) ;; resetNumber
    | On_X => times n (backspace s) ;; resetNumber
    | On_d =>
        (if String.eqb (lastCommand s) "d"
         then deleteLine s count ;; upd (setLastCommand "")
         else upd (setLastCommand "d")) ;;
        resetNumber
    | On_D => truncateAtCursor s ;; upd (setModified true) ;; resetNumber
    | On_y =>
        (if String.eqb (lastCommand s) "y"
         then yankLine s count ;; upd (setLastCommand "")
         else upd (setLastCommand "y")) ;;
        resetNumber
    | On_Y => yankLine s count ;; resetNumber
    | On_p => pasteAfter s ;; resetNumber
    | On_P => pasteBefore s ;; resetNumber
    | On_J => joinLines s ;; resetNumber
    | On_u => undoLastChange ;; resetNumber
    | On_r => upd (setLastCommand "r") ;; resetNumber
    | On_c =>
        (if String.eqb (lastCommand s) "c"
         then yankCurrentLine s ;; clearCurrentLine s ;; upd (setLastCommand "")
         else upd (setLastCommand "c")) ;;
        resetNumber
    | On_C =>
        truncateAtCursor s ;; upd (setMode insert) ;; upd (setModified true) ;;
        resetNumber
    | On_s => deleteChar s ;; upd (setMode insert) ;; resetNumber
    | On_S => yankCurrentLine s ;; clearCurrentLine s ;; resetNumber
    (* Search *)
    | On_n =>
        (if String.eqb (searchPattern s) "" then skip
         else
           match linesFrom (lines s) (line (cursor s)) with
           | None => throw
           | Some rest =>
               match searchForward (searchPattern s) (cursor s)
                       (line (cursor s)) rest with
               | Some found => upd (setCursor found)
               | None => skip
               end
           end) ;;
        resetNumber
    | On_N =>
        (if String.eqb (searchPattern s) "" then skip
         else if line (cursor s) <? 0 then skip
         else
           match linesDownFrom (lines s) (line (cursor s)) with
           | None => throw
           | Some downto =>
               match searchBackward (searchPattern s) (cursor s)
                       (line (cursor s)) downto with
               | Some found => upd (setCursor found)
               | None => skip
               end
           end) ;;
        resetNumber
    (* Misc *)
    | On_Escape => upd (setLastCommand "") ;; resetNumber
    | On_dot =>
        showStatus "Repeat command not yet implemented" defaultDuration ;;
        resetNumber
    | On_Control => resetNumber
    | On_default =>
        (* Handle 'r' + character for replace *)
        (if String.eqb (lastCommand s) "r" && (Js.length key =? 1)
         then
           updLines (fun prev =>
             let line_ := lineOr prev (line (cursor s)) in
             Arr.set prev (line (cursor s))
               (Js.slice line_ 0 (col (cursor s)) ++ key
                ++ Js.sliceFrom line_ (col (cursor s) + 1))) ;;
           upd (setModified true) ;;
           upd (setLastCommand "")
         else skip) ;;
        resetNumber
    end.

(** *** Insert, replace and visual mode keys *)

Definition handleInsertModeKey (s : State) (key : string)
  (ctrlKey metaKey : bool) : Update :=
  if String.eqb key "Escape" then
    upd (setMode normal) ;;
    updCursor (fun prev =>
      clampCursor (mode s)
        {| line := line prev; col := Z.max 0 (col prev - 1) |} (lines s))
  else if String.eqb key "Backspace" then backspace s
  else if String.eqb key "Delete" then deleteChar s
  else if String.eqb key "Enter" then insertNewLine s
  else if String.eqb key "Tab" then insertChar s "  "
  else if String.eqb key "ArrowLeft" then moveLeft s
  else if String.eqb key "ArrowRight" then
    updCursor (fun prev =>
      {| line := line prev;
         col := Z.min (col prev + 1) (lengthOr (lines s) (line prev) 0) |})
  else if String.eqb key "ArrowUp" then moveUp s
  else if String.eqb key "ArrowDown" then moveDown s
  else if (Js.length key =? 1) && negb ctrlKey && negb metaKey
  then insertChar s key
  else skip.

Definition handleReplaceModeKey (s : State) (key : string)
  (ctrlKey metaKey : bool) : Update :=
  if String.eqb key "Escape" then upd (setMode normal)
  else if (Js.length key =? 1) && negb ctrlKey && negb metaKey
  then
    updLines (fun prev =>
      let line_ := lineOr prev (line (cursor s)) in
      if col (cursor s) <? Js.length line_
      then Arr.set prev (line (cursor s))
             (Js.slice line_ 0 (col (cursor s)) ++ key
              ++ Js.sliceFrom line_ (col (cursor s) + 1))
      else Arr.set prev (line (cursor s)) (line_ ++ key)) ;;
    updCursor (fun prev => {| line := line prev; col := col prev + 1 |}) ;;
    upd (setModified true)
  else skip.

Inductive VisualCase :=
| Vis_Escape | Vis_h | Vis_j | Vis_k | Vis_l | Vis_d | Vis_y | Vis_none.

Definition visualCases : list (string * VisualCase) :=
  [ ("Escape", Vis_Escape); ("h", Vis_h); ("ArrowLeft", Vis_h);
    ("j", Vis_j); ("ArrowDown", Vis_j); ("k", Vis_k); ("ArrowUp", Vis_k);
    ("l", Vis_l); ("ArrowRight", Vis_l); ("d", Vis_d); ("x", Vis_d);
    ("y", Vis_y) ].

(** The [d]/[x] branch of visual mode for a selection anchored at [anchor]. *)
Definition deleteSelection (s : State) (anchor : CursorPosition) : Update :=
  let startLine := Z.min (line anchor) (line (cursor s)) in
  let endLine := Z.max (line anchor) (line (cursor s)) in
  let deleted := Arr.slice (lines s) startLine (endLine + 1) in
  upd (setYankBuffer deleted) ;;
  updLines (fun prev =>
    Some (pushIfEmpty (Arr.splice prev startLine (endLine - startLine + 1) []))) ;;
  upd (setCursor {| line := startLine; col := 0 |}) ;;
  upd (setModified true) ;;
  showStatus (linesMessage (Arr.length deleted) "deleted") defaultDuration.

(** The [y] branch of visual mode. *)
Definition yankSelection (s : State) (anchor : CursorPosition) : Update :=
  let startLine := Z.min (line anchor) (line (cursor s)) in
  let endLine := Z.max (line anchor) (line (cursor s)) in
  let yanked := Arr.slice (lines s) startLine (endLine + 1) in
  upd (setYankBuffer yanked) ;;
  showStatus (linesMessage (Arr.length yanked) "yanked") defaultDuration.

Definition handleVisualModeKey (s : State) (key : string) : Update :=
  match switchOn visualCases Vis_none key with
  | Vis_Escape => upd (setMode normal) ;; upd (setVisualStart None)
  | Vis_h => moveLeft s
  | Vis_j => moveDown s
  | Vis_k => moveUp s
  | Vis_l => moveRight s
  | Vis_d =>
      (match visualStart s with
       | Some anchor => deleteSelection s anchor
       | None => skip
       end) ;;
      upd (setMode normal) ;; upd (setVisualStart None)
  | Vis_y =>
      (match visualStart s with
       | Some anchor => yankSelection s anchor
       | None => skip
       end) ;;
      upd (setMode normal) ;; upd (setVisualStart None)
  | Vis_none => skip
  end.

(** *** The component's event handlers *)

(** Main key handler, on the editor area. *)
Definition handleKeyDown (s : State) (key : string) (ctrlKey metaKey : bool)
  : Update :=
  match mode s with
  | normal => handleNormalModeKey s key
  | insert => handleInsertModeKey s key ctrlKey metaKey
  | replace => handleReplaceModeKey s key ctrlKey metaKey
  | visual => handleVisualModeKey s key
  | command => skip
  end.

(** Command input handler: [onSubmit] of the form. *)
Definition handleCommandSubmit (s : State) (idle : bool) : Update :=
  executeVimCommand s (commandBuffer s) idle ;; upd (setCommandBuffer "").

(** What can happen to the mounted component.  The form with the command
    input is rendered in command mode only, so its three events are.

    React runs a queued updater [setX(prev => ...)] when it next renders,
    after the handler has returned, unless no update is pending on the
    component at the moment of the call: then it runs the updater at once,
    inside the call, on the rendered state.  Whether an update is pending
    depends on what React rendered before (a render that changed state
    leaves the component marked, so the submit that follows [:] and the
    typing of a command finds it marked), not on the state of the editor, so
    it comes with the event: [idle] says that none is pending.  The updaters
    of this component read their argument and what the handler closed over,
    and only one writes anything, so the moment they run shows in one place:
    the counter that the updater of [%s] increments and its handler prints.
    The other events need no such flag. *)
Inductive Event :=
| KeyDown (key : string) (ctrlKey metaKey : bool)
| CommandChange (value : string)
| CommandKeyDown (key : string)
| CommandSubmit (idle : bool)
| TimerFires (callback : TimerCallback).

Definition TimerCallback_eqb (a b : TimerCallback) : bool :=
  match a, b with
  | ClearStatus, ClearStatus | CallOnExit, CallOnExit => true
  | _, _ => false
  end.

Definition timerSet (cb : TimerCallback) (s : State) : bool :=
  existsb (fun e => match e with
                    | SetTimeout cb' _ => TimerCallback_eqb cb cb'
                    | _ => false
                    end) (out s).

Definition handleEvent (s : State) (e : Event) : Update :=
  match e with
  | KeyDown key ctrlKey metaKey => handleKeyDown s key ctrlKey metaKey
  | CommandChange value =>
      if VimMode_eqb (mode s) command then upd (setCommandBuffer value)
      else skip
  | CommandKeyDown key =>
      if VimMode_eqb (mode s) command && String.eqb key "Escape"
      then upd (setMode normal) ;; upd (setCommandBuffer "")
      else skip
  | CommandSubmit idle =>
      if VimMode_eqb (mode s) command then handleCommandSubmit s idle
      else skip
  | TimerFires cb =>
      if timerSet cb s
      then match cb with
           | ClearStatus => upd (setStatusMessage "")
           | CallOnExit => upd (emit OnExit)
           end
      else skip
  end.

(** One event, handled to completion: the queue starts empty on the rendered
    state and the next render shows its result. *)
Definition step (s : State) (e : Event) : option State := handleEvent s e s.

Fixpoint run (s : State) (events : list Event) : option State :=
  match events with
  | [] => Some s
  | e :: rest =>
      match step s e with
      | Some s' => run s' rest
      | None => None
      end
  end.

End VimEditor.

(** The state of the first render: the initialisers of the [useState] hooks. *)
Definition initialState (initialContent : string) : State :=
  let parts := Js.split initialContent (String "010" "") in
  {| lines := if 0 <? Arr.length parts then parts else [""];
     mode := normal;
     cursor := {| line := 0; col := 0 |};
     commandBuffer := "";
     statusMessage := "";
     modified := false;
     visualStart := None;
     yankBuffer := [];
     searchPattern := "";
     lastCommand := "";
     numberBuffer := "";
     out := [] |}.

(** The states the editor of file [filename] can show: those of a run of
    events from a first render. *)
Definition reachable (filename : string) (s : State) : Prop :=
  exists initialContent events,
    run filename (initialState initialContent) events = Some s.

(** * NanoEditor: the modeless editor of [src/components/NanoEditor.tsx]

    A text area bound to [content], a save prompt, and two shortcuts.  An
    updater of this component never fails, so its callbacks are functions
    [snapshot -> pending -> pending] without an error case. *)

Module Nano.

Record State := mkState {
  content : string;
  modified : bool;
  showSavePrompt : bool;
  statusMessage : string;
  out : list Effect
}.

Definition setContent (v : string) (p : State) : State :=
  mkState v (modified p) (showSavePrompt p) (statusMessage p) (out p).

Definition setModified (v : bool) (p : State) : State :=
  mkState (content p) v (showSavePrompt p) (statusMessage p) (out p).

Definition setShowSavePrompt (v : bool) (p : State) : State :=
  mkState (content p) (modified p) v (statusMessage p) (out p).

Definition setStatusMessage (v : string) (p : State) : State :=
  mkState (content p) (modified p) (showSavePrompt p) v (out p).

Definition emit (e : Effect) (p : State) : State :=
  mkState (content p) (modified p) (showSavePrompt p) (statusMessage p)
    (out p ++ [e])%list.

Definition showStatus (message : string) (p : State) : State :=
  emit (SetTimeout ClearStatus 2000) (setStatusMessage message p).

Definition handleSave (s : State) (p : State) : State :=
  showStatus
    ("[ Wrote "
     ++ Js.ofNumber (Arr.length (Js.split (content s) (String "010" "")))
     ++ " lines ]")
    (setModified false (emit (OnSave (content s)) p)).

Definition handleExit (s : State) (p : State) : State :=
  if modified s then setShowSavePrompt true p else emit OnExit p.

Definition handleKeyDown (s : State) (key : string) (ctrlKey : bool)
  (p : State) : State :=
  (* Ctrl+O: Save *)
  let p := if ctrlKey && String.eqb key "o" then handleSave s p else p in
  (* Ctrl+X: Exit *)
  let p := if ctrlKey && String.eqb key "x" then handleExit s p else p in
  (* Escape: Cancel save prompt *)
  if String.eqb key "Escape" && showSavePrompt s
  then setShowSavePrompt false p else p.

Definition handleSavePromptResponse (s : State) (save : bool) (p : State)
  : State :=
  let p := if save then emit (OnSave (content s)) p else p in
  emit OnExit (setShowSavePrompt false p).

Definition handleChange (s : State) (value : string) (p : State) : State :=
  let p := setContent value p in
  if negb (modified s) then setModified true p else p.

(** What can happen to the mounted component; the three buttons of the
    save prompt exist while the prompt is shown. *)
Inductive Event :=
| KeyDown (key : string) (ctrlKey : bool)
| Change (value : string)
| PromptYes
| PromptNo
| PromptCancel
| TimerFires.

Definition step (s : State) (e : Event) : State :=
  match e with
  | KeyDown key ctrlKey => handleKeyDown s key ctrlKey s
  | Change value => handleChange s value s
  | PromptYes =>
      if showSavePrompt s then handleSavePromptResponse s true s else s
  | PromptNo =>
      if showSavePrompt s then handleSavePromptResponse s false s else s
  | PromptCancel =>
      if showSavePrompt s then setShowSavePrompt false s else s
  | TimerFires =>
      if existsb (fun e => match e with SetTimeout _ _ => true | _ => false end)
           (out s)
      then setStatusMessage "" s else s
  end.

Definition run (s : State) (events : list Event) : State :=
  fold_left step events s.

Definition initialState (initialContent : string) : State :=
  {| content := initialContent;
     modified := false;
     showSavePrompt := false;
     statusMessage := "";
     out := [] |}.

End Nano.

(** * Vocabulary of the properties *)

Definition newline : string := String "010" "".

(** A key pressed on the editor area without Ctrl or Meta. *)
Definition key (k : string) : Event := KeyDown k false false.

(** What [:cmd] and Enter do to the editor just opened on a text. *)
Definition submit (filename initialContent cmd : string) : option State :=
  run filename (initialState initialContent)
    [key ":"; CommandChange cmd; CommandSubmit false].

(** An update that cannot empty a buffer. *)
Definition keepsBuffer (u : Update) : Prop :=
  forall p p', u p = Some p' -> lines p <> [] -> lines p' <> [].

(** The same for the updater of a [setLines]. *)
Definition keepsLines (f : list string -> option (list string)) : Prop :=
  forall l l', f l = Some l' -> l <> [] -> l' <> [].

(** The bounds of a cursor [c] on the lines [lns] for mode [m]: the line is
    one of the buffer, the column is at most the length of that line in
    insert mode and at most the index of its last character otherwise. *)
Definition inBounds (m : VimMode) (lns : list string) (c : CursorPosition)
  : Prop :=
  0 <= line c <= Arr.length lns - 1
  /\ 0 <= col c
     <= (if VimMode_eqb m insert then Js.length (lineOr lns (line c))
         else Z.max (Js.length (lineOr lns (line c)) - 1) 0).

Definition cursorInBounds (s : State) : Prop :=
  inBounds (mode s) (lines s) (cursor s).

(** An update that leaves the observation [f] of the state as it is. *)
Definition preserves {A : Type} (f : State -> A) (u : Update) : Prop :=
  forall p p', u p = Some p' -> f p' = f p.

(** An update after which [P] holds, whatever held before. *)
Definition establishes (P : State -> Prop) (u : Update) : Prop :=
  forall p p', u p = Some p' -> P p'.

(** The character of a decimal digit [d]. *)
Definition digitChar (d : Z) : ascii := ascii_of_nat (48 + Z.to_nat d).

(** A text made of decimal digits only. *)
Fixpoint allDigits (t : string) : bool :=
  match t with
  | EmptyString => true
  | String c r => Js.isDigit c && allDigits r
  end.

(** The text the host holds for the file: the content of the last [onSave]
    call in the log, or [dflt] when there has been none. *)
Fixpoint lastSaved (dflt : string) (log : list Effect) : string :=
  match log with
  | [] => dflt
  | OnSave content :: rest => lastSaved content rest
  | _ :: rest => lastSaved dflt rest
  end.

(** An update that leaves the buffer, the modified flag and the saved text
    as they are, or else leaves the buffer marked modified. *)
Definition dirtyOrSame (u : Update) : Prop :=
  forall p p', u p = Some p' ->
    modified p' = true
    \/ (lines p' = lines p /\ modified p' = modified p
        /\ forall dflt, lastSaved dflt (out p') = lastSaved dflt (out p)).

(** An update after which the buffer is marked modified. *)
Definition marksModified (u : Update) : Prop :=
  establishes (fun p => modified p = true) u.

(** An update that does not clear the modified flag. *)
Definition keepsModified (u : Update) : Prop :=
  forall p p', u p = Some p' -> modified p = true -> modified p' = true.

(** [p] occurs in [t]. *)
Definition occursIn (p t : string) : Prop :=
  exists a b, t = a ++ p ++ b.

(** The key events of typing the text [w], one per character. *)
Definition typing (w : string) : list Event := map key (Js.chars w).

(** The number of lines that [rule] changes. *)
Definition changedLines (rule : string -> string) (lns : list string) : Z :=
  Z.of_nat
    (List.length (filter (fun l => negb (String.eqb (rule l) l)) lns)).

(** The number of [onExit] calls in a log. *)
Definition exitCalls (log : list Effect) : nat :=
  List.length
    (filter (fun e => match e with OnExit => true | _ => false end) log).

(** The number of [onExit] calls a state has seen. *)
Definition exitsOf (p : State) : nat := exitCalls (out p).

(** Position [b] comes after position [a] in reading order. *)
Definition laterThan (a b : CursorPosition) : Prop :=
  line a < line b \/ (line a = line b /\ col a < col b).

(** An occurrence of [p] at [pos] ends at or before the column of [cur], or
    lies on an earlier line. *)
Definition endsBefore (p : string) (pos cur : CursorPosition) : Prop :=
  line pos < line cur
  \/ (line pos = line cur /\ col pos + Js.length p <= col cur).

(** [p] occurs in line [i] of [lns] starting at column [c]. *)
Definition occursAt (p : string) (lns : list string) (pos : CursorPosition)
  : Prop :=
  exists l a b,
    Arr.get lns (line pos) = Some l /\ l = a ++ p ++ b
    /\ col pos = Js.length a.

(** The buffer is unmodified only if its text is the saved text. *)
Definition cleanMeansSaved (initialContent : string) (s : State) : Prop :=
  modified s = false ->
  Js.join newline (lines s) = lastSaved initialContent (out s).

(** * Properties *)

(** Unfolds what a given key of normal mode, not a digit, runs. *)
Ltac normal_key Hmode :=
  unfold step, handleEvent, key, handleKeyDown; rewrite Hmode;
  unfold handleNormalModeKey;
  match goal with
  | |- context [isDigitKey ?k] => change (isDigitKey k) with false
  end;
  cbn [andb];
  match goal with
  | |- context [switchOn normalCases On_default ?k] =>
      let c := eval vm_compute in (switchOn normalCases On_default k) in
      change (switchOn normalCases On_default k) with c
  end;
  cbv iota zeta.

(** ** Ex-commands [q] and [w] *)

(** C4. Submitting [q] while the buffer is modified shows the message E37,
    calls neither collaborator and sets no timer, goes back to normal mode
    and leaves the buffer, the cursor and the register as they were;
    submitting it while the buffer is unmodified calls [onExit]. *)
Theorem quit_refused_when_modified (filename : string) (s : State)
  (idle : bool) :
  mode s = command ->
  Js.trim (commandBuffer s) = "q" ->
  exists s',
    step filename s (CommandSubmit idle) = Some s'
    /\ lines s' = lines s /\ cursor s' = cursor s
    /\ yankBuffer s' = yankBuffer s /\ modified s' = modified s
    /\ (modified s = true ->
        statusMessage s' = "E37: No write since last change (add ! to override)"
        /\ out s' = out s /\ mode s' = normal)
    /\ (modified s = false -> out s' = (out s ++ [OnExit])%list).
Proof.
  intros Hmode Hcmd.
  unfold step, handleEvent, handleCommandSubmit, executeVimCommand.
  rewrite Hmode, Hcmd. cbn.
  destruct (modified s) eqn:Hmod; cbn; eexists; split; try reflexivity;
    cbn; rewrite ?Hmod; repeat split; trivial; discriminate.
Qed.

Lemma quit_refused_when_modified_witness :
  exists s',
    step "notes.txt"
      (setModified true (setCommandBuffer " q " (setMode command (initialState "ab"))))
      (CommandSubmit false) = Some s'
    /\ statusMessage s' = "E37: No write since last change (add ! to override)"
    /\ out s' = [] /\ mode s' = normal /\ lines s' = ["ab"].
Proof.
  destruct (quit_refused_when_modified "notes.txt"
              (setModified true
                 (setCommandBuffer " q " (setMode command (initialState "ab"))))
              false eq_refl eq_refl)
    as (s' & Hstep & Hlines & _ & _ & _ & Hmod & _).
  destruct (Hmod eq_refl) as (Hmsg & Hout & Hm).
  exists s'. repeat split; assumption.
Defined.

(** ** Splitting and joining *)

Lemma append_empty_r (s : string) : s ++ "" = s.
Proof. induction s; cbn; congruence. Qed.

Lemma append_assoc (a b c : string) : (a ++ b) ++ c = a ++ b ++ c.
Proof. induction a; cbn; congruence. Qed.

Lemma length_append (a b : string) :
  String.length (a ++ b) = (String.length a + String.length b)%nat.
Proof. induction a; cbn; congruence. Qed.

Lemma rev_acc_append (s acc t : string) :
  Js.rev_acc s acc ++ t = Js.rev_acc s (acc ++ t).
Proof. revert acc; induction s; intros acc; cbn; [reflexivity | apply IHs]. Qed.

Lemma substring_all (s : string) (n : nat) :
  (String.length s <= n)%nat -> substring 0 n s = s.
Proof.
  revert n; induction s; intros [|n] H; cbn in *; try reflexivity; try lia.
  f_equal. apply IHs. lia.
Qed.

Lemma substring_beyond (s : string) (n m m' : nat) :
  (String.length s <= n + m)%nat -> (String.length s <= n + m')%nat ->
  substring n m s = substring n m' s.
Proof.
  revert n; induction s as [|c s IH]; intros n H H'.
  - destruct n, m, m'; reflexivity.
  - destruct n as [|n].
    + rewrite !substring_all by (cbn in *; lia). reflexivity.
    + cbn in *. apply IH; lia.
Qed.

(** A prefix can be cut off and put back. *)
Lemma prefix_split (p s : string) :
  prefix p s = true ->
  s = p ++ substring (String.length p) (String.length s) s.
Proof.
  revert s; induction p as [|c p IH]; intros s H.
  - cbn. symmetry. apply substring_all. lia.
  - destruct s as [|d s]; [discriminate|].
    cbn in H. destruct (ascii_dec c d) as [Hcd|]; [|discriminate].
    subst d. cbn. f_equal.
    rewrite (substring_beyond s _ _ (String.length s)) by lia.
    now apply IH.
Qed.

Lemma split_go_nonempty fuel sep s cur : Js.split_go fuel sep s cur <> [].
Proof.
  revert s cur; induction fuel as [|fuel IH]; intros s cur; cbn;
    [discriminate|].
  destruct s; [discriminate|].
  destruct (prefix sep _); [discriminate | apply IH].
Qed.

Lemma join_cons sep x rest :
  rest <> [] -> Js.join sep (x :: rest) = x ++ sep ++ Js.join sep rest.
Proof. destruct rest; [congruence | reflexivity]. Qed.

Lemma split_go_join (sep : string) :
  sep <> "" ->
  forall fuel s cur,
    (String.length s < fuel)%nat ->
    Js.join sep (Js.split_go fuel sep s cur) = Js.rev cur ++ s.
Proof.
  intros Hsep. induction fuel as [|fuel IH]; intros s cur Hfuel; [lia|].
  cbn [Js.split_go]. destruct s as [|c r].
  - cbn. now rewrite append_empty_r.
  - destruct (prefix sep (String c r)) eqn:Hp.
    + rewrite join_cons by apply split_go_nonempty.
      pose proof (prefix_split _ _ Hp) as Hs.
      assert (Hlen : (String.length (substring (String.length sep)
                        (String.length (String c r)) (String c r))
                      < fuel)%nat).
      { apply (f_equal String.length) in Hs. rewrite length_append in Hs.
        destruct sep; [congruence|]. cbn in *. lia. }
      rewrite (IH _ "" Hlen). cbn [Js.rev Js.rev_acc append].
      now rewrite <- Hs.
    + rewrite IH by (cbn in Hfuel; lia).
      unfold Js.rev. cbn [Js.rev_acc].
      rewrite !rev_acc_append. reflexivity.
Qed.

(** Joining what [split] has cut gives the text back. *)
Lemma join_split (sep s : string) :
  sep <> "" -> Js.join sep (Js.split s sep) = s.
Proof.
  intros Hsep. unfold Js.split. destruct sep as [|c sep]; [congruence|].
  rewrite split_go_join; [reflexivity | assumption | lia].
Qed.

Lemma initial_lines (initialContent : string) :
  lines (initialState initialContent) = Js.split initialContent newline.
Proof.
  unfold initialState, newline, Js.split. cbn [lines].
  pose proof (split_go_nonempty (S (String.length initialContent))
                (String "010" "") initialContent "") as Hne.
  destruct (Js.split_go _ _ _ _) as [|l ls]; [congruence|].
  unfold Arr.length. cbn [List.length]. rewrite Nat2Z.inj_succ.
  destruct (Z.ltb_spec 0 (Z.succ (Z.of_nat (List.length ls))));
    [reflexivity | lia].
Qed.

(** C5. Submitting [w] calls [onSave] once, with the lines of the buffer
    joined by a line feed, shows ["<name>" <L>L, <C>C written] with the number
    of lines and the length of that text, clears the modified flag and goes
    back to normal mode; and the text of the first render is the initial
    content itself, so that [w] on content a, b, c saves exactly that.  The
    message is spelled out character by character: a double quote (code 34),
    the file name, a double quote, a space, and so on. *)
Theorem write_saves_joined_buffer (filename : string) (s : State)
  (idle : bool) :
  mode s = command ->
  Js.trim (commandBuffer s) = "w" ->
  exists s',
    step filename s (CommandSubmit idle) = Some s'
    /\ out s' = (out s ++ [OnSave (Js.join newline (lines s));
                           SetTimeout ClearStatus 2000])%list
    /\ statusMessage s' =
         String (ascii_of_nat 34)
           (filename
            ++ String (ascii_of_nat 34)
                 (" " ++ Js.ofNumber (Arr.length (lines s)) ++ "L, "
                  ++ Js.ofNumber (Js.length (Js.join newline (lines s)))
                  ++ "C written"))
    /\ modified s' = false /\ mode s' = normal
    /\ lines s' = lines s /\ cursor s' = cursor s
    /\ (forall initialContent,
          lines s = lines (initialState initialContent) ->
          Js.join newline (lines s) = initialContent).
Proof.
  intros Hmode Hcmd.
  assert (Hinit : forall c, lines s = lines (initialState c) ->
                            Js.join newline (lines s) = c).
  { intros c ->. rewrite initial_lines. apply join_split. discriminate. }
  unfold step, handleEvent, handleCommandSubmit, executeVimCommand.
  rewrite Hmode, Hcmd. cbn.
  eexists; split; [reflexivity|].
  repeat match goal with |- _ /\ _ => split end;
    try (cbn; rewrite <- ?app_assoc; reflexivity).
  - cbn. unfold quoted. cbn. f_equal. rewrite append_assoc. reflexivity.
  - exact Hinit.
Qed.

Lemma write_saves_joined_buffer_witness :
  exists s',
    run "notes.txt" (initialState (Js.join newline ["a"; "b"; "c"]))
      [key ":"; CommandChange "w"; CommandSubmit false] = Some s'
    /\ out s' = [OnSave (Js.join newline ["a"; "b"; "c"]);
                 SetTimeout ClearStatus 2000]
    /\ statusMessage s'
       = String (ascii_of_nat 34)
           ("notes.txt" ++ String (ascii_of_nat 34) " 3L, 5C written")
    /\ modified s' = false /\ mode s' = normal.
Proof.
  destruct (write_saves_joined_buffer "notes.txt"
              (setCommandBuffer "w"
                 (setMode command (initialState (Js.join newline ["a"; "b"; "c"]))))
              false eq_refl eq_refl)
    as (s' & Hstep & Hout & Hmsg & Hmod & Hmode & _).
  exists s'. split; [exact Hstep|]. repeat split; assumption.
Defined.

(** ** The register: yank and paste *)

(** C10. With an empty register [pasteAfter] and [pasteBefore] queue
    nothing, whatever the rendered state [s] (any buffer, cursor and mode)
    and whatever is already queued; so the keys [p] and [P] of normal mode
    change neither the buffer, the cursor, the modified flag nor the mode,
    show no status message and set no timer. *)
Theorem paste_empty_register_noop (filename : string) (s p : State) :
  yankBuffer s = [] ->
  pasteAfter s p = Some p
  /\ pasteBefore s p = Some p
  /\ (mode s = normal ->
      forall k, k = "p" \/ k = "P" ->
      exists s',
        step filename s (key k) = Some s'
        /\ lines s' = lines s /\ cursor s' = cursor s
        /\ modified s' = modified s /\ mode s' = mode s
        /\ statusMessage s' = statusMessage s /\ out s' = out s
        /\ yankBuffer s' = yankBuffer s).
Proof.
  intros Hy. unfold pasteAfter, pasteBefore. rewrite Hy. cbn.
  repeat split.
  intros Hmode k [-> | ->];
    unfold step, handleEvent, handleKeyDown; rewrite Hmode;
    unfold handleNormalModeKey; cbn;
    unfold pasteAfter, pasteBefore; rewrite Hy; cbn;
    (eexists; split; [reflexivity|]); cbn; repeat split; assumption.
Qed.

Lemma paste_empty_register_noop_witness :
  pasteAfter (initialState "ab") (initialState "ab") = Some (initialState "ab")
  /\ pasteBefore (initialState "ab") (initialState "ab") = Some (initialState "ab").
Proof.
  destruct (paste_empty_register_noop "notes.txt" (initialState "ab")
              (initialState "ab") eq_refl) as (Ha & Hb & _).
  split; assumption.
Defined.

Lemma relIndex_inside (len i : Z) : 0 <= i <= len -> Js.relIndex len i = i.
Proof.
  intros H. unfold Js.relIndex.
  destruct (Z.ltb_spec i 0); lia.
Qed.

(** Inserting with [splice(i, 0, ...items)] at an index inside the array. *)
Lemma splice_insert {A : Type} (l items : list A) (i : Z) :
  0 <= i <= Arr.length l ->
  Arr.splice l i 0 items
  = (firstn (Z.to_nat i) l ++ items ++ skipn (Z.to_nat i) l)%list.
Proof.
  intros H. unfold Arr.splice. rewrite relIndex_inside by assumption.
  replace (i + Z.min (Z.max 0 0) (Arr.length l - i)) with i by lia.
  reflexivity.
Qed.

(** C6. In normal mode, the [y] that completes [yy] and then [p], with the
    cursor on line [i] of the buffer: the register holds the lines yanked
    from line [i] on, the buffer becomes its lines up to and including line
    [i], then the yanked lines, then its lines after line [i], and the
    register after the paste is the register before it. *)
Theorem yank_then_paste_after (filename : string) (s : State) :
  mode s = normal ->
  lastCommand s = "y" ->
  0 <= line (cursor s) < Arr.length (lines s) ->
  let i := line (cursor s) in
  let count := countOf (numberBuffer s) in
  exists s1 s2,
    step filename s (key "y") = Some s1
    /\ step filename s1 (key "p") = Some s2
    /\ lines s1 = lines s
    /\ yankBuffer s1 = Arr.slice (lines s) i (i + count)
    /\ lines s2 = (firstn (Z.to_nat (i + 1)) (lines s) ++ yankBuffer s1
                   ++ skipn (Z.to_nat (i + 1)) (lines s))%list
    /\ yankBuffer s2 = yankBuffer s1.
Proof.
  intros Hmode Hlast Hi i count.
  unfold step at 1. unfold handleEvent, key, handleKeyDown. rewrite Hmode.
  unfold handleNormalModeKey. cbn. rewrite Hlast. cbn.
  fold count. fold i.
  eexists. 
  assert (Hp : forall s1, mode s1 = normal -> lines s1 = lines s ->
             cursor s1 = cursor s ->
             exists s2, step filename s1 (KeyDown "p" false false) = Some s2
               /\ lines s2 = (firstn (Z.to_nat (i + 1)) (lines s) ++ yankBuffer s1
                   ++ skipn (Z.to_nat (i + 1)) (lines s))%list
               /\ yankBuffer s2 = yankBuffer s1).
  { intros s1 Hm1 Hl1 Hc1.
    unfold step, handleEvent, handleKeyDown. rewrite Hm1.
    unfold handleNormalModeKey. cbn. unfold pasteAfter.
    destruct (Arr.length (yankBuffer s1) =? 0) eqn:Hlen.
    - cbn. eexists; split; [reflexivity|]. cbn. split; [|reflexivity].
      destruct (yankBuffer s1); [|discriminate]. cbn.
      rewrite Hl1. symmetry. apply firstn_skipn.
    - cbn. eexists; split; [reflexivity|]. cbn. split; [|reflexivity].
      rewrite Hl1, Hc1. apply splice_insert. fold i. lia. }
  edestruct Hp as (s2 & Hs2 & Hl2 & Hy2);
    [ | | | exists s2; split; [reflexivity|]; split; [exact Hs2|];
            split; [|split; [|split; [exact Hl2 | exact Hy2]]] ];
    try reflexivity; assumption.
Qed.

Lemma yank_then_paste_after_witness :
  exists s2,
    run "notes.txt" (initialState (Js.join newline ["a"; "b"; "c"]))
      [key "j"; key "y"; key "y"; key "p"] = Some s2
    /\ lines s2 = ["a"; "b"; "b"; "c"] /\ yankBuffer s2 = ["b"].
Proof.
  destruct (yank_then_paste_after "notes.txt"
              (setLastCommand "y"
                 (setCursor {| line := 1; col := 0 |}
                    (initialState (Js.join newline ["a"; "b"; "c"]))))
              eq_refl eq_refl ltac:(vm_compute; split; [discriminate | reflexivity]))
    as (s1 & s2 & H1 & H2 & _ & Hy1 & Hl2 & Hy2).
  exists s2. split.
  - cbn [run]. change (step "notes.txt"
        (initialState (Js.join newline ["a"; "b"; "c"])) (key "j"))
      with (Some (setCursor {| line := 1; col := 0 |}
                    (initialState (Js.join newline ["a"; "b"; "c"])))).
    cbv iota beta.
    change (step "notes.txt" (setCursor {| line := 1; col := 0 |}
                    (initialState (Js.join newline ["a"; "b"; "c"]))) (key "y"))
      with (Some (setLastCommand "y"
                 (setCursor {| line := 1; col := 0 |}
                    (initialState (Js.join newline ["a"; "b"; "c"]))))).
    cbv iota beta. rewrite H1. cbv iota beta. rewrite H2. reflexivity.
  - rewrite Hl2, Hy2, Hy1. split; reflexivity.
Defined.

(** ** Line deletion and the cursor *)

(** C3. [dd] on the first of three lines leaves the other two, puts the
    deleted line in the register and keeps the cursor at (0, 0); [dd] on the
    last of three lines also removes the line into the register, but the
    cursor, clamped against the lines of the render in which [dd] was typed,
    stays on line 2 of a buffer that has lines 0 and 1 only. *)
Theorem deleteLine_clamps_against_old_lines :
  (exists s',
      run "notes.txt" (initialState (Js.join newline ["one"; "two"; "three"]))
        [key "d"; key "d"] = Some s'
      /\ lines s' = ["two"; "three"] /\ yankBuffer s' = ["one"]
      /\ cursor s' = {| line := 0; col := 0 |})
  /\ (exists s',
      run "notes.txt" (initialState (Js.join newline ["a"; "b"; "c"]))
        [key "j"; key "j"; key "d"; key "d"] = Some s'
      /\ lines s' = ["a"; "b"] /\ yankBuffer s' = ["c"]
      /\ cursor s' = {| line := 2; col := 0 |}
      /\ Arr.get (lines s') (line (cursor s')) = None).
Proof.
  split; eexists; (split; [vm_compute; reflexivity|]);
    repeat split; reflexivity.
Qed.

(** C7. With the line "abc" in the register and the cursor at (0, 2), [p]
    puts the line after the cursor's line and the cursor on it at column 0;
    [P] puts the line before the cursor's line and leaves the cursor where it
    was: on the pasted line, but at column 2. *)
Theorem pasteBefore_keeps_column :
  (exists s',
      run "notes.txt" (initialState "abc")
        [key "y"; key "y"; key "$"; key "p"] = Some s'
      /\ lines s' = ["abc"; "abc"] /\ cursor s' = {| line := 1; col := 0 |})
  /\ (exists s',
      run "notes.txt" (initialState "abc")
        [key "y"; key "y"; key "$"; key "P"] = Some s'
      /\ lines s' = ["abc"; "abc"] /\ cursor s' = {| line := 0; col := 2 |}).
Proof.
  split; eexists; (split; [vm_compute; reflexivity|]);
    repeat split; reflexivity.
Qed.

(** ** Substitution *)

(** C8. On the line "a,b,c", [s/,/;/] changes the first comma only and
    [s/,/;/g] all of them, each reporting [1 substitution].  On the line "a",
    [s/a/$&/g] inserts the new text as it is written, whereas [s/a/$&/]
    expands it as a replacement pattern: the line stays "a" and the report is
    [Pattern not found]; and [s/a/$$/] writes one dollar, not two. *)
Theorem substitute_first_expands_dollar_patterns :
  (exists s', submit "notes.txt" "a,b,c" "s/,/;/" = Some s'
      /\ lines s' = ["a;b,c"] /\ statusMessage s' = "1 substitution")
  /\ (exists s', submit "notes.txt" "a,b,c" "s/,/;/g" = Some s'
      /\ lines s' = ["a;b;c"] /\ statusMessage s' = "1 substitution")
  /\ (exists s', submit "notes.txt" "a" "s/a/$&/g" = Some s'
      /\ lines s' = ["$&"] /\ statusMessage s' = "1 substitution")
  /\ (exists s', submit "notes.txt" "a" "s/a/$&/" = Some s'
      /\ lines s' = ["a"] /\ statusMessage s' = "Pattern not found")
  /\ (exists s', submit "notes.txt" "a" "s/a/$$/" = Some s'
      /\ lines s' = ["$"] /\ statusMessage s' = "1 substitution").
Proof.
  repeat split; eexists; (split; [vm_compute; reflexivity|]);
    split; reflexivity.
Qed.

Lemma substituteAll_lines flags oldText newText prev count :
  fst (substituteAll flags oldText newText prev count)
  = map (substituteLine flags oldText newText) prev.
Proof.
  revert count; induction prev as [|l prev IH]; intros count; cbn;
    [reflexivity|].
  specialize (IH (if String.eqb (substituteLine flags oldText newText l) l
                  then count else count + 1)).
  destruct (substituteAll _ _ _ prev _). cbn in *. now f_equal.
Qed.

(** ** The buffer is never empty *)

Lemma keeps_andThen u v : keepsBuffer u -> keepsBuffer v -> keepsBuffer (u ;; v).
Proof.
  intros Hu Hv p p' H Hp. unfold andThen in H.
  destruct (u p) as [q|] eqn:Hq; [|discriminate]. eauto.
Qed.

Lemma keeps_skip : keepsBuffer skip.
Proof. intros p p' [= <-] H. exact H. Qed.

Lemma keeps_throw : keepsBuffer throw.
Proof. intros p p' [=]. Qed.

Lemma keeps_times n u : keepsBuffer u -> keepsBuffer (times n u).
Proof.
  intros Hu. induction n; cbn; [apply keeps_skip | now apply keeps_andThen].
Qed.

Lemma keeps_upd f : (forall p, lines (f p) = lines p) -> keepsBuffer (upd f).
Proof. intros Hf p p' [= <-] H. now rewrite Hf. Qed.

Lemma keeps_updCursor f : keepsBuffer (updCursor f).
Proof. now apply keeps_upd. Qed.

Lemma keeps_updLines f : keepsLines f -> keepsBuffer (updLines f).
Proof.
  intros Hf p p' H Hp. unfold updLines in H.
  destruct (f (lines p)) as [l|] eqn:Hl; [|discriminate].
  injection H as <-. cbn. eauto.
Qed.

Lemma keeps_if (b : bool) u v :
  keepsBuffer u -> keepsBuffer v -> keepsBuffer (if b then u else v).
Proof. now destruct b. Qed.

Lemma keeps_showStatus message duration :
  keepsBuffer (showStatus message duration).
Proof.
  unfold showStatus. apply keeps_andThen; [now apply keeps_upd|].
  apply keeps_if; [now apply keeps_upd | apply keeps_skip].
Qed.

Lemma set_nonempty {A : Type} (l l' : list A) i v :
  Arr.set l i v = Some l' -> l' <> [].
Proof.
  unfold Arr.set. destruct (i <? 0); [discriminate|].
  destruct (i <? Arr.length l).
  - intros [= <-]. destruct (firstn _ l); discriminate.
  - destruct (i =? Arr.length l); [|discriminate].
    intros [= <-]. destruct l; discriminate.
Qed.

Lemma firstn_nonempty {A : Type} (l : list A) n :
  l <> [] -> (1 <= n)%nat -> firstn n l <> [].
Proof. destruct l, n; cbn; try congruence; lia. Qed.

(** [splice] from index 1 on leaves the first element in place. *)
Lemma splice_keeps_head {A : Type} (l items : list A) start deleteCount :
  l <> [] -> 1 <= start -> Arr.splice l start deleteCount items <> [].
Proof.
  intros Hl Hs. unfold Arr.splice.
  assert (1 <= Arr.length l) by (destruct l; [congruence | unfold Arr.length; cbn; lia]).
  assert (1 <= Js.relIndex (Arr.length l) start)
    by (unfold Js.relIndex; destruct (Z.ltb_spec start 0); lia).
  intros E. apply app_eq_nil in E as [E _].
  revert E. apply firstn_nonempty; [assumption | lia].
Qed.

(** [splice] that deletes nothing cannot empty an array. *)
Lemma splice_insert_nonempty {A : Type} (l items : list A) start :
  l <> [] -> Arr.splice l start 0 items <> [].
Proof.
  intros Hl. unfold Arr.splice.
  replace (Z.min (Z.max 0 0) (Arr.length l - Js.relIndex (Arr.length l) start))
    with 0.
  2:{ unfold Js.relIndex. destruct (Z.ltb_spec start 0); unfold Arr.length; lia. }
  rewrite Z.add_0_r. intros E.
  apply app_eq_nil in E as [E1 E]. apply app_eq_nil in E as [_ E2].
  rewrite <- (firstn_skipn (Z.to_nat (Js.relIndex (Arr.length l) start)) l) in Hl.
  rewrite E1, E2 in Hl. now apply Hl.
Qed.

Lemma pushIfEmpty_nonempty l : pushIfEmpty l <> [].
Proof. destruct l; discriminate. Qed.

Lemma keeps_set i (v : list string -> string) :
  keepsLines (fun prev => Arr.set prev i (v prev)).
Proof. intros l l' H _. eapply set_nonempty, H. Qed.

Lemma keeps_set_splice i j d (v : list string -> string) :
  1 <= j ->
  keepsLines (fun prev =>
    option_map (fun newLines => Arr.splice newLines j d [])
      (Arr.set prev i (v prev))).
Proof.
  intros Hj l l' H _.
  destruct (Arr.set l i (v l)) as [nl|] eqn:Hset; [|discriminate].
  injection H as <-. apply splice_keeps_head; [|assumption].
  eapply set_nonempty, Hset.
Qed.

(** A successful indexed write has a non-negative index. *)
Lemma set_index_nonneg {A : Type} (l l' : list A) i v :
  Arr.set l i v = Some l' -> 0 <= i.
Proof.
  unfold Arr.set. destruct (Z.ltb_spec i 0); [discriminate | lia].
Qed.

(** [newLines[i] = v] followed by a [splice] at [i + 1]. *)
Ltac set_then_splice_next H :=
  match type of H with
  | option_map _ (Arr.set ?a ?i ?v) = Some _ =>
      let Hset := fresh "Hset" in
      destruct (Arr.set a i v) eqn:Hset; [|discriminate];
      injection H as <-;
      apply splice_keeps_head;
      [ eapply set_nonempty, Hset
      | apply set_index_nonneg in Hset; lia ]
  end.

Ltac keeps_step :=
  match goal with
  | |- keepsBuffer skip => apply keeps_skip
  | |- keepsBuffer throw => apply keeps_throw
  | |- keepsBuffer (showStatus _ _) => apply keeps_showStatus
  | |- keepsBuffer (updCursor _) => apply keeps_updCursor
  | |- keepsBuffer (upd _) => apply keeps_upd; intros; reflexivity
  | |- keepsBuffer (_ ;; _) => apply keeps_andThen
  | |- keepsBuffer (times _ _) => apply keeps_times
  | |- keepsBuffer (if _ then _ else _) => apply keeps_if
  end.

Ltac keeps := repeat keeps_step.

Ltac keeps_lines :=
  apply keeps_updLines;
  first
    [ intros l l' H _; eapply set_nonempty, H
    | intros l l' H _; set_then_splice_next H
    | intros l l' [= <-] Hl; first
        [ apply pushIfEmpty_nonempty
        | apply splice_insert_nonempty, Hl ] ].

Lemma keeps_insertChar s char : keepsBuffer (insertChar s char).
Proof. unfold insertChar. keeps. keeps_lines. Qed.

Lemma keeps_insertNewLine s : keepsBuffer (insertNewLine s).
Proof. unfold insertNewLine. keeps. keeps_lines. Qed.

Lemma keeps_deleteChar s : keepsBuffer (deleteChar s).
Proof.
  unfold deleteChar. keeps. apply keeps_updLines. intros l l' H Hl.
  destruct (col (cursor s) <? _).
  - eapply set_nonempty, H.
  - destruct (line (cursor s) <? _).
    + set_then_splice_next H.
    + now injection H as <-.
Qed.

Lemma keeps_backspace s : keepsBuffer (backspace s).
Proof.
  unfold backspace. destruct (0 <? col (cursor s)).
  - keeps. keeps_lines.
  - destruct (Z.ltb_spec 0 (line (cursor s))); keeps.
    apply keeps_updLines.
    apply (keeps_set_splice _ _ _
             (fun prev => lineOr prev (line (cursor s) - 1)
                          ++ lineOr prev (line (cursor s)))).
    lia.
Qed.

Lemma keeps_deleteLine s count : keepsBuffer (deleteLine s count).
Proof. unfold deleteLine. keeps. keeps_lines. Qed.

Lemma keeps_yankLine s count : keepsBuffer (yankLine s count).
Proof. unfold yankLine. keeps. Qed.

Lemma keeps_pasteBefore s : keepsBuffer (pasteBefore s).
Proof. unfold pasteBefore. keeps. keeps_lines. Qed.

Lemma keeps_pasteAfter s : keepsBuffer (pasteAfter s).
Proof. unfold pasteAfter. keeps. keeps_lines. Qed.

Lemma keeps_openLineBelow s : keepsBuffer (openLineBelow s).
Proof. unfold openLineBelow. keeps. keeps_lines. Qed.

Lemma keeps_openLineAbove s : keepsBuffer (openLineAbove s).
Proof. unfold openLineAbove. keeps. keeps_lines. Qed.

Lemma keeps_joinLines s : keepsBuffer (joinLines s).
Proof. unfold joinLines. keeps. keeps_lines. Qed.

Lemma keeps_deleteSelection s anchor : keepsBuffer (deleteSelection s anchor).
Proof. unfold deleteSelection. keeps. keeps_lines. Qed.

Lemma keeps_yankSelection s anchor : keepsBuffer (yankSelection s anchor).
Proof. unfold yankSelection. keeps. Qed.

Lemma keeps_moveLeft s : keepsBuffer (moveLeft s).
Proof. apply keeps_updCursor. Qed.

Lemma keeps_moveRight s : keepsBuffer (moveRight s).
Proof. apply keeps_updCursor. Qed.

Lemma keeps_moveUp s : keepsBuffer (moveUp s).
Proof. apply keeps_updCursor. Qed.

Lemma keeps_moveDown s : keepsBuffer (moveDown s).
Proof. apply keeps_updCursor. Qed.

Lemma keeps_moveWordForward s : keepsBuffer (moveWordForward s).
Proof. apply keeps_updCursor. Qed.

Lemma keeps_moveWordBackward s : keepsBuffer (moveWordBackward s).
Proof. apply keeps_updCursor. Qed.

Lemma keeps_moveToFirstNonWhitespace s :
  keepsBuffer (moveToFirstNonWhitespace s).
Proof. apply keeps_updCursor. Qed.

Lemma keeps_moveToLineEnd s : keepsBuffer (moveToLineEnd s).
Proof. apply keeps_updCursor. Qed.

Lemma keeps_moveToLineStart : keepsBuffer moveToLineStart.
Proof. apply keeps_updCursor. Qed.

Lemma keeps_moveToTop : keepsBuffer moveToTop.
Proof. now apply keeps_upd. Qed.

Lemma keeps_moveToBottom s : keepsBuffer (moveToBottom s).
Proof. now apply keeps_upd. Qed.

Lemma keeps_undoLastChange : keepsBuffer undoLastChange.
Proof. apply keeps_showStatus. Qed.

Lemma keeps_yankCurrentLine s : keepsBuffer (yankCurrentLine s).
Proof. unfold yankCurrentLine. destruct (Arr.get _ _); keeps. Qed.

Lemma keeps_clearCurrentLine s : keepsBuffer (clearCurrentLine s).
Proof. unfold clearCurrentLine. keeps. keeps_lines. Qed.

Lemma keeps_truncateAtCursor s : keepsBuffer (truncateAtCursor s).
Proof. unfold truncateAtCursor. keeps_lines. Qed.

Lemma keeps_executeVimCommand filename s cmd idle :
  keepsBuffer (executeVimCommand filename s cmd idle).
Proof.
  unfold executeVimCommand.
  destruct (Js.parseInt _); [keeps|].
  repeat match goal with
         | |- keepsBuffer (if ?b then _ else _) =>
             apply keeps_if
         end; keeps.
  - destruct (linesFrom _ _); keeps.
    destruct (searchForward _ _ _ _); keeps.
  - keeps_lines.
  - apply keeps_updLines. intros l l' [= <-] Hl.
    rewrite substituteAll_lines. destruct l; [congruence | discriminate].
Qed.

Ltac keeps_callbacks :=
  repeat first
    [ keeps_step
    | match goal with
      | |- keepsBuffer (insertChar _ _) => apply keeps_insertChar
      | |- keepsBuffer (insertNewLine _) => apply keeps_insertNewLine
      | |- keepsBuffer (deleteChar _) => apply keeps_deleteChar
      | |- keepsBuffer (backspace _) => apply keeps_backspace
      | |- keepsBuffer (deleteLine _ _) => apply keeps_deleteLine
      | |- keepsBuffer (yankLine _ _) => apply keeps_yankLine
      | |- keepsBuffer (pasteBefore _) => apply keeps_pasteBefore
      | |- keepsBuffer (pasteAfter _) => apply keeps_pasteAfter
      | |- keepsBuffer (openLineBelow _) => apply keeps_openLineBelow
      | |- keepsBuffer (openLineAbove _) => apply keeps_openLineAbove
      | |- keepsBuffer (joinLines _) => apply keeps_joinLines
      | |- keepsBuffer (deleteSelection _ _) => apply keeps_deleteSelection
      | |- keepsBuffer (yankSelection _ _) => apply keeps_yankSelection
      | |- keepsBuffer (yankCurrentLine _) => apply keeps_yankCurrentLine
      | |- keepsBuffer (clearCurrentLine _) => apply keeps_clearCurrentLine
      | |- keepsBuffer (truncateAtCursor _) => apply keeps_truncateAtCursor
      | |- keepsBuffer (moveLeft _) => apply keeps_moveLeft
      | |- keepsBuffer (moveRight _) => apply keeps_moveRight
      | |- keepsBuffer (moveUp _) => apply keeps_moveUp
      | |- keepsBuffer (moveDown _) => apply keeps_moveDown
      | |- keepsBuffer (moveWordForward _) => apply keeps_moveWordForward
      | |- keepsBuffer (moveWordBackward _) => apply keeps_moveWordBackward
      | |- keepsBuffer (moveToFirstNonWhitespace _) =>
          apply keeps_moveToFirstNonWhitespace
      | |- keepsBuffer (moveToLineEnd _) => apply keeps_moveToLineEnd
      | |- keepsBuffer moveToLineStart => apply keeps_moveToLineStart
      | |- keepsBuffer moveToTop => apply keeps_moveToTop
      | |- keepsBuffer (moveToBottom _) => apply keeps_moveToBottom
      | |- keepsBuffer undoLastChange => apply keeps_undoLastChange
      end ].

Lemma keeps_handleNormalModeKey s k : keepsBuffer (handleNormalModeKey s k).
Proof.
  unfold handleNormalModeKey. apply keeps_if; [keeps|]. cbv zeta.
  destruct (switchOn normalCases On_default k); keeps_callbacks.
  - destruct (linesFrom _ _); keeps.
    destruct (searchForward _ _ _ _); keeps.
  - destruct (linesDownFrom _ _); keeps.
    destruct (searchBackward _ _ _ _); keeps.
  - keeps_lines.
Qed.

Lemma keeps_handleInsertModeKey s k ctrlKey metaKey :
  keepsBuffer (handleInsertModeKey s k ctrlKey metaKey).
Proof.
  unfold handleInsertModeKey.
  repeat match goal with
         | |- keepsBuffer (if ?b then _ else _) => apply keeps_if
         end; keeps_callbacks.
Qed.

Lemma keeps_handleReplaceModeKey s k ctrlKey metaKey :
  keepsBuffer (handleReplaceModeKey s k ctrlKey metaKey).
Proof.
  unfold handleReplaceModeKey. keeps. apply keeps_updLines.
  intros l l' H _. destruct (col (cursor s) <? _); eapply set_nonempty, H.
Qed.

Lemma keeps_handleVisualModeKey s k : keepsBuffer (handleVisualModeKey s k).
Proof.
  unfold handleVisualModeKey.
  destruct (switchOn visualCases Vis_none k); keeps_callbacks;
    destruct (visualStart s); keeps_callbacks.
Qed.

Lemma keeps_handleEvent filename s e : keepsBuffer (handleEvent filename s e).
Proof.
  destruct e as [k ctrlKey metaKey | value | k | idle | cb]; cbn [handleEvent].
  - unfold handleKeyDown. destruct (mode s).
    + apply keeps_handleNormalModeKey.
    + apply keeps_handleInsertModeKey.
    + apply keeps_handleVisualModeKey.
    + apply keeps_skip.
    + apply keeps_handleReplaceModeKey.
  - keeps.
  - keeps.
  - apply keeps_if; [|apply keeps_skip]. unfold handleCommandSubmit.
    apply keeps_andThen; [apply keeps_executeVimCommand | keeps].
  - apply keeps_if; [|apply keeps_skip]. destruct cb; keeps.
Qed.

Lemma initial_nonempty initialContent : lines (initialState initialContent) <> [].
Proof. rewrite initial_lines. apply split_go_nonempty. Qed.

Lemma run_nonempty filename events :
  forall s s', run filename s events = Some s' -> lines s <> [] -> lines s' <> [].
Proof.
  induction events as [|e events IH]; intros s s' H Hs; cbn in H.
  - now injection H as <-.
  - destruct (step filename s e) as [s1|] eqn:Hstep; [|discriminate].
    apply (IH _ _ H). exact (keeps_handleEvent filename s e s s1 Hstep Hs).
Qed.

Lemma length_nonempty (l : list string) : l <> [] -> 1 <= Arr.length l.
Proof. destruct l; [congruence | unfold Arr.length; cbn; lia]. Qed.

(** C1. Every state the editor can reach from its first render, whatever
    the initial content and the events, has at least one line in its buffer;
    and from such a state [dd] with any count and the deletion of a visual
    selection with any anchor go through and leave at least one line. *)
Theorem buffer_never_empty (filename : string) (s : State) :
  reachable filename s ->
  1 <= Arr.length (lines s)
  /\ (forall count, exists s',
        deleteLine s count s = Some s' /\ 1 <= Arr.length (lines s'))
  /\ (forall anchor, exists s',
        deleteSelection s anchor s = Some s' /\ 1 <= Arr.length (lines s')).
Proof.
  intros (initialContent & events & Hrun).
  assert (Hs : lines s <> [])
    by (eapply run_nonempty; [exact Hrun | apply initial_nonempty]).
  split; [now apply length_nonempty|]. split.
  - intros count.
    destruct (deleteLine s count s) as [s'|] eqn:Hd.
    + exists s'. split; [reflexivity|].
      apply length_nonempty. exact (keeps_deleteLine s count s s' Hd Hs).
    + exfalso. revert Hd. unfold deleteLine, andThen, showStatus, andThen.
      cbn. discriminate.
  - intros anchor.
    destruct (deleteSelection s anchor s) as [s'|] eqn:Hd.
    + exists s'. split; [reflexivity|].
      apply length_nonempty. exact (keeps_deleteSelection s anchor s s' Hd Hs).
    + exfalso. revert Hd. unfold deleteSelection, andThen, showStatus, andThen.
      cbn. discriminate.
Qed.

Lemma buffer_never_empty_witness :
  exists s,
    run "notes.txt" (initialState (Js.join newline ["a"; "b"]))
      [key "V"; key "j"; key "d"; key "d"; key "9"; key "d"] = Some s
    /\ lines s = [""] /\ 1 <= Arr.length (lines s).
Proof.
  eexists. split; [vm_compute; reflexivity|]. split; [reflexivity|].
  apply (buffer_never_empty "notes.txt").
  exists (Js.join newline ["a"; "b"]),
    [key "V"; key "j"; key "d"; key "d"; key "9"; key "d"].
  vm_compute. reflexivity.
Defined.

(** ** Cursor bounds *)


Lemma substring_length (s : string) (n m : nat) :
  String.length (substring n m s) = Nat.min m (String.length s - n).
Proof.
  revert n m; induction s as [|c s IH]; intros n m.
  - destruct n, m; reflexivity.
  - destruct n as [|n]; cbn.
    + destruct m as [|m]; cbn; [reflexivity|]. rewrite IH. f_equal. f_equal. lia.
    + apply IH.
Qed.

Lemma js_length_append (a b : string) :
  Js.length (a ++ b) = Js.length a + Js.length b.
Proof. unfold Js.length. rewrite length_append. lia. Qed.

Lemma js_length_nonneg (s : string) : 0 <= Js.length s.
Proof. unfold Js.length. lia. Qed.

Lemma slice_length (s : string) (a b : Z) :
  0 <= a <= b -> b <= Js.length s -> Js.length (Js.slice s a b) = b - a.
Proof.
  intros Ha Hb. unfold Js.slice.
  rewrite !relIndex_inside by lia.
  unfold Js.length in *. rewrite substring_length. lia.
Qed.

Lemma sliceFrom_length (s : string) (a : Z) :
  0 <= a <= Js.length s -> Js.length (Js.sliceFrom s a) = Js.length s - a.
Proof. intros Ha. unfold Js.sliceFrom. apply slice_length; lia. Qed.

Lemma arr_length_nonneg {A : Type} (l : list A) : 0 <= Arr.length l.
Proof. unfold Arr.length. lia. Qed.

Lemma get_inside {A : Type} (l : list A) (i : Z) :
  0 <= i < Arr.length l -> exists x, Arr.get l i = Some x.
Proof.
  intros H. unfold Arr.get. destruct (Z.ltb_spec i 0); [lia|].
  destruct (nth_error l (Z.to_nat i)) eqn:E; [eauto|].
  apply nth_error_None in E. unfold Arr.length in H. lia.
Qed.

(** An indexed write inside the array or just at its end: the array holds
    the value at that index and has grown by one at most. *)
Lemma set_spec {A : Type} (l l' : list A) (i : Z) (v : A) :
  Arr.set l i v = Some l' ->
  Arr.get l' i = Some v
  /\ Arr.length l' = Z.max (Arr.length l) (i + 1)
  /\ 0 <= i <= Arr.length l.
Proof.
  unfold Arr.set, Arr.get, Arr.length.
  destruct (Z.ltb_spec i 0); [discriminate|].
  destruct (Z.ltb_spec i (Z.of_nat (List.length l))).
  - assert (Hf : List.length (firstn (Z.to_nat i) l) = Z.to_nat i)
      by (rewrite length_firstn; lia).
    assert (Hs : List.length (skipn (S (Z.to_nat i)) l)
                 = (List.length l - S (Z.to_nat i))%nat)
      by apply length_skipn.
    revert Hs. generalize (skipn (S (Z.to_nat i)) l) as tl.
    intros tl Hs [= <-].
    repeat split; try lia.
    + rewrite nth_error_app2 by lia. rewrite Hf, Nat.sub_diag. reflexivity.
    + rewrite length_app, Hf. cbn [List.length]. lia.
  - destruct (Z.eqb_spec i (Z.of_nat (List.length l))); [|discriminate].
    intros [= <-]. repeat split; try lia.
    + rewrite nth_error_app2 by lia.
      replace (Z.to_nat i - List.length l)%nat with O by lia. reflexivity.
    + rewrite length_app. cbn. lia.
Qed.

Lemma lineOr_get (lns : list string) (i : Z) (l : string) :
  Arr.get lns i = Some l -> lineOr lns i = l.
Proof. unfold lineOr. now intros ->. Qed.

Lemma clampCursor_inBounds (m : VimMode) (pos : CursorPosition)
  (lns : list string) :
  1 <= Arr.length lns -> inBounds m lns (clampCursor m pos lns).
Proof.
  intros Hlen. unfold inBounds, clampCursor. cbn [line col].
  set (ln := Z.max 0 (Z.min (line pos) (Arr.length lns - 1))).
  assert (Hln : 0 <= ln < Arr.length lns) by lia.
  destruct (get_inside lns ln Hln) as [l Hl].
  unfold lengthOr. rewrite (lineOr_get _ _ _ Hl), Hl.
  pose proof (js_length_nonneg l).
  split; [lia|].
  destruct (VimMode_eqb m insert); destruct (Z.eqb_spec (Js.length l) 0); lia.
Qed.

Lemma set_inside {A : Type} (l : list A) (i : Z) (v : A) :
  0 <= i <= Arr.length l -> exists l', Arr.set l i v = Some l'.
Proof.
  intros H. unfold Arr.set. destruct (Z.ltb_spec i 0); [lia|].
  destruct (Z.ltb_spec i (Arr.length l)); [eauto|].
  destruct (Z.eqb_spec i (Arr.length l)); [eauto | lia].
Qed.

Lemma single_key_not_Escape (k : string) :
  Js.length k = 1 -> String.eqb k "Escape" = false.
Proof.
  unfold Js.length. intros H.
  assert (Hn : String.length k = 1%nat) by lia. clear H.
  destruct k as [|c [|d k]]; try discriminate.
  cbn. now destruct (Ascii.eqb c "E").
Qed.

(** Replace mode advances the column without clamping: on the text "ab",
    [R] and then two typed characters leave the cursor at column 2 of a line
    of two characters, beyond the index of its last character. *)
Lemma replace_mode_cursor_past_last_char :
  exists s,
    run "notes.txt" (initialState "ab") [key "R"; key "x"; key "y"] = Some s
    /\ reachable "notes.txt" s
    /\ mode s = replace /\ lines s = ["xy"]
    /\ cursor s = {| line := 0; col := 2 |}
    /\ ~ cursorInBounds s.
Proof.
  eexists. split; [vm_compute; reflexivity|]. split.
  - exists "ab", [key "R"; key "x"; key "y"]. vm_compute. reflexivity.
  - repeat split. unfold cursorInBounds, inBounds. cbn. lia.
Qed.

(** What [clampCursor] itself ensures.  On a buffer with at least one line
    it returns a line of the buffer and a column within [0, lineLength] when
    the mode is insert and within [0, max(lineLength-1, 0)] in every other
    mode, and that is the cursor [moveLeft], [moveRight], [moveUp] and
    [moveDown] store.  A character typed in replace mode advances the column
    by one without it: from a column within [0, lineLength] the column stays
    within [0, lineLength] of the line as rewritten. *)
Theorem cursor_clamped_by_design (filename : string) (s p : State)
  (pos : CursorPosition) (k : string) :
  1 <= Arr.length (lines s) ->
  inBounds (mode s) (lines s) (clampCursor (mode s) pos (lines s))
  /\ (forall mv, In mv [moveLeft; moveRight; moveUp; moveDown] ->
      exists p',
        mv s p = Some p' /\ lines p' = lines p
        /\ inBounds (mode s) (lines s) (cursor p'))
  /\ (mode s = replace -> Js.length k = 1 ->
      inBounds insert (lines s) (cursor s) ->
      exists s',
        step filename s (key k) = Some s'
        /\ mode s' = replace
        /\ cursor s' = {| line := line (cursor s); col := col (cursor s) + 1 |}
        /\ inBounds insert (lines s') (cursor s')).
Proof.
  intros Hlen. split; [now apply clampCursor_inBounds|]. split.
  - intros mv Hmv. cbn in Hmv.
    destruct Hmv as [<- | [<- | [<- | [<- | []]]]];
      (eexists; split; [reflexivity|]; split; [reflexivity|]);
      cbn; now apply clampCursor_inBounds.
  - intros Hmode Hk [Hline Hcol]. cbn in Hcol.
    unfold step, handleEvent, key, handleKeyDown. rewrite Hmode.
    unfold handleReplaceModeKey.
    rewrite (single_key_not_Escape k Hk), Hk. cbn [Z.eqb Pos.eqb negb andb].
    destruct (get_inside (lines s) (line (cursor s)) ltac:(lia)) as [l Hl].
    pose proof (lineOr_get _ _ _ Hl) as Hlo. rewrite Hlo in Hcol.
    unfold andThen, updLines. rewrite Hlo.
    destruct (Z.ltb_spec (col (cursor s)) (Js.length l)) as [Hlt | Hge].
    + destruct (set_inside (lines s) (line (cursor s))
                  (Js.slice l 0 (col (cursor s)) ++ k
                   ++ Js.sliceFrom l (col (cursor s) + 1)) ltac:(lia))
        as [l' Hset].
      rewrite Hset. cbn. eexists. split; [reflexivity|]. cbn.
      rewrite Hmode. repeat split; try reflexivity;
        cbn [line col VimMode_eqb].
      * lia.
      * destruct (set_spec _ _ _ _ Hset) as (_ & Hl' & _). lia.
      * lia.
      * destruct (set_spec _ _ _ _ Hset) as (Hg & _).
        rewrite (lineOr_get _ _ _ Hg).
        rewrite !js_length_append, slice_length, sliceFrom_length, Hk by lia.
        lia.
    + destruct (set_inside (lines s) (line (cursor s)) (l ++ k) ltac:(lia))
        as [l' Hset].
      rewrite Hset. cbn. eexists. split; [reflexivity|]. cbn.
      rewrite Hmode. repeat split; try reflexivity;
        cbn [line col VimMode_eqb].
      * lia.
      * destruct (set_spec _ _ _ _ Hset) as (_ & Hl' & _). lia.
      * lia.
      * destruct (set_spec _ _ _ _ Hset) as (Hg & _).
        rewrite (lineOr_get _ _ _ Hg), js_length_append, Hk. lia.
Qed.

Lemma cursor_clamped_by_design_witness :
  inBounds normal ["ab"] (clampCursor normal {| line := 7; col := 9 |} ["ab"])
  /\ exists s',
       step "notes.txt" (setMode replace (initialState "ab")) (key "x") = Some s'
       /\ cursor s' = {| line := 0; col := 1 |}
       /\ inBounds insert (lines s') (cursor s').
Proof.
  destruct (cursor_clamped_by_design "notes.txt"
              (setMode replace (initialState "ab"))
              (setMode replace (initialState "ab"))
              {| line := 7; col := 9 |} "x"
              ltac:(vm_compute; discriminate))
    as (Hclamp & _ & Hreplace).
  split.
  - unfold inBounds. vm_compute. repeat split; discriminate.
  - destruct (Hreplace eq_refl eq_refl
                ltac:(unfold inBounds; vm_compute; repeat split; discriminate))
      as (s' & Hstep & _ & Hcur & Hin).
    exists s'. repeat split; try assumption; apply Hin.
Defined.

(** C2. The bounds do not hold in every reachable state.  [^] stores the
    column [min(col, lineLength - 1)], where [col] is the length of the
    leading white space: on an empty line that is -1.  So in normal mode,
    whenever the cursor's line is empty, [^] leaves the cursor at column -1,
    below the lower bound 0 of every mode; the buffer just opened on the
    empty text is such a state. *)
Theorem caret_on_empty_line_stores_column_minus_one (filename : string)
  (s : State) :
  mode s = normal ->
  lineOr (lines s) (line (cursor s)) = "" ->
  exists s',
    step filename s (key "^") = Some s'
    /\ lines s' = lines s /\ mode s' = normal
    /\ cursor s' = {| line := line (cursor s); col := -1 |}
    /\ ~ cursorInBounds s'.
Proof.
  intros Hmode Hempty. normal_key Hmode.
  unfold moveToFirstNonWhitespace, andThen, updCursor, upd.
  rewrite Hempty. cbn.
  eexists. split; [reflexivity|].
  cbn. rewrite Hmode. repeat split.
  unfold cursorInBounds, inBounds. cbn. lia.
Qed.

Lemma caret_on_empty_line_stores_column_minus_one_witness :
  exists s',
    run "notes.txt" (initialState "") [key "^"] = Some s'
    /\ reachable "notes.txt" s'
    /\ lines s' = [""] /\ mode s' = normal
    /\ cursor s' = {| line := 0; col := -1 |}
    /\ ~ cursorInBounds s'.
Proof.
  destruct (caret_on_empty_line_stores_column_minus_one "notes.txt"
              (initialState "") eq_refl eq_refl)
    as (s' & Hstep & Hl & Hm & Hc & Hout).
  exists s'. split; [cbn [run]; now rewrite Hstep|]. split.
  - exists "", [key "^"]. cbn [run]. now rewrite Hstep.
  - repeat split; assumption.
Defined.

(** ** What an update leaves alone *)

Lemma preserves_andThen {A} (f : State -> A) u v :
  preserves f u -> preserves f v -> preserves f (u ;; v).
Proof.
  intros Hu Hv p p' H. unfold andThen in H.
  destruct (u p) as [q|] eqn:Hq; [|discriminate].
  rewrite (Hv _ _ H). now apply Hu.
Qed.

Lemma preserves_skip {A} (f : State -> A) : preserves f skip.
Proof. now intros p p' [= <-]. Qed.

Lemma preserves_throw {A} (f : State -> A) : preserves f throw.
Proof. intros p p' [=]. Qed.

Lemma preserves_times {A} (f : State -> A) n u :
  preserves f u -> preserves f (times n u).
Proof.
  intros Hu. induction n; cbn;
    [apply preserves_skip | now apply preserves_andThen].
Qed.

Lemma preserves_if {A} (f : State -> A) (b : bool) u v :
  preserves f u -> preserves f v -> preserves f (if b then u else v).
Proof. now destruct b. Qed.

Lemma preserves_upd {A} (f : State -> A) g :
  (forall p, f (g p) = f p) -> preserves f (upd g).
Proof. intros Hg p p' [= <-]. apply Hg. Qed.

Lemma preserves_updCursor {A} (f : State -> A) g :
  (forall c p, f (setCursor c p) = f p) -> preserves f (updCursor g).
Proof. intros Hf. apply preserves_upd. intros p. apply Hf. Qed.

Lemma preserves_updLines {A} (f : State -> A) g :
  (forall l p, f (setLines l p) = f p) -> preserves f (updLines g).
Proof.
  intros Hf p p' H. unfold updLines in H.
  destruct (g (lines p)); [|discriminate]. injection H as <-. apply Hf.
Qed.

Lemma preserves_showStatus {A} (f : State -> A) message duration :
  (forall m p, f (setStatusMessage m p) = f p) ->
  (forall e p, f (emit e p) = f p) ->
  preserves f (showStatus message duration).
Proof.
  intros H1 H2. unfold showStatus.
  apply preserves_andThen; [apply preserves_upd, H1|].
  apply preserves_if; [apply preserves_upd, H2 | apply preserves_skip].
Qed.

(** Goals [preserves f u] for an update built from setters of fields [f]
    does not read. *)
Ltac frame_step :=
  match goal with
  | |- preserves _ skip => apply preserves_skip
  | |- preserves _ throw => apply preserves_throw
  | |- preserves _ (showStatus _ _) =>
      apply preserves_showStatus; intros; reflexivity
  | |- preserves _ (updCursor _) => apply preserves_updCursor; intros; reflexivity
  | |- preserves _ (updLines _) => apply preserves_updLines; intros; reflexivity
  | |- preserves _ (upd _) => apply preserves_upd; intros; reflexivity
  | |- preserves _ (_ ;; _) => apply preserves_andThen
  | |- preserves _ (times _ _) => apply preserves_times
  | |- preserves _ (if _ then _ else _) => apply preserves_if
  | |- preserves _ (match ?x with Some _ => _ | None => _ end) => destruct x
  end.

Ltac frame := repeat frame_step.

Lemma establishes_last P u v : establishes P v -> establishes P (u ;; v).
Proof.
  intros Hv p p' H. unfold andThen in H.
  destruct (u p) as [q|]; [|discriminate]. eapply Hv, H.
Qed.

Lemma establishes_first P u v :
  establishes P u -> (forall p p', v p = Some p' -> P p -> P p') ->
  establishes P (u ;; v).
Proof.
  intros Hu Hv p p' H. unfold andThen in H.
  destruct (u p) as [q|] eqn:Hq; [|discriminate]. eapply Hv; eauto.
Qed.

Lemma establishes_if P (b : bool) u v :
  establishes P u -> establishes P v -> establishes P (if b then u else v).
Proof. now destruct b. Qed.

Lemma establishes_upd P g : (forall p, P (g p)) -> establishes P (upd g).
Proof. intros Hg p p' [= <-]. apply Hg. Qed.

Lemma establishes_throw P : establishes P throw.
Proof. intros p p' [=]. Qed.

(** ** Ex-commands: what they touch and where they end *)

Lemma executeVimCommand_register filename s cmd idle :
  preserves yankBuffer (executeVimCommand filename s cmd idle).
Proof. unfold executeVimCommand. cbv zeta. frame. Qed.

Lemma executeVimCommand_lines filename s cmd idle :
  Js.startsWith (Js.trim cmd) "s/" = false ->
  Js.startsWith (Js.trim cmd) "%s/" = false ->
  preserves lines (executeVimCommand filename s cmd idle).
Proof.
  intros Hs Hp. unfold executeVimCommand. cbv zeta. rewrite Hs, Hp. frame.
Qed.

(** X1. An ex-command never touches the register, and it leaves the buffer
    as it is unless its text, trimmed, starts with [s/] or [%s/]; the command
    line is emptied in every case. *)
Theorem exCommand_frame (filename : string) (s s' : State) (idle : bool) :
  mode s = command ->
  step filename s (CommandSubmit idle) = Some s' ->
  yankBuffer s' = yankBuffer s
  /\ commandBuffer s' = ""
  /\ (Js.startsWith (Js.trim (commandBuffer s)) "s/" = false ->
      Js.startsWith (Js.trim (commandBuffer s)) "%s/" = false ->
      lines s' = lines s).
Proof.
  intros Hmode Hstep. unfold step, handleEvent in Hstep.
  rewrite Hmode in Hstep. cbn [VimMode_eqb] in Hstep.
  unfold handleCommandSubmit in Hstep. repeat split.
  - revert Hstep. apply (preserves_andThen yankBuffer);
      [apply executeVimCommand_register | frame].
  - unfold andThen in Hstep. destruct (executeVimCommand _ _ _ _ _); [|discriminate].
    now injection Hstep as <-.
  - intros Hs Hp. revert Hstep. apply (preserves_andThen lines);
      [now apply executeVimCommand_lines | frame].
Qed.

Lemma exCommand_frame_witness :
  exists s',
    step "notes.txt"
      (setCommandBuffer "set nu" (setMode command (initialState "ab")))
      (CommandSubmit false) = Some s'
    /\ lines s' = ["ab"] /\ yankBuffer s' = [] /\ commandBuffer s' = "".
Proof.
  eexists. split; [vm_compute; reflexivity|].
  destruct (exCommand_frame "notes.txt"
              (setCommandBuffer "set nu" (setMode command (initialState "ab")))
              _ false eq_refl eq_refl) as (Hy & Hc & Hl).
  split; [exact (Hl eq_refl eq_refl) | split; [exact Hy | exact Hc]].
Defined.

Lemma executeVimCommand_mode filename s cmd idle :
  ~ In (Js.trim cmd) ["q"; "q!"; "wq"; "x"; "wq!"] ->
  establishes (fun p => mode p = normal) (executeVimCommand filename s cmd idle).
Proof.
  intros Hnot. unfold executeVimCommand. cbv zeta.
  assert (Hne : forall t, In t ["q"; "q!"; "wq"; "x"; "wq!"] ->
                          String.eqb (Js.trim cmd) t = false).
  { intros t Ht. destruct (String.eqb_spec (Js.trim cmd) t); [|reflexivity].
    subst t. contradiction. }
  rewrite (Hne "q"), (Hne "q!"), (Hne "wq"), (Hne "x"), (Hne "wq!")
    by (cbn; tauto).
  cbn [orb].
  destruct (Js.parseInt _).
  { apply establishes_last, establishes_upd. reflexivity. }
  repeat match goal with
         | |- establishes _ (if _ then _ else _) => apply establishes_if
         | |- establishes _ (match ?x with Some _ => _ | None => _ end) =>
             destruct x
         | |- establishes _ throw => apply establishes_throw
         | |- establishes _ (upd (setMode normal)) =>
             apply establishes_upd; reflexivity
         | |- establishes _ (_ ;; _) => apply establishes_last
         end.
Qed.

(** Whether React runs a queued updater at once or at the next render
    shows in [%s] alone. *)
Lemma idle_shows_in_percent_s_only filename s cmd :
  Js.startsWith (Js.trim cmd) "%s/" = false ->
  executeVimCommand filename s cmd true
  = executeVimCommand filename s cmd false.
Proof.
  intros H. unfold executeVimCommand. cbv zeta. rewrite H. reflexivity.
Qed.

(** X2. Every ex-command that goes through ends in normal mode, unknown
    commands included, except those that close the editor, which leave the
    mode as it is: [q] on an unmodified buffer and [q!] call [onExit]; [wq!]
    calls [onSave] with the text of the buffer and then [onExit]; [wq] and
    [x] call [onSave] and schedule [onExit] 100 ms later.  [q] on a modified
    buffer calls nothing and ends in normal mode. *)
Theorem exCommand_returns_to_normal (filename : string) (s s' : State)
  (idle : bool) :
  mode s = command ->
  step filename s (CommandSubmit idle) = Some s' ->
  (~ In (Js.trim (commandBuffer s)) ["q"; "q!"; "wq"; "x"; "wq!"] ->
   mode s' = normal)
  /\ (Js.trim (commandBuffer s) = "q" ->
      if modified s
      then mode s' = normal /\ out s' = out s
      else mode s' = command /\ out s' = (out s ++ [OnExit])%list)
  /\ (Js.trim (commandBuffer s) = "q!" ->
      mode s' = command /\ out s' = (out s ++ [OnExit])%list)
  /\ (Js.trim (commandBuffer s) = "wq" \/ Js.trim (commandBuffer s) = "x" ->
      mode s' = command
      /\ out s' = (out s ++ [OnSave (Js.join newline (lines s));
                             SetTimeout ClearStatus 2000;
                             SetTimeout CallOnExit 100])%list)
  /\ (Js.trim (commandBuffer s) = "wq!" ->
      mode s' = command
      /\ out s' = (out s ++ [OnSave (Js.join newline (lines s));
                             OnExit])%list).
Proof.
  intros Hmode Hstep. unfold step, handleEvent in Hstep.
  rewrite Hmode in Hstep. cbn [VimMode_eqb] in Hstep.
  unfold handleCommandSubmit in Hstep.
  assert (Hclose : forall t, Js.trim (commandBuffer s) = t ->
            In t ["q"; "q!"; "wq"; "x"; "wq!"] ->
            (executeVimCommand filename s (commandBuffer s) idle ;;
             upd (setCommandBuffer "")) s
            = Some s' ->
            (if String.eqb t "q" && modified s
             then mode s' = normal /\ out s' = out s
             else mode s' = command
                  /\ out s' = (out s ++
                       (if String.eqb t "q" || String.eqb t "q!"
                        then [OnExit]
                        else if String.eqb t "wq!"
                        then [OnSave (Js.join newline (lines s)); OnExit]
                        else [OnSave (Js.join newline (lines s));
                              SetTimeout ClearStatus 2000;
                              SetTimeout CallOnExit 100]))%list)).
  { intros t Ht Hin. unfold executeVimCommand. rewrite Ht.
    cbn in Hin. destruct Hin as [<- | [<- | [<- | [<- | [<- | []]]]]]; cbn;
      try destruct (modified s); cbn; intros [= <-]; cbn;
      rewrite <- ?app_assoc; split; solve [reflexivity | assumption]. }
  split; [|split; [|split; [|split]]].
  - intros Hnot. revert Hstep.
    apply (establishes_first (fun p => mode p = normal)).
    + now apply executeVimCommand_mode.
    + intros p p' [= <-] Hp. exact Hp.
  - intros Ht. specialize (Hclose "q" Ht ltac:(cbn; tauto) Hstep).
    cbn in Hclose. now destruct (modified s).
  - intros Ht. exact (Hclose "q!" Ht ltac:(cbn; tauto) Hstep).
  - intros [Ht | Ht].
    + exact (Hclose "wq" Ht ltac:(cbn; tauto) Hstep).
    + exact (Hclose "x" Ht ltac:(cbn; tauto) Hstep).
  - intros Ht. exact (Hclose "wq!" Ht ltac:(cbn; tauto) Hstep).
Qed.

Lemma exCommand_returns_to_normal_witness :
  exists s',
    step "notes.txt"
      (setCommandBuffer "frobnicate" (setMode command (initialState "ab")))
      (CommandSubmit false) = Some s'
    /\ mode s' = normal
    /\ statusMessage s' = "E492: Not an editor command: frobnicate".
Proof.
  eexists. split; [vm_compute; reflexivity|]. split; [|reflexivity].
  apply (exCommand_returns_to_normal "notes.txt"
           (setCommandBuffer "frobnicate" (setMode command (initialState "ab")))
           _ false).
  - reflexivity.
  - vm_compute. reflexivity.
  - vm_compute. intros [H|[H|[H|[H|[H|[]]]]]]; discriminate.
Defined.

(** ** Numbers as text *)

Lemma digit_cases (d : Z) :
  0 <= d < 10 ->
  d = 0 \/ d = 1 \/ d = 2 \/ d = 3 \/ d = 4 \/ d = 5 \/ d = 6 \/ d = 7
  \/ d = 8 \/ d = 9.
Proof. lia. Qed.

Ltac each_digit H :=
  apply digit_cases in H;
  repeat (destruct H as [H | H]); subst.

Lemma hexValue_digitChar (d : Z) :
  0 <= d < 10 -> Js.hexValue (digitChar d) = Some d.
Proof. intros H. each_digit H; reflexivity. Qed.

Lemma isDigit_digitChar (d : Z) : 0 <= d < 10 -> Js.isDigit (digitChar d) = true.
Proof. intros H. each_digit H; reflexivity. Qed.

Lemma isSpace_digitChar (d : Z) : 0 <= d < 10 -> Js.isSpace (digitChar d) = false.
Proof. intros H. each_digit H; reflexivity. Qed.

Lemma digits_unfold fuel n acc :
  Js.digits (S fuel) n acc =
  if n <? 10 then String (digitChar (n mod 10)) acc
  else Js.digits fuel (n / 10) (String (digitChar (n mod 10)) acc).
Proof. reflexivity. Qed.

Lemma allDigits_digits fuel : forall n acc,
  0 <= n -> allDigits acc = true -> allDigits (Js.digits fuel n acc) = true.
Proof.
  induction fuel as [|fuel IH]; intros n acc Hn Hacc; [exact Hacc|].
  rewrite digits_unfold.
  assert (Hd : Js.isDigit (digitChar (n mod 10)) = true)
    by (apply isDigit_digitChar, Z.mod_pos_bound; lia).
  destruct (n <? 10).
  - cbn [allDigits]. now rewrite Hd.
  - apply IH; [apply Z.div_pos; lia|]. cbn [allDigits]. now rewrite Hd.
Qed.

Lemma readDigits_digits fuel : forall n rest a,
  0 <= n < 10 ^ Z.of_nat (S fuel) ->
  exists v,
    Js.readDigits 10 (Js.digits (S fuel) n rest) a
    = Js.readDigits 10 rest (Some v)
    /\ (a = None -> v = n).
Proof.
  induction fuel as [|fuel IH]; intros n rest a Hn;
    rewrite digits_unfold;
    assert (Hm : 0 <= n mod 10 < 10) by (apply Z.mod_pos_bound; lia);
    destruct (Z.ltb_spec n 10) as [Hlt | Hge].
  - cbn [Js.readDigits]. rewrite hexValue_digitChar by assumption.
    destruct (Z.ltb_spec (n mod 10) 10); [|lia].
    eexists. split; [reflexivity|]. intros ->. apply Z.mod_small. lia.
  - cbn in Hn. lia.
  - cbn [Js.readDigits]. rewrite hexValue_digitChar by assumption.
    destruct (Z.ltb_spec (n mod 10) 10); [|lia].
    eexists. split; [reflexivity|]. intros ->. apply Z.mod_small. lia.
  - assert (Hdiv : 0 <= n / 10 < 10 ^ Z.of_nat (S fuel)).
    { split; [apply Z.div_pos; lia|].
      apply Z.div_lt_upper_bound; [lia|].
      rewrite (Nat2Z.inj_succ (S fuel)), Z.pow_succ_r in Hn by lia. lia. }
    destruct (IH (n / 10) (String (digitChar (n mod 10)) rest) a Hdiv)
      as (v & Hv & Hval).
    rewrite Hv. cbn [Js.readDigits].
    rewrite hexValue_digitChar by assumption.
    destruct (Z.ltb_spec (n mod 10) 10); [|lia].
    eexists. split; [reflexivity|]. intros Ha. rewrite (Hval Ha).
    pose proof (Z.div_mod n 10). lia.
Qed.

Lemma ofNumber_digits (n : Z) :
  0 <= n -> Js.ofNumber n = Js.digits (S (Z.to_nat (Z.log2 n))) n "".
Proof.
  intros Hn. unfold Js.ofNumber. destruct (Z.ltb_spec n 0); [lia | reflexivity].
Qed.

Lemma ofNumber_fuel (n : Z) :
  0 <= n -> 0 <= n < 10 ^ Z.of_nat (S (Z.to_nat (Z.log2 n))).
Proof.
  intros Hn. split; [assumption|].
  pose proof (Z.log2_nonneg n).
  rewrite Nat2Z.inj_succ, Z2Nat.id by assumption.
  destruct (Z.eq_dec n 0) as [-> | Hnz]; [cbn; lia|].
  assert (Hlt : n < 2 ^ Z.succ (Z.log2 n)) by (apply Z.log2_spec; lia).
  assert (2 ^ Z.succ (Z.log2 n) <= 10 ^ Z.succ (Z.log2 n))
    by (apply Z.pow_le_mono_l; lia).
  lia.
Qed.

Lemma option_map_mul_1 (x : option Z) : option_map (Z.mul 1) x = x.
Proof. destruct x as [v|]; [|reflexivity]. cbn [option_map]. f_equal. lia. Qed.

(** A text of digits whose first two characters are not [0x]: [parseInt]
    reads it in base ten. *)
Lemma parseInt_allDigits (t : string) :
  allDigits t = true -> Js.parseInt t = Js.readDigits 10 t None.
Proof.
  destruct t as [|c r]; [reflexivity|]. cbn [allDigits].
  intros H. apply andb_prop in H as [Hc Hr].
  assert (Hsp : Js.isSpace c = false).
  { unfold Js.isDigit, Js.isSpace in *.
    destruct (Nat.leb_spec 48 (nat_of_ascii c)); [|discriminate].
    destruct (Nat.leb_spec (nat_of_ascii c) 57); [|discriminate].
    destruct (Nat.leb_spec 9 (nat_of_ascii c)); [|lia].
    destruct (Nat.leb_spec (nat_of_ascii c) 13); [lia|].
    destruct (Nat.eqb_spec (nat_of_ascii c) 32); [lia|].
    destruct (Nat.eqb_spec (nat_of_ascii c) 160); [lia|]. reflexivity. }
  unfold Js.parseInt. cbn [Js.trimStart]. rewrite Hsp.
  assert (Hcase : (c = "0"%char /\ (r = "" \/ exists d r', r = String d r'
                                      /\ Js.isDigit d = true))
                  \/ (c <> "0"%char /\ c <> "-"%char /\ c <> "+"%char)).
  { destruct (ascii_dec c "0") as [-> | Hc0].
    - left. split; [reflexivity|]. destruct r as [|d r']; [now left|].
      right. exists d, r'. cbn [allDigits] in Hr.
      apply andb_prop in Hr as [Hd _]. now split.
    - right. repeat split; [assumption | |]; intros ->; discriminate. }
  destruct Hcase as [[-> Hr'] | (H0 & Hm & Hp)].
  - destruct Hr' as [-> | (d & r' & -> & Hd)]; [reflexivity|].
    destruct d as [[] [] [] [] [] [] [] []]; try discriminate;
      lazy beta iota zeta; apply option_map_mul_1.
  - destruct c as [[] [] [] [] [] [] [] []]; try discriminate;
      try congruence; lazy beta iota zeta; apply option_map_mul_1.
Qed.

Lemma isDigit_not_space (c : ascii) : Js.isDigit c = true -> Js.isSpace c = false.
Proof.
  unfold Js.isDigit, Js.isSpace. intros H.
  destruct (Nat.leb_spec 48 (nat_of_ascii c)); [|discriminate].
  destruct (Nat.leb_spec (nat_of_ascii c) 57); [|discriminate].
  destruct (Nat.leb_spec 9 (nat_of_ascii c)); [|lia].
  destruct (Nat.leb_spec (nat_of_ascii c) 13); [lia|].
  destruct (Nat.eqb_spec (nat_of_ascii c) 32); [lia|].
  destruct (Nat.eqb_spec (nat_of_ascii c) 160); [lia|]. reflexivity.
Qed.

Lemma trimStart_allDigits (t : string) : allDigits t = true -> Js.trimStart t = t.
Proof.
  destruct t as [|c r]; [reflexivity|]. cbn. intros H.
  apply andb_prop in H as [Hc _]. now rewrite (isDigit_not_space c Hc).
Qed.

Lemma allDigits_rev_acc (t acc : string) :
  allDigits t = true -> allDigits acc = true ->
  allDigits (Js.rev_acc t acc) = true.
Proof.
  revert acc; induction t as [|c r IH]; intros acc Ht Hacc; [exact Hacc|].
  cbn in *. apply andb_prop in Ht as [Hc Hr]. apply IH; [assumption|].
  cbn. now rewrite Hc.
Qed.

Lemma rev_acc_rev_acc (t acc : string) :
  Js.rev_acc (Js.rev_acc t acc) "" = Js.rev_acc acc t.
Proof.
  revert acc; induction t as [|c r IH]; intros acc; [reflexivity|].
  cbn. now rewrite IH.
Qed.

Lemma rev_rev (t : string) : Js.rev (Js.rev t) = t.
Proof. unfold Js.rev. now rewrite rev_acc_rev_acc. Qed.

Lemma trim_allDigits (t : string) : allDigits t = true -> Js.trim t = t.
Proof.
  intros H. unfold Js.trim, Js.trimEnd.
  rewrite (trimStart_allDigits t H).
  rewrite trimStart_allDigits by (now apply allDigits_rev_acc).
  apply rev_rev.
Qed.

(** The decimal text of a number reads back as that number. *)
Lemma parseInt_ofNumber (n : Z) :
  0 <= n ->
  allDigits (Js.ofNumber n) = true /\ Js.parseInt (Js.ofNumber n) = Some n.
Proof.
  intros Hn. rewrite ofNumber_digits by assumption.
  assert (Hall : allDigits (Js.digits (S (Z.to_nat (Z.log2 n))) n "") = true)
    by (now apply allDigits_digits).
  split; [assumption|]. rewrite parseInt_allDigits by assumption.
  destruct (readDigits_digits (Z.to_nat (Z.log2 n)) n "" None
              (ofNumber_fuel n Hn)) as (v & Hv & Hval).
  rewrite Hv. cbn. now rewrite Hval.
Qed.

(** X3. The ex-command made of the decimal digits of [n] moves the cursor to
    line [n] counted from 1, clamped to the first and the last line of the
    buffer, at column 0; it returns to normal mode, leaves the buffer as it
    is, and the cursor it stores is within the bounds of normal mode. *)
Theorem line_jump_by_number (filename : string) (s : State) (n : Z)
  (idle : bool) :
  mode s = command ->
  commandBuffer s = Js.ofNumber n ->
  0 <= n ->
  1 <= Arr.length (lines s) ->
  exists s',
    step filename s (CommandSubmit idle) = Some s'
    /\ cursor s' = {| line := Z.max 0 (Z.min (n - 1) (Arr.length (lines s) - 1));
                      col := 0 |}
    /\ mode s' = normal /\ lines s' = lines s /\ modified s' = modified s
    /\ cursorInBounds s'.
Proof.
  intros Hmode Hcmd Hn Hlen.
  destruct (parseInt_ofNumber n Hn) as [Hall Hparse].
  unfold step, handleEvent, handleCommandSubmit, executeVimCommand.
  rewrite Hmode, Hcmd, (trim_allDigits _ Hall), Hparse. cbn.
  eexists. split; [reflexivity|]. repeat split; cbn; lia.
Qed.

Lemma line_jump_by_number_witness :
  exists s',
    step "notes.txt"
      (setCommandBuffer "5"
         (setMode command
            (initialState (Js.join newline
               ["1"; "2"; "3"; "4"; "5"; "6"; "7"; "8"; "9"; "10"]))))
      (CommandSubmit false) = Some s'
    /\ cursor s' = {| line := 4; col := 0 |}.
Proof.
  destruct (line_jump_by_number "notes.txt"
              (setCommandBuffer "5"
                 (setMode command
                    (initialState (Js.join newline
                       ["1"; "2"; "3"; "4"; "5"; "6"; "7"; "8"; "9"; "10"]))))
              5 false eq_refl eq_refl ltac:(lia) ltac:(vm_compute; discriminate))
    as (s' & Hstep & Hcur & _).
  exists s'. split; [exact Hstep | exact Hcur].
Defined.

(** ** Escape *)

(** X4. Escape always succeeds and lands in normal mode without touching the
    buffer, the register or the modified flag.  In normal mode it clears the
    pending operator and the count; in insert mode it moves the cursor one
    column left (not below 0) and clamps it; in visual mode it drops the
    selection; in insert, visual and replace mode the pending operator
    survives; in command mode (Escape typed in the command input) it empties
    the command line. *)
Theorem escape_lands_in_normal_mode (filename : string) (s : State) :
  exists s',
    step filename s
      (if VimMode_eqb (mode s) command then CommandKeyDown "Escape"
       else key "Escape") = Some s'
    /\ mode s' = normal /\ lines s' = lines s
    /\ yankBuffer s' = yankBuffer s /\ modified s' = modified s
    /\ (mode s = normal ->
        lastCommand s' = "" /\ numberBuffer s' = "" /\ cursor s' = cursor s)
    /\ (mode s = insert ->
        lastCommand s' = lastCommand s
        /\ cursor s' = clampCursor insert
                         {| line := line (cursor s);
                            col := Z.max 0 (col (cursor s) - 1) |} (lines s))
    /\ (mode s = visual ->
        lastCommand s' = lastCommand s /\ visualStart s' = None
        /\ cursor s' = cursor s)
    /\ (mode s = replace ->
        lastCommand s' = lastCommand s /\ cursor s' = cursor s)
    /\ (mode s = command -> commandBuffer s' = "" /\ cursor s' = cursor s).
Proof.
  unfold step, handleEvent, key, handleKeyDown.
  destruct (mode s) eqn:Hmode; cbn;
    (eexists; split; [reflexivity|]); cbn; rewrite ?Hmode;
    repeat split; intros; try discriminate; reflexivity.
Qed.

(** ** Keys on the editor area in command mode *)

(** While the command line is open, a key that reaches the editor area
    changes nothing at all. *)
Theorem keys_ignored_in_command_mode (filename : string) (s : State)
  (k : string) (ctrlKey metaKey : bool) :
  mode s = command ->
  step filename s (KeyDown k ctrlKey metaKey) = Some s.
Proof.
  intros Hmode. unfold step, handleEvent, handleKeyDown. now rewrite Hmode.
Qed.

Lemma keys_ignored_in_command_mode_witness :
  step "notes.txt" (setMode command (initialState "ab")) (key "x")
  = Some (setMode command (initialState "ab")).
Proof.
  exact (keys_ignored_in_command_mode "notes.txt"
           (setMode command (initialState "ab")) "x" false false eq_refl).
Defined.

Lemma escape_lands_in_normal_mode_witness :
  exists s',
    run "notes.txt" (initialState "ab") [key "A"; key "Escape"] = Some s'
    /\ mode s' = normal /\ cursor s' = {| line := 0; col := 1 |}.
Proof.
  destruct (escape_lands_in_normal_mode "notes.txt"
              (setMode insert
                 (setCursor {| line := 0; col := 2 |} (initialState "ab"))))
    as (s' & Hstep & Hmode & _ & _ & _ & _ & Hins & _).
  exists s'. split; [exact Hstep|]. split; [exact Hmode|].
  destruct (Hins eq_refl) as [_ Hcur]. rewrite Hcur. reflexivity.
Defined.

(** ** Deleting lines into the register *)

Lemma slice_inside {A : Type} (l : list A) (i n : Z) :
  0 <= i <= Arr.length l -> 0 <= n ->
  Arr.slice l i (i + n)
  = firstn (Z.to_nat (Z.min n (Arr.length l - i))) (skipn (Z.to_nat i) l).
Proof.
  intros Hi Hn. unfold Arr.slice. rewrite (relIndex_inside _ i) by lia.
  f_equal. unfold Js.relIndex. destruct (Z.ltb_spec (i + n) 0); lia.
Qed.

Lemma splice_delete {A : Type} (l : list A) (i n : Z) :
  0 <= i <= Arr.length l -> 0 <= n ->
  Arr.splice l i n []
  = (firstn (Z.to_nat i) l
     ++ skipn (Z.to_nat i + Z.to_nat (Z.min n (Arr.length l - i))) l)%list.
Proof.
  intros Hi Hn. unfold Arr.splice. rewrite relIndex_inside by lia.
  cbn [app]. f_equal. f_equal. lia.
Qed.

(** A list is what precedes index [i], then the next [k] elements, then the
    rest. *)
Lemma three_parts {A : Type} (l : list A) (i k : nat) :
  l = (firstn i l ++ firstn k (skipn i l) ++ skipn (i + k) l)%list.
Proof.
  rewrite <- (firstn_skipn i l) at 1. f_equal.
  rewrite <- (firstn_skipn k (skipn i l)) at 1. f_equal.
  rewrite skipn_skipn. f_equal. lia.
Qed.

(** The state after the [d] that completes [dd]. *)
Lemma dd_step (filename : string) (s : State) :
  mode s = normal ->
  lastCommand s = "d" ->
  step filename s (key "d")
  = Some (setNumberBuffer ""
            (setLastCommand ""
               (emit (SetTimeout ClearStatus defaultDuration)
                  (setStatusMessage
                     (linesMessage (countOf (numberBuffer s)) "deleted")
                     (setModified true
                        (setCursor
                           (clampCursor normal (cursor s)
                              (if countOf (numberBuffer s) <? Arr.length (lines s)
                               then lines s else [""]))
                           (setLines
                              (pushIfEmpty
                                 (Arr.splice (lines s) (line (cursor s))
                                    (countOf (numberBuffer s)) []))
                              (setYankBuffer
                                 (Arr.slice (lines s) (line (cursor s))
                                    (line (cursor s) + countOf (numberBuffer s)))
                                 s)))))))).
Proof.
  intros Hmode Hlast.
  unfold step, handleEvent, key, handleKeyDown. rewrite Hmode.
  unfold handleNormalModeKey. cbn. rewrite Hlast.
  change (Js.isDigit "d") with false. cbn [andb String.eqb].
  unfold deleteLine. rewrite Hmode. reflexivity.
Qed.

(** X5. The [d] that completes [dd], with the cursor on line [i] of the
    buffer and a count of at least 1: the buffer was [before], then the
    register, then [after], with [i] lines in [before] and [count] lines in
    the register, or as many as there were from line [i] on; the buffer
    becomes [before] and [after], or one empty line if that is nothing, and
    is marked modified.  What the register held before plays no part. *)
Theorem dd_moves_lines_into_register (filename : string) (s : State) :
  mode s = normal ->
  lastCommand s = "d" ->
  0 <= line (cursor s) < Arr.length (lines s) ->
  1 <= countOf (numberBuffer s) ->
  exists s' before after,
    step filename s (key "d") = Some s'
    /\ lines s = (before ++ yankBuffer s' ++ after)%list
    /\ Arr.length before = line (cursor s)
    /\ Arr.length (yankBuffer s')
       = Z.min (countOf (numberBuffer s))
               (Arr.length (lines s) - line (cursor s))
    /\ lines s' = pushIfEmpty (before ++ after)
    /\ modified s' = true /\ mode s' = normal
    /\ lastCommand s' = "" /\ numberBuffer s' = "".
Proof.
  intros Hmode Hlast Hi Hcount.
  set (i := line (cursor s)) in *. set (count := countOf (numberBuffer s)) in *.
  set (k := Z.min count (Arr.length (lines s) - i)).
  exists (setNumberBuffer ""
            (setLastCommand ""
               (emit (SetTimeout ClearStatus defaultDuration)
                  (setStatusMessage (linesMessage count "deleted")
                     (setModified true
                        (setCursor
                           (clampCursor normal (cursor s)
                              (if count <? Arr.length (lines s)
                               then lines s else [""]))
                           (setLines
                              (pushIfEmpty (Arr.splice (lines s) i count []))
                              (setYankBuffer (Arr.slice (lines s) i (i + count))
                                 s)))))))),
    (firstn (Z.to_nat i) (lines s)),
    (skipn (Z.to_nat i + Z.to_nat k) (lines s)).
  split.
  - now apply dd_step.
  - cbn. rewrite slice_inside, splice_delete by lia. fold k.
    repeat split; try reflexivity.
    + apply three_parts.
    + unfold Arr.length. rewrite length_firstn. unfold Arr.length in Hi. lia.
    + unfold Arr.length. rewrite length_firstn, length_skipn.
      unfold Arr.length in *. lia.
    + exact Hmode.
Qed.

Lemma dd_moves_lines_into_register_witness :
  exists s',
    run "notes.txt" (initialState (Js.join newline ["a"; "b"; "c"; "d"]))
      [key "j"; key "d"; key "2"; key "d"] = Some s'
    /\ lines s' = ["a"; "d"] /\ yankBuffer s' = ["b"; "c"].
Proof.
  destruct (dd_moves_lines_into_register "notes.txt"
              (setNumberBuffer "2"
                 (setLastCommand "d"
                    (setCursor {| line := 1; col := 0 |}
                       (initialState (Js.join newline ["a"; "b"; "c"; "d"])))))
              eq_refl eq_refl
              ltac:(vm_compute; split; [discriminate | reflexivity])
              ltac:(vm_compute; discriminate))
    as (s' & before & after & Hstep & _).
  eexists. split; [vm_compute; reflexivity|]. split; reflexivity.
Defined.

(** X6. [d] or [x] in visual mode, with the anchor and the cursor on lines
    of the buffer: the selection is the lines from the smaller to the larger
    of the two line numbers, whichever came first; the buffer was [before],
    then the selection, then [after]; the selection goes to the register, the
    buffer becomes [before] and [after] (one empty line if that is nothing),
    the cursor goes to the first selected line's index at column 0, and the
    editor is back in normal mode with no selection. *)
Theorem visual_delete_moves_selection (filename : string) (s : State)
  (anchor : CursorPosition) (k : string) :
  mode s = visual ->
  visualStart s = Some anchor ->
  k = "d" \/ k = "x" ->
  0 <= line anchor < Arr.length (lines s) ->
  0 <= line (cursor s) < Arr.length (lines s) ->
  exists s' before after,
    step filename s (key k) = Some s'
    /\ lines s = (before ++ yankBuffer s' ++ after)%list
    /\ Arr.length before = Z.min (line anchor) (line (cursor s))
    /\ Arr.length (yankBuffer s')
       = Z.abs (line anchor - line (cursor s)) + 1
    /\ lines s' = pushIfEmpty (before ++ after)
    /\ cursor s' = {| line := Z.min (line anchor) (line (cursor s)); col := 0 |}
    /\ mode s' = normal /\ visualStart s' = None /\ modified s' = true.
Proof.
  intros Hmode Hanchor Hk Ha Hc.
  set (start := Z.min (line anchor) (line (cursor s))).
  set (stop := Z.max (line anchor) (line (cursor s))).
  set (n := stop - start + 1).
  assert (Hn : Z.min n (Arr.length (lines s) - start) = n) by lia.
  exists (setVisualStart None
            (setMode normal
               (emit (SetTimeout ClearStatus defaultDuration)
                  (setStatusMessage
                     (linesMessage
                        (Arr.length (Arr.slice (lines s) start (stop + 1)))
                        "deleted")
                     (setModified true
                        (setCursor {| line := start; col := 0 |}
                           (setLines
                              (pushIfEmpty (Arr.splice (lines s) start n []))
                              (setYankBuffer
                                 (Arr.slice (lines s) start (stop + 1)) s)))))))),
    (firstn (Z.to_nat start) (lines s)),
    (skipn (Z.to_nat start + Z.to_nat n) (lines s)).
  split.
  - unfold step, handleEvent, key, handleKeyDown. rewrite Hmode.
    unfold handleVisualModeKey.
    destruct Hk as [-> | ->]; cbn; rewrite Hanchor; reflexivity.
  - cbn. replace (stop + 1) with (start + n) by lia.
    rewrite slice_inside, splice_delete, Hn by lia.
    repeat split; try reflexivity.
    + apply three_parts.
    + unfold Arr.length. rewrite length_firstn. unfold Arr.length in *. lia.
    + unfold Arr.length. rewrite length_firstn, length_skipn.
      unfold Arr.length in *. lia.
Qed.

Lemma visual_delete_moves_selection_witness :
  exists s',
    run "notes.txt" (initialState (Js.join newline ["a"; "b"; "c"; "d"]))
      [key "G"; key "k"; key "V"; key "k"; key "x"] = Some s'
    /\ lines s' = ["a"; "d"] /\ yankBuffer s' = ["b"; "c"]
    /\ cursor s' = {| line := 1; col := 0 |}.
Proof.
  destruct (visual_delete_moves_selection "notes.txt"
              (setVisualStart (Some {| line := 2; col := 0 |})
                 (setMode visual
                    (setCursor {| line := 1; col := 0 |}
                       (initialState (Js.join newline ["a"; "b"; "c"; "d"])))))
              {| line := 2; col := 0 |} "x" eq_refl eq_refl
              (or_intror eq_refl)
              ltac:(vm_compute; split; [discriminate | reflexivity])
              ltac:(vm_compute; split; [discriminate | reflexivity]))
    as (s' & before & after & Hstep & _).
  eexists. split; [vm_compute; reflexivity|]. repeat split; reflexivity.
Defined.

(** X7. [y] in visual mode, with the anchor and the cursor on lines of the
    buffer, copies the lines from the upper of the two to the lower,
    |anchorLine - cursorLine| + 1 of them, to the register and goes back to
    normal mode with no selection; the buffer, the cursor and the modified
    flag stay as they are. *)
Theorem visual_yank_copies_selection (filename : string) (s : State)
  (anchor : CursorPosition) :
  mode s = visual ->
  visualStart s = Some anchor ->
  0 <= line anchor < Arr.length (lines s) ->
  0 <= line (cursor s) < Arr.length (lines s) ->
  exists s',
    step filename s (key "y") = Some s'
    /\ yankBuffer s'
       = firstn (Z.to_nat (Z.abs (line anchor - line (cursor s)) + 1))
           (skipn (Z.to_nat (Z.min (line anchor) (line (cursor s)))) (lines s))
    /\ Arr.length (yankBuffer s') = Z.abs (line anchor - line (cursor s)) + 1
    /\ lines s' = lines s /\ cursor s' = cursor s
    /\ modified s' = modified s
    /\ mode s' = normal /\ visualStart s' = None.
Proof.
  intros Hmode Hanchor Ha Hc.
  set (start := Z.min (line anchor) (line (cursor s))).
  set (stop := Z.max (line anchor) (line (cursor s))).
  unfold step, handleEvent, key, handleKeyDown. rewrite Hmode.
  unfold handleVisualModeKey. cbn. rewrite Hanchor. cbn.
  eexists. split; [reflexivity|]. cbn. fold start. fold stop.
  replace (stop + 1) with (start + (stop - start + 1)) by lia.
  rewrite slice_inside by lia.
  replace (Z.min (stop - start + 1) (Arr.length (lines s) - start))
    with (Z.abs (line anchor - line (cursor s)) + 1) by lia.
  repeat split.
  unfold Arr.length. rewrite length_firstn, length_skipn.
  unfold Arr.length in *. lia.
Qed.

Lemma visual_yank_copies_selection_witness :
  exists s',
    run "notes.txt" (initialState (Js.join newline ["a"; "b"; "c"]))
      [key "v"; key "j"; key "y"] = Some s'
    /\ yankBuffer s' = ["a"; "b"] /\ lines s' = ["a"; "b"; "c"].
Proof.
  destruct (visual_yank_copies_selection "notes.txt"
              (setVisualStart (Some {| line := 0; col := 0 |})
                 (setMode visual
                    (setCursor {| line := 1; col := 0 |}
                       (initialState (Js.join newline ["a"; "b"; "c"])))))
              {| line := 0; col := 0 |} eq_refl eq_refl
              ltac:(vm_compute; split; [discriminate | reflexivity])
              ltac:(vm_compute; split; [discriminate | reflexivity]))
    as (s' & Hstep & _).
  eexists. split; [vm_compute; reflexivity|]. split; reflexivity.
Defined.

(** ** Typing and taking back *)

Lemma substring_append_left (a b : string) :
  substring 0 (String.length a) (a ++ b) = a.
Proof. induction a; cbn; [now destruct b | now f_equal]. Qed.

Lemma substring_append_right (a b : string) (n m : nat) :
  substring (String.length a + n) m (a ++ b) = substring n m b.
Proof. induction a; cbn; [reflexivity | assumption]. Qed.

Lemma substring_parts (t : string) (n : nat) :
  (n <= String.length t)%nat ->
  substring 0 n t ++ substring n (String.length t - n) t = t.
Proof.
  revert n; induction t as [|c t IH]; intros n Hn.
  - destruct n; [reflexivity | cbn in Hn; lia].
  - destruct n as [|n]; cbn.
    + f_equal. apply substring_all. lia.
    + f_equal. apply IH. cbn in Hn. lia.
Qed.

(** What precedes column [c] and what follows make the line. *)
Lemma slice_parts (t : string) (c : Z) :
  0 <= c <= Js.length t -> Js.slice t 0 c ++ Js.sliceFrom t c = t.
Proof.
  intros Hc. unfold Js.sliceFrom, Js.slice.
  rewrite !relIndex_inside by (unfold Js.length in *; lia).
  unfold Js.length in *. rewrite Z.sub_0_r.
  replace (Z.to_nat (Z.of_nat (String.length t) - c))
    with (String.length t - Z.to_nat c)%nat by lia.
  change (Z.to_nat 0) with O. apply substring_parts. lia.
Qed.

Lemma slice_prefix (a b : string) :
  Js.slice (a ++ b) 0 (Js.length a) = a.
Proof.
  unfold Js.slice. rewrite !relIndex_inside
    by (rewrite ?js_length_append; pose proof (js_length_nonneg a);
        pose proof (js_length_nonneg b); lia).
  unfold Js.length. rewrite Z.sub_0_r, Nat2Z.id.
  apply substring_append_left.
Qed.

Lemma sliceFrom_suffix (a b : string) :
  Js.sliceFrom (a ++ b) (Js.length a) = b.
Proof.
  unfold Js.sliceFrom, Js.slice.
  rewrite !relIndex_inside
    by (rewrite ?js_length_append; pose proof (js_length_nonneg a);
        pose proof (js_length_nonneg b); lia).
  rewrite js_length_append. unfold Js.length.
  replace (Z.to_nat (Z.of_nat (String.length a)))
    with (String.length a + 0)%nat by lia.
  rewrite substring_append_right. apply substring_all. lia.
Qed.

(** The buffer around line [i]. *)
Lemma around_line {A : Type} (l : list A) (i : Z) :
  0 <= i < Arr.length l ->
  exists pre x post, l = (pre ++ x :: post)%list /\ Arr.length pre = i.
Proof.
  intros Hi. destruct (get_inside l i Hi) as [x Hx].
  unfold Arr.get in Hx. destruct (Z.ltb_spec i 0); [lia|].
  destruct (nth_error_split l (Z.to_nat i) Hx) as (pre & post & -> & Hlen).
  exists pre, x, post. split; [reflexivity|]. unfold Arr.length. lia.
Qed.

Lemma get_middle {A : Type} (pre post : list A) (x : A) :
  Arr.get (pre ++ x :: post) (Arr.length pre) = Some x.
Proof.
  unfold Arr.get, Arr.length. destruct (Z.ltb_spec (Z.of_nat (List.length pre)) 0); [lia|].
  rewrite Nat2Z.id, nth_error_app2, Nat.sub_diag by lia. reflexivity.
Qed.

Lemma set_middle {A : Type} (pre post : list A) (x v : A) :
  Arr.set (pre ++ x :: post) (Arr.length pre) v = Some (pre ++ v :: post)%list.
Proof.
  unfold Arr.set, Arr.length.
  destruct (Z.ltb_spec (Z.of_nat (List.length pre)) 0); [lia|].
  rewrite length_app. cbn [List.length].
  destruct (Z.ltb_spec (Z.of_nat (List.length pre))
              (Z.of_nat (List.length pre + S (List.length post)))); [|lia].
  rewrite Nat2Z.id. f_equal.
  rewrite firstn_app, firstn_all, Nat.sub_diag. cbn [firstn].
  rewrite app_nil_r. f_equal.
  replace (S (List.length pre)) with (List.length pre + 1)%nat by lia.
  rewrite skipn_app, skipn_all2 by lia.
  replace (List.length pre + 1 - List.length pre)%nat with 1%nat by lia.
  reflexivity.
Qed.

Lemma splice_middle {A : Type} (pre rest items : list A) (d : Z) :
  0 <= d ->
  Arr.splice (pre ++ rest) (Arr.length pre) d items
  = (pre ++ items ++ skipn (Z.to_nat d) rest)%list.
Proof.
  intros Hd. unfold Arr.splice.
  rewrite relIndex_inside
    by (unfold Arr.length; rewrite length_app; lia).
  unfold Arr.length. rewrite Nat2Z.id, firstn_app, firstn_all, Nat.sub_diag.
  cbn [firstn]. rewrite app_nil_r. f_equal. f_equal.
  rewrite length_app.
  destruct (Z.le_gt_cases d (Z.of_nat (List.length rest))).
  - replace (Z.to_nat (_ + _)) with (List.length pre + Z.to_nat d)%nat by lia.
    rewrite skipn_app, skipn_all2 by lia.
    replace (List.length pre + Z.to_nat d - List.length pre)%nat
      with (Z.to_nat d) by lia.
    reflexivity.
  - replace (Z.to_nat (_ + _)) with (List.length pre + List.length rest)%nat
      by lia.
    rewrite skipn_app, skipn_all2 by lia.
    replace (List.length pre + List.length rest - List.length pre)%nat
      with (List.length rest) by lia.
    rewrite !skipn_all2 by lia. reflexivity.
Qed.

Lemma single_key_not_named (k name : string) :
  Js.length k = 1 -> (2 <= String.length name)%nat -> String.eqb k name = false.
Proof.
  intros Hk Hname. destruct (String.eqb_spec k name) as [-> |]; [|reflexivity].
  unfold Js.length in Hk. lia.
Qed.

Lemma lineOr_middle (pre post : list string) (x : string) :
  lineOr (pre ++ x :: post) (Arr.length pre) = x.
Proof. unfold lineOr. now rewrite get_middle. Qed.

(** The insert-mode handler on a key that is a single character. *)
Lemma insert_key_is_insertChar (s : State) (k : string) :
  Js.length k = 1 ->
  handleInsertModeKey s k false false = insertChar s k.
Proof.
  intros Hk. unfold handleInsertModeKey.
  rewrite !(single_key_not_named k _ Hk) by (cbn; lia).
  now rewrite Hk.
Qed.

(** X10. In insert mode, with the cursor on a line of the buffer at a column
    within [0, lineLength]: typing a character puts it at the cursor's column
    and moves the cursor one column right, and Backspace then gives back the
    buffer and the cursor exactly; the modified flag stays set. *)
Theorem typed_char_taken_back (filename : string) (s : State) (k : string) :
  mode s = insert ->
  Js.length k = 1 ->
  inBounds insert (lines s) (cursor s) ->
  exists s1 s2,
    step filename s (key k) = Some s1
    /\ step filename s1 (key "Backspace") = Some s2
    /\ lineOr (lines s1) (line (cursor s))
       = Js.slice (lineOr (lines s) (line (cursor s))) 0 (col (cursor s))
         ++ k ++ Js.sliceFrom (lineOr (lines s) (line (cursor s))) (col (cursor s))
    /\ cursor s1 = {| line := line (cursor s); col := col (cursor s) + 1 |}
    /\ lines s2 = lines s /\ cursor s2 = cursor s /\ modified s2 = true.
Proof.
  intros Hmode Hk [Hline Hcol]. cbn [VimMode_eqb] in Hcol.
  destruct (around_line (lines s) (line (cursor s)) ltac:(lia))
    as (pre & l & post & Hl & Hpre).
  destruct (cursor s) as [i c] eqn:Hcur. cbn [line col] in *. subst i.
  rewrite Hl, lineOr_middle in Hcol.
  set (a := Js.slice l 0 c). set (b := Js.sliceFrom l c).
  assert (Ha : Js.length a = c) by (unfold a; rewrite slice_length; lia).
  assert (Hab : a ++ b = l) by (apply slice_parts; lia).
  set (s1 := setModified true
               (setCursor {| line := Arr.length pre; col := c + 1 |}
                  (setLines (pre ++ (a ++ k ++ b)%string :: post)%list s))).
  assert (H1 : step filename s (key k) = Some s1).
  { unfold step, handleEvent, key, handleKeyDown. rewrite Hmode.
    rewrite insert_key_is_insertChar by assumption.
    unfold insertChar, andThen, updLines, updCursor, upd.
    rewrite Hcur. cbn [line col]. rewrite Hl, lineOr_middle, set_middle.
    cbn. rewrite Hcur. reflexivity. }
  assert (H2 : step filename s1 (key "Backspace")
               = Some (setModified true
                         (setCursor {| line := Arr.length pre; col := c |}
                            (setLines (lines s) s1)))).
  { unfold step, handleEvent, key, handleKeyDown.
    change (mode s1) with (mode s). rewrite Hmode.
    unfold handleInsertModeKey.
    change (String.eqb "Backspace" "Escape") with false.
    change (String.eqb "Backspace" "Backspace") with true. cbv iota.
    unfold backspace.
    change (cursor s1) with {| line := Arr.length pre; col := c + 1 |}.
    cbn [line col].
    destruct (Z.ltb_spec 0 (c + 1)); [|lia].
    unfold andThen, updLines, updCursor, upd.
    change (lines s1) with (pre ++ (a ++ k ++ b)%string :: post)%list.
    rewrite lineOr_middle, set_middle. cbn [option_map].
    assert (E1 : Js.slice (a ++ k ++ b) 0 (c + 1 - 1) = a).
    { replace (c + 1 - 1) with (Js.length a) by lia. apply slice_prefix. }
    assert (E2 : Js.sliceFrom (a ++ k ++ b) (c + 1) = b).
    { replace (c + 1) with (Js.length (a ++ k))
        by (rewrite js_length_append; lia).
      rewrite <- append_assoc. apply sliceFrom_suffix. }
    rewrite E1, E2, Hab, <- Hl. cbn.
    replace (c + 1 - 1) with c by lia. reflexivity. }
  exists s1, (setModified true
                (setCursor {| line := Arr.length pre; col := c |}
                   (setLines (lines s) s1))).
  split; [exact H1|]. split; [exact H2|].
  cbn. rewrite Hl, !lineOr_middle. repeat split.
Qed.

Lemma typed_char_taken_back_witness :
  exists s2,
    run "notes.txt" (initialState "ab") [key "a"; key "x"; key "Backspace"]
    = Some s2
    /\ lines s2 = ["ab"] /\ cursor s2 = {| line := 0; col := 1 |}.
Proof.
  destruct (typed_char_taken_back "notes.txt"
              (setMode insert
                 (setCursor {| line := 0; col := 1 |} (initialState "ab")))
              "x" eq_refl eq_refl
              ltac:(unfold inBounds; vm_compute; repeat split; discriminate))
    as (s1 & s2 & H1 & H2 & _ & _ & Hl & Hc & _).
  exists s2. split.
  - cbn [run]. change (step "notes.txt" (initialState "ab") (key "a"))
      with (Some (setMode insert
                    (setCursor {| line := 0; col := 1 |} (initialState "ab")))).
    cbv iota. rewrite H1. cbv iota. rewrite H2. reflexivity.
  - split; [exact Hl | exact Hc].
Defined.

Lemma snoc_middle {A : Type} (pre rest : list A) (x : A) :
  (pre ++ x :: rest)%list = ((pre ++ [x]) ++ rest)%list.
Proof. now rewrite <- app_assoc. Qed.

Lemma length_snoc {A : Type} (pre : list A) (x : A) :
  Arr.length (pre ++ [x]) = Arr.length pre + 1.
Proof. unfold Arr.length. rewrite length_app. cbn. lia. Qed.

(** X11. In insert mode, with the cursor on a line of the buffer at a
    column within [0, lineLength]: Enter splits the line at the cursor and
    puts the cursor at the start of the second half, and Backspace there
    joins the halves again and gives back the buffer and the cursor
    exactly. *)
Theorem line_break_taken_back (filename : string) (s : State) :
  mode s = insert ->
  inBounds insert (lines s) (cursor s) ->
  exists s1 s2 pre post,
    step filename s (key "Enter") = Some s1
    /\ step filename s1 (key "Backspace") = Some s2
    /\ Arr.length pre = line (cursor s)
    /\ lines s = (pre ++ lineOr (lines s) (line (cursor s)) :: post)%list
    /\ lines s1
       = (pre ++ Js.slice (lineOr (lines s) (line (cursor s))) 0 (col (cursor s))
              :: Js.sliceFrom (lineOr (lines s) (line (cursor s))) (col (cursor s))
              :: post)%list
    /\ cursor s1 = {| line := line (cursor s) + 1; col := 0 |}
    /\ lines s2 = lines s /\ cursor s2 = cursor s /\ modified s2 = true.
Proof.
  intros Hmode [Hline Hcol]. cbn [VimMode_eqb] in Hcol.
  destruct (around_line (lines s) (line (cursor s)) ltac:(lia))
    as (pre & l & post & Hl & Hpre).
  destruct (cursor s) as [i c] eqn:Hcur. cbn [line col] in *. subst i.
  rewrite Hl, lineOr_middle in Hcol.
  set (a := Js.slice l 0 c). set (b := Js.sliceFrom l c).
  assert (Ha : Js.length a = c) by (unfold a; rewrite slice_length; lia).
  assert (Hab : a ++ b = l) by (apply slice_parts; lia).
  set (s1 := setModified true
               (setCursor {| line := Arr.length pre + 1; col := 0 |}
                  (setLines (pre ++ a :: b :: post)%list s))).
  assert (H1 : step filename s (key "Enter") = Some s1).
  { unfold step, handleEvent, key, handleKeyDown. rewrite Hmode.
    unfold handleInsertModeKey.
    change (String.eqb "Enter" "Escape") with false.
    change (String.eqb "Enter" "Backspace") with false.
    change (String.eqb "Enter" "Delete") with false.
    change (String.eqb "Enter" "Enter") with true. cbv iota.
    unfold insertNewLine, andThen, updLines, updCursor, upd.
    rewrite Hcur. cbn [line col]. rewrite Hl, lineOr_middle, set_middle.
    cbn [option_map]. fold a b.
    rewrite (snoc_middle pre post a), <- length_snoc with (x := a).
    rewrite (splice_middle (pre ++ [a]) post [b] 0) by lia.
    change (Z.to_nat 0) with O.
    cbn [skipn]. rewrite <- app_assoc. cbn. rewrite Hcur. reflexivity. }
  assert (H2 : step filename s1 (key "Backspace")
               = Some (setModified true
                         (setCursor {| line := Arr.length pre; col := c |}
                            (setLines (lines s) s1)))).
  { unfold step, handleEvent, key, handleKeyDown.
    change (mode s1) with (mode s). rewrite Hmode.
    unfold handleInsertModeKey.
    change (String.eqb "Backspace" "Escape") with false.
    change (String.eqb "Backspace" "Backspace") with true. cbv iota.
    unfold backspace.
    change (cursor s1) with {| line := Arr.length pre + 1; col := 0 |}.
    cbn [line col]. change (0 <? 0) with false. cbv iota.
    pose proof (arr_length_nonneg pre).
    destruct (Z.ltb_spec 0 (Arr.length pre + 1)); [|lia].
    unfold andThen, updLines, upd.
    change (lines s1) with (pre ++ a :: b :: post)%list.
    replace (Arr.length pre + 1 - 1) with (Arr.length pre) by lia.
    rewrite lineOr_middle, set_middle. cbn [option_map].
    assert (Hb : lineOr (pre ++ a :: b :: post) (Arr.length pre + 1) = b).
    { rewrite (snoc_middle pre (b :: post) a), <- length_snoc with (x := a).
      apply lineOr_middle. }
    rewrite Hb, Hab.
    rewrite (snoc_middle pre (b :: post) l), <- length_snoc with (x := l).
    rewrite (splice_middle (pre ++ [l]) (b :: post) [] 1) by lia.
    change (Z.to_nat 1) with 1%nat.
    cbn [skipn app]. rewrite <- app_assoc. cbn [app]. rewrite <- Hl.
    assert (Hlen : lengthOr (pre ++ a :: b :: post) (Arr.length pre) 0 = c).
    { unfold lengthOr. rewrite get_middle.
      destruct (Z.eqb_spec (Js.length a) 0); lia. }
    rewrite Hlen. reflexivity. }
  exists s1, (setModified true
                (setCursor {| line := Arr.length pre; col := c |}
                   (setLines (lines s) s1))), pre, post.
  split; [exact H1|]. split; [exact H2|].
  cbn. rewrite Hl, !lineOr_middle. repeat split.
Qed.

Lemma line_break_taken_back_witness :
  exists s1 s2,
    step "notes.txt"
      (setMode insert (setCursor {| line := 0; col := 1 |} (initialState "ab")))
      (key "Enter") = Some s1
    /\ lines s1 = ["a"; "b"]
    /\ step "notes.txt" s1 (key "Backspace") = Some s2
    /\ lines s2 = ["ab"] /\ cursor s2 = {| line := 0; col := 1 |}.
Proof.
  destruct (line_break_taken_back "notes.txt"
              (setMode insert
                 (setCursor {| line := 0; col := 1 |} (initialState "ab")))
              eq_refl
              ltac:(unfold inBounds; vm_compute; repeat split; discriminate))
    as (s1 & s2 & pre & post & H1 & H2 & _ & _ & _ & _ & Hl & Hc & _).
  exists s1, s2. split; [exact H1|].
  assert (E : s1 = setModified true
                     (setCursor {| line := 1; col := 0 |}
                        (setLines ["a"; "b"]
                           (setMode insert
                              (setCursor {| line := 0; col := 1 |}
                                 (initialState "ab")))))).
  { assert (E' : Some s1 = Some (setModified true
                     (setCursor {| line := 1; col := 0 |}
                        (setLines ["a"; "b"]
                           (setMode insert
                              (setCursor {| line := 0; col := 1 |}
                                 (initialState "ab")))))))
      by (rewrite <- H1; vm_compute; reflexivity).
    now injection E'. }
  split; [rewrite E; reflexivity|]. split; [exact H2|].
  split; [exact Hl | exact Hc].
Defined.

(** ** The count prefix *)





(** X9. A count typed before [dd] is lost: in normal mode with no [d]
    pending and the cursor on a line of the buffer, [d] [d] removes exactly
    one line into the register, whatever count had been typed before; the
    first [d] empties the count. *)
Theorem count_before_dd_is_lost (filename : string) (s : State) :
  mode s = normal ->
  lastCommand s <> "d" ->
  0 <= line (cursor s) < Arr.length (lines s) ->
  exists s1 s2,
    step filename s (key "d") = Some s1
    /\ step filename s1 (key "d") = Some s2
    /\ lines s1 = lines s /\ numberBuffer s1 = ""
    /\ Arr.length (yankBuffer s2) = 1
    /\ Arr.get (lines s) (line (cursor s)) = Arr.get (yankBuffer s2) 0.
Proof.
  intros Hmode Hlast Hi.
  assert (H1 : step filename s (key "d")
               = Some (setNumberBuffer "" (setLastCommand "d" s))).
  { unfold step, handleEvent, key, handleKeyDown. rewrite Hmode.
    unfold handleNormalModeKey. cbn.
    destruct (String.eqb_spec (lastCommand s) "d"); [contradiction|].
    change (Js.isDigit "d") with false. reflexivity. }
  pose proof (dd_step filename (setNumberBuffer "" (setLastCommand "d" s))
                Hmode eq_refl) as H2.
  destruct (around_line (lines s) (line (cursor s)) Hi)
    as (pre & l & post & Hl & Hpre).
  eexists. eexists. split; [exact H1|]. split; [exact H2|].
  cbn. change (countOf "") with 1.
  rewrite slice_inside by lia.
  replace (Z.min 1 (Arr.length (lines s) - line (cursor s))) with 1 by lia.
  change (Z.to_nat 1) with 1%nat.
  rewrite Hl, <- Hpre, get_middle.
  replace (Z.to_nat (Arr.length pre)) with (List.length pre)
    by (unfold Arr.length; lia).
  rewrite skipn_app, skipn_all, Nat.sub_diag. cbn [skipn app firstn].
  repeat split.
Qed.

Lemma count_before_dd_is_lost_witness :
  exists s2,
    run "notes.txt" (initialState (Js.join newline ["a"; "b"; "c"]))
      [key "2"; key "d"; key "d"] = Some s2
    /\ lines s2 = ["b"; "c"] /\ yankBuffer s2 = ["a"].
Proof.
  destruct (count_before_dd_is_lost "notes.txt"
              (setNumberBuffer "2"
                 (initialState (Js.join newline ["a"; "b"; "c"])))
              eq_refl ltac:(discriminate)
              ltac:(vm_compute; split; [discriminate | reflexivity]))
    as (s1 & s2 & _).
  eexists. split; [vm_compute; reflexivity|]. split; reflexivity.
Defined.

(** ** Opening and joining lines *)

(** X12. In normal mode with the cursor on line [i] of the buffer, [o] puts
    an empty line after line [i] and the cursor on it, [O] puts an empty line
    before line [i] and the cursor on it (same index, column 0); both switch
    to insert mode, mark the buffer modified and leave every other line where
    it was. *)
Theorem open_line_inserts_empty_line (filename : string) (s : State) :
  mode s = normal ->
  0 <= line (cursor s) < Arr.length (lines s) ->
  exists pre l post below above,
    lines s = (pre ++ l :: post)%list
    /\ Arr.length pre = line (cursor s)
    /\ step filename s (key "o") = Some below
    /\ lines below = (pre ++ l :: "" :: post)%list
    /\ cursor below = {| line := line (cursor s) + 1; col := 0 |}
    /\ mode below = insert /\ modified below = true
    /\ step filename s (key "O") = Some above
    /\ lines above = (pre ++ "" :: l :: post)%list
    /\ cursor above = {| line := line (cursor s); col := 0 |}
    /\ mode above = insert /\ modified above = true.
Proof.
  intros Hmode Hi.
  destruct (around_line (lines s) (line (cursor s)) Hi)
    as (pre & l & post & Hl & Hpre).
  assert (Hb : Arr.splice (lines s) (line (cursor s) + 1) 0 [""]
               = (pre ++ l :: "" :: post)%list).
  { rewrite Hl, <- Hpre, (snoc_middle pre post l), <- length_snoc with (x := l).
    rewrite splice_middle by lia. cbn [Z.to_nat skipn].
    now rewrite <- app_assoc. }
  assert (Ha : Arr.splice (lines s) (line (cursor s)) 0 [""]
               = (pre ++ "" :: l :: post)%list).
  { rewrite Hl, <- Hpre, splice_middle by lia. reflexivity. }
  exists pre, l, post,
    (setNumberBuffer ""
       (setModified true
          (setMode insert
             (setCursor {| line := line (cursor s) + 1; col := 0 |}
                (setLines (pre ++ l :: "" :: post)%list s))))),
    (setNumberBuffer ""
       (setModified true
          (setMode insert
             (setCursor {| line := line (cursor s); col := 0 |}
                (setLines (pre ++ "" :: l :: post)%list s))))).
  split; [exact Hl|]. split; [exact Hpre|]. split.
  { normal_key Hmode.
    unfold openLineBelow, andThen, updLines, updCursor, upd.
    rewrite Hb. reflexivity. }
  repeat (split; [reflexivity|]). split.
  { normal_key Hmode.
    unfold openLineAbove, andThen, updLines, updCursor, upd.
    rewrite Ha. reflexivity. }
  repeat split.
Qed.

Lemma open_line_inserts_empty_line_witness :
  exists below above,
    step "notes.txt" (initialState "ab") (key "o") = Some below
    /\ lines below = ["ab"; ""] /\ cursor below = {| line := 1; col := 0 |}
    /\ step "notes.txt" (initialState "ab") (key "O") = Some above
    /\ lines above = [""; "ab"] /\ cursor above = {| line := 0; col := 0 |}.
Proof.
  destruct (open_line_inserts_empty_line "notes.txt" (initialState "ab")
              eq_refl ltac:(vm_compute; split; [discriminate | reflexivity]))
    as (pre & l & post & below & above & _).
  eexists. eexists. split; [vm_compute; reflexivity|].
  split; [reflexivity|]. split; [reflexivity|].
  split; [vm_compute; reflexivity|]. split; reflexivity.
Defined.

(** X13. [J] in normal mode with the cursor on a line that has a next line:
    the two lines become one, the next line losing its leading white space
    and a single space separating them unless the current line is empty; the
    other lines, the cursor and the mode stay, and the buffer is marked
    modified. *)
Theorem join_merges_next_line (filename : string) (s : State) :
  mode s = normal ->
  0 <= line (cursor s) < Arr.length (lines s) - 1 ->
  exists pre l1 l2 post s',
    lines s = (pre ++ l1 :: l2 :: post)%list
    /\ Arr.length pre = line (cursor s)
    /\ step filename s (key "J") = Some s'
    /\ lines s'
       = (pre ++ (l1 ++ (if (0 <? Js.length l1)%Z then " " else "")
                     ++ Js.trimStart l2)%string :: post)%list
    /\ cursor s' = cursor s /\ mode s' = normal /\ modified s' = true.
Proof.
  intros Hmode Hi.
  destruct (around_line (lines s) (line (cursor s)) ltac:(lia))
    as (pre & l1 & rest & Hl & Hpre).
  destruct rest as [|l2 post].
  { exfalso. rewrite Hl in Hi. unfold Arr.length in *.
    rewrite length_app in Hi. cbn in Hi. lia. }
  exists pre, l1, l2, post,
    (setNumberBuffer ""
       (setModified true
          (setLines
             (pre ++ (l1 ++ (if (0 <? Js.length l1)%Z then " " else "")
                         ++ Js.trimStart l2)%string :: post)%list s))).
  split; [exact Hl|]. split; [exact Hpre|]. split; [|repeat split; assumption].
  normal_key Hmode. unfold joinLines.
  destruct (Z.leb_spec (Arr.length (lines s) - 1) (line (cursor s))); [lia|].
  unfold andThen, updLines, upd. rewrite Hl, <- Hpre, lineOr_middle, set_middle.
  assert (Hn : lineOr (pre ++ l1 :: l2 :: post) (Arr.length pre + 1) = l2).
  { rewrite (snoc_middle pre (l2 :: post) l1), <- length_snoc with (x := l1).
    apply lineOr_middle. }
  rewrite Hn. cbn [option_map].
  match goal with
  | |- context [Arr.splice (pre ++ ?v :: l2 :: post)%list _ _ _] =>
      rewrite (snoc_middle pre (l2 :: post) v), <- length_snoc with (x := v);
      rewrite splice_middle by lia
  end.
  cbn [Z.to_nat Pos.to_nat Pos.iter_op Nat.add skipn app].
  rewrite <- app_assoc. reflexivity.
Qed.

Lemma join_merges_next_line_witness :
  exists s',
    step "notes.txt" (initialState (Js.join newline ["foo"; "  bar"; "baz"]))
      (key "J") = Some s'
    /\ lines s' = ["foo bar"; "baz"].
Proof.
  destruct (join_merges_next_line "notes.txt"
              (initialState (Js.join newline ["foo"; "  bar"; "baz"]))
              eq_refl ltac:(vm_compute; split; [discriminate | reflexivity]))
    as (pre & l1 & l2 & post & s' & _).
  eexists. split; [vm_compute; reflexivity | reflexivity].
Defined.

(** ** At the edges of the buffer *)

Lemma times_skip (n : nat) (p : State) : times n skip p = Some p.
Proof. induction n; cbn; [reflexivity | exact IHn]. Qed.

(** X14. Keys that have nothing to act on change nothing: [J] on the last
    line (or below it) and [X] at line 0, column 0 only empty the count, and
    Backspace in insert mode at line 0, column 0 leaves the state as it is;
    none of them marks the buffer modified. *)
Theorem boundary_keys_change_nothing (filename : string) (s : State) :
  (mode s = normal -> Arr.length (lines s) - 1 <= line (cursor s) ->
   step filename s (key "J") = Some (setNumberBuffer "" s))
  /\ (mode s = normal -> cursor s = {| line := 0; col := 0 |} ->
      step filename s (key "X") = Some (setNumberBuffer "" s))
  /\ (mode s = insert -> cursor s = {| line := 0; col := 0 |} ->
      step filename s (key "Backspace") = Some s).
Proof.
  repeat split.
  - intros Hmode Hlast. normal_key Hmode. unfold joinLines.
    destruct (Z.leb_spec (Arr.length (lines s) - 1) (line (cursor s))); [|lia].
    reflexivity.
  - intros Hmode Hcur. normal_key Hmode. unfold backspace. rewrite Hcur.
    cbn [line col Z.ltb Z.compare]. unfold andThen. rewrite times_skip.
    reflexivity.
  - intros Hmode Hcur. unfold step, handleEvent, key, handleKeyDown.
    rewrite Hmode. unfold handleInsertModeKey.
    change (String.eqb "Backspace" "Escape") with false.
    change (String.eqb "Backspace" "Backspace") with true. cbv iota.
    unfold backspace. rewrite Hcur. reflexivity.
Qed.

Lemma boundary_keys_change_nothing_witness :
  step "notes.txt" (initialState "ab") (key "J")
  = Some (setNumberBuffer "" (initialState "ab"))
  /\ step "notes.txt" (setMode insert (initialState "ab")) (key "Backspace")
     = Some (setMode insert (initialState "ab")).
Proof.
  split.
  - destruct (boundary_keys_change_nothing "notes.txt" (initialState "ab"))
      as (HJ & _).
    apply HJ; [reflexivity | vm_compute; discriminate].
  - destruct (boundary_keys_change_nothing "notes.txt"
                (setMode insert (initialState "ab"))) as (_ & _ & HB).
    apply HB; reflexivity.
Defined.

Lemma deleteChar_at_end (s p : State) :
  lines p = lines s ->
  0 <= line (cursor s) ->
  Arr.length (lines s) - 1 <= line (cursor s) ->
  Js.length (lineOr (lines s) (line (cursor s))) <= col (cursor s) ->
  deleteChar s p = Some (setModified true p).
Proof.
  intros Hp H0 Hlast Hcol. unfold deleteChar, andThen, updLines, upd.
  rewrite Hp.
  destruct (Z.ltb_spec (col (cursor s))
              (Js.length (lineOr (lines s) (line (cursor s))))); [lia|].
  destruct (Z.ltb_spec (line (cursor s)) (Arr.length (lines s) - 1)); [lia|].
  cbn. f_equal. rewrite <- Hp. now destruct p.
Qed.

(** X15. [x] in normal mode with the cursor on the last line, at or past
    the end of that line, removes nothing: the buffer and the cursor stay as
    they are; yet the buffer is marked modified. *)
Theorem x_past_end_only_marks_modified (filename : string) (s : State) :
  mode s = normal ->
  0 <= line (cursor s) ->
  Arr.length (lines s) - 1 <= line (cursor s) ->
  Js.length (lineOr (lines s) (line (cursor s))) <= col (cursor s) ->
  1 <= countOf (numberBuffer s) ->
  step filename s (key "x")
  = Some (setNumberBuffer "" (setModified true s)).
Proof.
  intros Hmode H0 Hlast Hcol Hcount. normal_key Hmode.
  assert (Ht : forall n p, lines p = lines s -> (1 <= n)%nat ->
                 times n (deleteChar s) p = Some (setModified true p)).
  { induction n as [|n IH]; intros p Hp Hn; [lia|].
    cbn [times]. unfold andThen.
    rewrite (deleteChar_at_end s p Hp H0 Hlast Hcol).
    destruct n as [|n]; [reflexivity|].
    rewrite IH; [reflexivity | exact Hp | lia]. }
  unfold andThen. rewrite Ht by (try reflexivity; lia). reflexivity.
Qed.

Lemma x_past_end_only_marks_modified_witness :
  step "notes.txt" (initialState "") (key "x")
  = Some (setNumberBuffer "" (setModified true (initialState ""))).
Proof.
  apply (x_past_end_only_marks_modified "notes.txt" (initialState ""));
    vm_compute; try reflexivity; discriminate.
Defined.

(** ** The modified flag and the saved text *)

Lemma lastSaved_app dflt log e :
  lastSaved dflt (log ++ [e])
  = match e with OnSave content => content | _ => lastSaved dflt log end.
Proof.
  revert dflt; induction log as [|x log IH]; intros dflt; cbn.
  - now destruct e.
  - destruct x; apply IH.
Qed.

Lemma keepsModified_andThen u v :
  keepsModified u -> keepsModified v -> keepsModified (u ;; v).
Proof.
  intros Hu Hv p p' H Hp. unfold andThen in H.
  destruct (u p) as [q|] eqn:Hq; [|discriminate]. eauto.
Qed.

Lemma keepsModified_if (b : bool) u v :
  keepsModified u -> keepsModified v -> keepsModified (if b then u else v).
Proof. now destruct b. Qed.

Lemma keepsModified_upd g :
  (forall p, modified p = true -> modified (g p) = true) ->
  keepsModified (upd g).
Proof. intros Hg p p' [= <-]. apply Hg. Qed.

Lemma keepsModified_skip : keepsModified skip.
Proof. now intros p p' [= <-]. Qed.

Lemma keepsModified_throw : keepsModified throw.
Proof. intros p p' [=]. Qed.

Lemma keepsModified_updLines f : keepsModified (updLines f).
Proof.
  intros p p' H Hp. unfold updLines in H.
  destruct (f (lines p)); [|discriminate]. now injection H as <-.
Qed.

Lemma keepsModified_showStatus message duration :
  keepsModified (showStatus message duration).
Proof.
  unfold showStatus. apply keepsModified_andThen;
    [now apply keepsModified_upd|].
  apply keepsModified_if; [now apply keepsModified_upd | apply keepsModified_skip].
Qed.

Ltac keeps_flag :=
  repeat match goal with
         | |- keepsModified skip => apply keepsModified_skip
         | |- keepsModified throw => apply keepsModified_throw
         | |- keepsModified (showStatus _ _) => apply keepsModified_showStatus
         | |- keepsModified (updLines _) => apply keepsModified_updLines
         | |- keepsModified (updCursor _) =>
             apply keepsModified_upd; intros; assumption
         | |- keepsModified (upd _) =>
             apply keepsModified_upd; intros; first [assumption | reflexivity]
         | |- keepsModified (_ ;; _) => apply keepsModified_andThen
         | |- keepsModified (if _ then _ else _) => apply keepsModified_if
         | |- keepsModified (match ?x with Some _ => _ | None => _ end) =>
             destruct x
         end.

Lemma marksModified_last u v : marksModified v -> marksModified (u ;; v).
Proof. apply establishes_last. Qed.

Lemma marksModified_first u v :
  marksModified u -> keepsModified v -> marksModified (u ;; v).
Proof. intros Hu Hv. apply establishes_first; [exact Hu | exact Hv]. Qed.

Lemma marksModified_set : marksModified (upd (setModified true)).
Proof. now intros p p' [= <-]. Qed.

Lemma dirtyOrSame_marks u : marksModified u -> dirtyOrSame u.
Proof. intros Hu p p' H. left. eapply Hu, H. Qed.

Lemma dirtyOrSame_andThen u v :
  dirtyOrSame u -> dirtyOrSame v -> keepsModified v -> dirtyOrSame (u ;; v).
Proof.
  intros Hu Hv Hk p p' H. unfold andThen in H.
  destruct (u p) as [q|] eqn:Hq; [|discriminate].
  destruct (Hu _ _ Hq) as [Hd | (Hl & Hm & Hs)].
  - left. eapply Hk; eauto.
  - destruct (Hv _ _ H) as [Hd' | (Hl' & Hm' & Hs')]; [now left|].
    right. split; [congruence|]. split; [congruence|].
    intros dflt. now rewrite Hs'.
Qed.

Lemma dirtyOrSame_skip : dirtyOrSame skip.
Proof. intros p p' [= <-]. right. repeat split. Qed.

Lemma dirtyOrSame_throw : dirtyOrSame throw.
Proof. intros p p' [=]. Qed.

Lemma dirtyOrSame_if (b : bool) u v :
  dirtyOrSame u -> dirtyOrSame v -> dirtyOrSame (if b then u else v).
Proof. now destruct b. Qed.

Lemma dirtyOrSame_upd g :
  (forall p, lines (g p) = lines p /\ modified (g p) = modified p
             /\ out (g p) = out p) ->
  dirtyOrSame (upd g).
Proof.
  intros Hg p p' [= <-]. right. destruct (Hg p) as (Hl & Hm & Ho).
  repeat split; try assumption. intros dflt. now rewrite Ho.
Qed.

Lemma dirtyOrSame_emit e :
  (forall content, e <> OnSave content) -> dirtyOrSame (upd (emit e)).
Proof.
  intros He p p' [= <-]. right. repeat split. intros dflt. cbn.
  rewrite lastSaved_app. destruct e; try reflexivity.
  now destruct (He content).
Qed.

Lemma dirtyOrSame_showStatus message duration :
  dirtyOrSame (showStatus message duration).
Proof.
  unfold showStatus. apply dirtyOrSame_andThen.
  - apply dirtyOrSame_upd. intros p. repeat split.
  - apply dirtyOrSame_if; [apply dirtyOrSame_emit; discriminate
                          | apply dirtyOrSame_skip].
  - keeps_flag.
Qed.

Lemma keepsModified_times n u : keepsModified u -> keepsModified (times n u).
Proof.
  intros Hu. induction n; cbn;
    [apply keepsModified_skip | now apply keepsModified_andThen].
Qed.

Lemma dirtyOrSame_times n u :
  dirtyOrSame u -> keepsModified u -> dirtyOrSame (times n u).
Proof.
  intros Hu Hk. induction n; cbn; [apply dirtyOrSame_skip|].
  apply dirtyOrSame_andThen; [assumption.. | now apply keepsModified_times].
Qed.

Create HintDb callbacks.

#[local] Hint Unfold moveLeft moveRight moveUp moveDown moveToLineStart
  moveToLineEnd moveToFirstNonWhitespace moveWordForward moveWordBackward
  moveToTop moveToBottom insertChar insertNewLine deleteChar backspace
  deleteLine yankLine pasteBefore pasteAfter openLineBelow openLineAbove
  joinLines undoLastChange redoLastChange yankCurrentLine clearCurrentLine
  truncateAtCursor deleteSelection yankSelection : callbacks.

Ltac marks :=
  lazymatch goal with
  | |- marksModified (upd (setModified true)) => apply marksModified_set
  | |- marksModified (_ ;; _) =>
      first [ apply marksModified_last; marks
            | apply marksModified_first; [marks | solve [keeps_flag]] ]
  | |- marksModified (if _ then _ else _) => apply establishes_if; marks
  end.

Ltac dirty :=
  lazymatch goal with
  | |- dirtyOrSame skip => apply dirtyOrSame_skip
  | |- dirtyOrSame throw => apply dirtyOrSame_throw
  | |- dirtyOrSame (showStatus _ _) => apply dirtyOrSame_showStatus
  | |- dirtyOrSame (updCursor _) =>
      apply dirtyOrSame_upd; intros; repeat split
  | |- dirtyOrSame (upd (emit _)) => apply dirtyOrSame_emit; discriminate
  | |- dirtyOrSame (upd _) => apply dirtyOrSame_upd; intros; repeat split
  | |- dirtyOrSame (times _ _) =>
      apply dirtyOrSame_times; [dirty | solve [keeps_flag]]
  | |- dirtyOrSame (if _ then _ else _) => apply dirtyOrSame_if; dirty
  | |- dirtyOrSame (match ?x with Some _ => _ | None => _ end) =>
      destruct x; dirty
  | |- dirtyOrSame (_ ;; _) =>
      first [ apply dirtyOrSame_marks; solve [marks]
            | apply dirtyOrSame_andThen; [dirty | dirty | solve [keeps_flag]] ]
  end.

Lemma dirtyOrSame_handleNormalModeKey s k :
  dirtyOrSame (handleNormalModeKey s k).
Proof.
  unfold handleNormalModeKey. apply dirtyOrSame_if; [dirty|]. cbv zeta.
  destruct (switchOn normalCases On_default k);
    autounfold with callbacks; cbv zeta; dirty.
Qed.

Lemma dirtyOrSame_handleInsertModeKey s k ctrlKey metaKey :
  dirtyOrSame (handleInsertModeKey s k ctrlKey metaKey).
Proof.
  unfold handleInsertModeKey. autounfold with callbacks. cbv zeta. dirty.
Qed.

Lemma dirtyOrSame_handleReplaceModeKey s k ctrlKey metaKey :
  dirtyOrSame (handleReplaceModeKey s k ctrlKey metaKey).
Proof. unfold handleReplaceModeKey. dirty. Qed.

Lemma dirtyOrSame_handleVisualModeKey s k :
  dirtyOrSame (handleVisualModeKey s k).
Proof.
  unfold handleVisualModeKey.
  destruct (switchOn visualCases Vis_none k);
    autounfold with callbacks; cbv zeta; dirty.
Qed.

Lemma dirtyOrSame_handleKeyDown s k ctrlKey metaKey :
  dirtyOrSame (handleKeyDown s k ctrlKey metaKey).
Proof.
  unfold handleKeyDown. destruct (mode s).
  - apply dirtyOrSame_handleNormalModeKey.
  - apply dirtyOrSame_handleInsertModeKey.
  - apply dirtyOrSame_handleVisualModeKey.
  - apply dirtyOrSame_skip.
  - apply dirtyOrSame_handleReplaceModeKey.
Qed.

Lemma dirtyOrSame_executeVimCommand filename s cmd idle :
  ~ In (Js.trim cmd) ["w"; "wq"; "x"; "wq!"] ->
  dirtyOrSame (executeVimCommand filename s cmd idle).
Proof.
  intros Hnot. unfold executeVimCommand. cbv zeta.
  assert (Hne : forall t, In t ["w"; "wq"; "x"; "wq!"] ->
                          String.eqb (Js.trim cmd) t = false).
  { intros t Ht. destruct (String.eqb_spec (Js.trim cmd) t); [|reflexivity].
    subst t. contradiction. }
  rewrite (Hne "w"), (Hne "wq"), (Hne "x"), (Hne "wq!") by (cbn; tauto).
  cbn [orb]. dirty.
Qed.

Lemma dirtyOrSame_cleanMeansSaved c u p p' :
  dirtyOrSame u -> u p = Some p' ->
  cleanMeansSaved c p -> cleanMeansSaved c p'.
Proof.
  intros Hu H Hp Hclean. destruct (Hu _ _ H) as [Hd | (Hl & Hm & Hs)].
  - congruence.
  - rewrite Hl, Hs. apply Hp. congruence.
Qed.

Lemma save_command_cleanMeansSaved filename c s s' cmd idle :
  In (Js.trim cmd) ["w"; "wq"; "x"; "wq!"] ->
  executeVimCommand filename s cmd idle s = Some s' ->
  cleanMeansSaved c s'.
Proof.
  intros Hin. unfold executeVimCommand.
  cbn in Hin. destruct Hin as [<- | [<- | [<- | [<- | []]]]]; cbn;
    intros [= <-] _; cbn; rewrite ?lastSaved_app; cbn;
    rewrite ?lastSaved_app; cbn; rewrite ?lastSaved_app; reflexivity.
Qed.

Lemma step_cleanMeansSaved filename c s e s' :
  step filename s e = Some s' -> cleanMeansSaved c s -> cleanMeansSaved c s'.
Proof.
  unfold step. destruct e as [k ctrlKey metaKey | value | k | idle | cb];
    cbn [handleEvent].
  - apply dirtyOrSame_cleanMeansSaved, dirtyOrSame_handleKeyDown.
  - apply dirtyOrSame_cleanMeansSaved. dirty.
  - apply dirtyOrSame_cleanMeansSaved. dirty.
  - destruct (VimMode_eqb (mode s) command);
      [|apply dirtyOrSame_cleanMeansSaved; dirty].
    unfold handleCommandSubmit, andThen.
    destruct (executeVimCommand filename s (commandBuffer s) idle s) as [q|] eqn:Hq;
      [|discriminate].
    intros [= <-] Hs.
    assert (Hq' : cleanMeansSaved c q).
    { destruct (in_dec string_dec (Js.trim (commandBuffer s))
                  ["w"; "wq"; "x"; "wq!"]) as [Hin | Hnot].
      - exact (save_command_cleanMeansSaved filename c s q (commandBuffer s)
                 idle Hin Hq).
      - exact (dirtyOrSame_cleanMeansSaved c _ s q
                 (dirtyOrSame_executeVimCommand filename s (commandBuffer s) idle
                    Hnot) Hq Hs). }
    exact Hq'.
  - apply dirtyOrSame_cleanMeansSaved. destruct (timerSet cb s); [|dirty].
    destruct cb; dirty.
Qed.

(** X16. Whenever the modified flag is clear, the text of the buffer (its
    lines joined by line feeds) is the text last handed to [onSave] or, if
    nothing was saved yet, the initial content: every change of the buffer
    sets the flag, and only [w] clears it. *)
Theorem unmodified_buffer_is_saved_text (filename initialContent : string)
  (events : list Event) (s : State) :
  run filename (initialState initialContent) events = Some s ->
  modified s = false ->
  Js.join newline (lines s) = lastSaved initialContent (out s).
Proof.
  intros Hrun.
  assert (Hinit : cleanMeansSaved initialContent (initialState initialContent)).
  { intros _. rewrite initial_lines. apply join_split. discriminate. }
  revert Hinit Hrun. generalize (initialState initialContent) as s0.
  induction events as [|e events IH]; intros s0 H0 Hrun; cbn in Hrun.
  - now injection Hrun as <-.
  - destruct (step filename s0 e) as [s1|] eqn:Hstep; [|discriminate].
    eapply IH; [|exact Hrun]. eapply step_cleanMeansSaved; eauto.
Qed.

Lemma unmodified_buffer_is_saved_text_witness :
  exists s,
    run "notes.txt" (initialState "ab")
      [key "x"; key ":"; CommandChange "w"; CommandSubmit false; key "j"] = Some s
    /\ modified s = false
    /\ lastSaved "ab" (out s) = "b" /\ lines s = ["b"].
Proof.
  eexists. split; [vm_compute; reflexivity|]. split; [reflexivity|].
  split; [|reflexivity].
  match goal with
  | |- lastSaved _ (out ?s0) = _ =>
      assert (Hrun : run "notes.txt" (initialState "ab")
                [key "x"; key ":"; CommandChange "w"; CommandSubmit false; key "j"]
              = Some s0) by (vm_compute; reflexivity);
      rewrite <- (unmodified_buffer_is_saved_text _ _ _ _ Hrun eq_refl)
  end.
  reflexivity.
Defined.

(** ** Parsing [s/old/new/flags] *)

Lemma rev_acc_app (a b acc : string) :
  Js.rev_acc (a ++ b) acc = Js.rev_acc b (Js.rev_acc a acc).
Proof. revert acc; induction a; intros acc; cbn; [reflexivity | apply IHa]. Qed.

(** A text that starts and ends with characters that are not white space
    is its own trimmed form. *)
Lemma trim_between (c d : ascii) (t : string) :
  Js.isSpace c = false -> Js.isSpace d = false ->
  Js.trim (String c (t ++ String d "")) = String c (t ++ String d "").
Proof.
  intros Hc Hd. unfold Js.trim, Js.trimEnd. cbn [Js.trimStart]. rewrite Hc.
  unfold Js.rev at 2. cbn [Js.rev_acc]. rewrite rev_acc_app. cbn [Js.rev_acc].
  cbn [Js.trimStart]. rewrite Hd.
  replace (String d (Js.rev_acc t (String c "")))
    with (Js.rev (String c (t ++ String d "")))
    by (unfold Js.rev; cbn [Js.rev_acc]; rewrite rev_acc_app; reflexivity).
  apply rev_rev.
Qed.

Lemma includes_cons (c : ascii) (r : string) (sep : ascii) :
  Js.includes (String c r) (String sep "") = false ->
  c <> sep /\ Js.includes r (String sep "") = false.
Proof.
  unfold Js.includes. cbn [Js.find prefix].
  destruct (ascii_dec sep c) as [-> | Hne].
  - destruct r; discriminate.
  - destruct (Js.find (String sep "") r); [discriminate|]. intros _.
    split; [congruence | reflexivity].
Qed.

Lemma split_go_step fuel sep c r cur :
  Js.split_go (S fuel) sep (String c r) cur
  = if prefix sep (String c r)
    then Js.rev cur ::
         Js.split_go fuel sep
           (substring (String.length sep) (String.length (String c r))
              (String c r)) ""
    else Js.split_go fuel sep r (String c cur).
Proof. reflexivity. Qed.

Lemma prefix_one (sep c : ascii) (r : string) :
  prefix (String sep "") (String c r) = if ascii_dec sep c then true else false.
Proof. cbn. destruct (ascii_dec sep c); [now destruct r | reflexivity]. Qed.

(** Cutting at a one-character separator: a piece without the separator,
    followed by the separator, is the first piece. *)
Lemma split_go_piece (sep : ascii) (x rest : string) : forall cur,
  Js.includes x (String sep "") = false ->
  Js.split_go (S (String.length (x ++ String sep rest))) (String sep "")
    (x ++ String sep rest) cur
  = (Js.rev cur ++ x) :: Js.split_go (S (String.length rest)) (String sep "") rest "".
Proof.
  induction x as [|c x IH]; intros cur Hx.
  - cbn [append String.length]. rewrite split_go_step, prefix_one.
    destruct (ascii_dec sep sep); [|congruence].
    rewrite append_empty_r. f_equal. f_equal.
    cbn [String.length substring]. apply substring_all. lia.
  - apply includes_cons in Hx as [Hc Hx].
    cbn [append String.length]. rewrite split_go_step, prefix_one.
    destruct (ascii_dec sep c); [congruence|].
    rewrite (IH (String c cur) Hx). f_equal.
    unfold Js.rev. cbn [Js.rev_acc]. now rewrite !rev_acc_append.
Qed.

Lemma split_go_last (sep : ascii) (x : string) : forall cur,
  Js.includes x (String sep "") = false ->
  Js.split_go (S (String.length x)) (String sep "") x cur = [Js.rev cur ++ x].
Proof.
  induction x as [|c x IH]; intros cur Hx.
  - cbn. now rewrite append_empty_r.
  - apply includes_cons in Hx as [Hc Hx].
    cbn [String.length]. rewrite split_go_step, prefix_one.
    destruct (ascii_dec sep c); [congruence|].
    rewrite (IH (String c cur) Hx). f_equal.
    unfold Js.rev. cbn [Js.rev_acc]. now rewrite !rev_acc_append.
Qed.

(** The four parts of [s/old/new/flags] when neither [old], [new] nor
    [flags] holds a slash. *)
Lemma split_substitute_command (old new flags : string) :
  Js.includes old "/" = false -> Js.includes new "/" = false ->
  Js.includes flags "/" = false ->
  Js.split ("s/" ++ old ++ "/" ++ new ++ "/" ++ flags) "/"
  = ["s"; old; new; flags].
Proof.
  intros Ho Hn Hf. unfold Js.split.
  change ("s/" ++ old ++ "/" ++ new ++ "/" ++ flags)
    with ("s" ++ String "/" (old ++ String "/" (new ++ String "/" flags))).
  rewrite split_go_piece by reflexivity.
  rewrite split_go_piece by assumption.
  rewrite split_go_piece by assumption.
  rewrite split_go_last by assumption. reflexivity.
Qed.

(** ** Occurrences *)

Lemma prefix_append (p b : string) : prefix p (p ++ b) = true.
Proof.
  induction p as [|c p IH]; cbn; [now destruct b|].
  destruct (ascii_dec c c); [exact IH | congruence].
Qed.

(** The position [find] returns is that of the leftmost occurrence. *)
Lemma find_leftmost (p a b : string) :
  exists k, Js.find p (a ++ p ++ b) = Some k /\ (k <= String.length a)%nat.
Proof.
  induction a as [|c a (k & Hk & Hle)].
  - exists O. cbn [append]. destruct (p ++ b) eqn:E.
    + destruct p; [|discriminate]. now split.
    + cbn [Js.find]. rewrite <- E, prefix_append. now split.
  - cbn [append Js.find].
    destruct (prefix p (String c (a ++ p ++ b))).
    + exists O. split; [reflexivity | lia].
    + exists (S k). rewrite Hk. split; [reflexivity | cbn; lia].
Qed.

Lemma find_none_no_occurrence (p t : string) :
  Js.find p t = None -> ~ occursIn p t.
Proof.
  intros Hnone (a & b & ->).
  destruct (find_leftmost p a b) as (k & Hk & _). congruence.
Qed.

(** Where [find] finds [p], the text is what precedes, [p], what follows. *)
Lemma find_some_split (p : string) : forall t k,
  Js.find p t = Some k ->
  t = substring 0 k t ++ p
      ++ substring (k + String.length p) (String.length t) t
  /\ String.length (substring 0 k t) = k.
Proof.
  induction t as [|c t IH]; intros k Hk.
  - cbn [Js.find] in Hk. destruct (prefix p "") eqn:Hp; [|discriminate].
    injection Hk as <-. destruct p; [|discriminate]. now split.
  - cbn [Js.find] in Hk. destruct (prefix p (String c t)) eqn:Hp.
    + injection Hk as <-. split; [|reflexivity].
      cbn [substring append Nat.add]. now apply prefix_split.
    + destruct (Js.find p t) as [k'|] eqn:Hf; [|discriminate].
      injection Hk as <-. destruct (IH k' eq_refl) as [Ht Hlen].
      cbn [substring append Nat.add String.length]. split; [|now rewrite Hlen].
      f_equal.
      rewrite (substring_beyond t (k' + String.length p) _ (String.length t))
        by lia.
      exact Ht.
Qed.

Lemma getSubstitution_plain_char matched before after (c : ascii) (r : string) :
  c <> "$"%char ->
  Js.getSubstitution matched before after (String c r)
  = String c (Js.getSubstitution matched before after r).
Proof.
  intros Hc. destruct c as [[] [] [] [] [] [] [] []]; try reflexivity.
  congruence.
Qed.

(** A replacement text without a dollar stands for itself. *)
Lemma getSubstitution_literal matched before after (newText : string) :
  Js.includes newText "$" = false ->
  Js.getSubstitution matched before after newText = newText.
Proof.
  induction newText as [|c r IH]; intros H; [reflexivity|].
  apply includes_cons in H as [Hc Hr].
  rewrite getSubstitution_plain_char by assumption. now rewrite IH.
Qed.

(** X17. The rule of [s/old/new/] without [g], for a text [new] that holds
    no dollar: if [old] does not occur in the line, the line is unchanged;
    otherwise the line is [before], [old], [after] with no occurrence of
    [old] starting further left, and it becomes [before], [new], [after]. *)
Theorem substitute_first_is_leftmost_literal (old new l : string) :
  Js.includes new "$" = false ->
  (~ occursIn old l /\ substituteLine "" old new l = l)
  \/ (exists before after,
        l = before ++ old ++ after
        /\ (forall a b, l = a ++ old ++ b ->
                        (String.length before <= String.length a)%nat)
        /\ substituteLine "" old new l = before ++ new ++ after).
Proof.
  intros Hnew. unfold substituteLine. cbn [Js.includes Js.find prefix].
  unfold Js.replace. destruct (Js.find old l) as [k|] eqn:Hf.
  - right. destruct (find_some_split old l k Hf) as [Hl Hlen].
    exists (substring 0 k l),
      (substring (k + String.length old) (String.length l) l).
    split; [exact Hl|]. split.
    + intros a b Hab. destruct (find_leftmost old a b) as (k' & Hk' & Hle).
      rewrite <- Hab, Hf in Hk'. injection Hk' as <-. now rewrite Hlen.
    + now rewrite getSubstitution_literal.
  - left. split; [now apply find_none_no_occurrence | reflexivity].
Qed.

Lemma substitute_first_is_leftmost_literal_witness :
  substituteLine "" "," ";" "a,b,c" = "a;b,c".
Proof.
  destruct (substitute_first_is_leftmost_literal "," ";" "a,b,c" eq_refl)
    as [[_ H] | (before & after & _ & _ & H)]; reflexivity.
Defined.

Lemma rev_cons (c : ascii) (cur : string) :
  Js.rev (String c cur) = Js.rev cur ++ String c "".
Proof. unfold Js.rev. cbn [Js.rev_acc]. now rewrite rev_acc_append. Qed.

(** A split of [x ++ [c]] either cuts inside [x] or is the trivial one. *)
Lemma snoc_split (x a b : string) (c : ascii) :
  x ++ String c "" = a ++ b -> b <> "" ->
  exists b', b = b' ++ String c "" /\ x = a ++ b'.
Proof.
  revert x; induction a as [|d a IH]; intros x H Hb.
  - cbn in H. exists x. now split.
  - destruct x as [|e x]; cbn in H.
    + injection H as _ H. destruct a; [|discriminate]. cbn in H.
      now subst b.
    + injection H as -> H. destruct (IH x H Hb) as (b' & Hb' & Hx).
      exists b'. split; [assumption | cbn; now f_equal].
Qed.

(** No piece that [split] cuts holds the separator. *)
Lemma split_go_pieces (sep : string) :
  sep <> "" ->
  forall fuel s cur,
    (forall a b, Js.rev cur = a ++ b -> b <> "" -> prefix sep (b ++ s) = false) ->
    Forall (fun piece => ~ occursIn sep piece) (Js.split_go fuel sep s cur).
Proof.
  intros Hsep.
  assert (Hpiece : forall cur s,
            (forall a b, Js.rev cur = a ++ b -> b <> "" ->
                         prefix sep (b ++ s) = false) ->
            ~ occursIn sep (Js.rev cur)).
  { intros cur s Hinv (a & b & Hab).
    assert (Hne : sep ++ b <> "") by (destruct sep; [congruence | discriminate]).
    specialize (Hinv a (sep ++ b) Hab Hne).
    rewrite append_assoc, prefix_append in Hinv. discriminate. }
  induction fuel as [|fuel IH]; intros s cur Hinv.
  - constructor; [eapply Hpiece, Hinv | constructor].
  - destruct s as [|c r].
    + constructor; [eapply Hpiece, Hinv | constructor].
    + rewrite split_go_step. destruct (prefix sep (String c r)) eqn:Hp.
      * constructor; [eapply Hpiece, Hinv|].
        apply IH. intros a b Hab Hb. destruct a, b; try discriminate.
        congruence.
      * apply IH. intros a b Hab Hb. rewrite rev_cons in Hab.
        destruct (snoc_split _ _ _ _ Hab Hb) as (b' & -> & Hcur).
        rewrite append_assoc. cbn [append].
        destruct b' as [|e b']; [exact Hp|].
        apply (Hinv a (String e b') Hcur). discriminate.
Qed.

(** X18. The rule of [s/old/new/g] for a non-empty [old]: the line is cut
    into pieces that, joined by [old], give the line back, none of which
    holds an occurrence of [old]; the new line is the same pieces joined by
    [new], written as it is. *)
Theorem substitute_all_replaces_every_occurrence (old new l : string) :
  old <> "" ->
  exists pieces,
    Js.join old pieces = l
    /\ Forall (fun piece => ~ occursIn old piece) pieces
    /\ substituteLine "g" old new l = Js.join new pieces.
Proof.
  intros Hold. exists (Js.split l old). split; [now apply join_split|].
  split; [|reflexivity].
  unfold Js.split. destruct old as [|c old]; [congruence|].
  apply split_go_pieces; [discriminate|].
  intros a b Hab Hb. destruct a, b; try discriminate. congruence.
Qed.

Lemma substitute_all_replaces_every_occurrence_witness :
  substituteLine "g" "," "$&" "a,b,c" = "a$&b$&c".
Proof.
  destruct (substitute_all_replaces_every_occurrence "," "$&" "a,b,c"
              ltac:(discriminate)) as (pieces & _ & _ & H).
  reflexivity.
Defined.

Lemma substitute_command_dispatch (rest : string) :
  Js.parseInt ("s/" ++ rest) = None
  /\ String.eqb ("s/" ++ rest) "w" = false
  /\ String.eqb ("s/" ++ rest) "q" = false
  /\ String.eqb ("s/" ++ rest) "q!" = false
  /\ String.eqb ("s/" ++ rest) "wq" = false
  /\ String.eqb ("s/" ++ rest) "x" = false
  /\ String.eqb ("s/" ++ rest) "wq!" = false
  /\ Js.startsWith ("s/" ++ rest) "/" = false
  /\ Js.startsWith ("s/" ++ rest) "?" = false
  /\ Js.startsWith ("s/" ++ rest) "s/" = true.
Proof. repeat split; try reflexivity. cbn. now destruct rest. Qed.

Lemma substitute_command_trim (old new flags : string) :
  flags = "" \/ flags = "g" ->
  Js.trim ("s/" ++ old ++ "/" ++ new ++ "/" ++ flags)
  = "s/" ++ old ++ "/" ++ new ++ "/" ++ flags.
Proof.
  intros [-> | ->].
  - replace ("s/" ++ old ++ "/" ++ new ++ "/" ++ "")
      with (String "s" (("/" ++ old ++ "/" ++ new) ++ String "/" ""))
      by (cbn; rewrite ?append_assoc; cbn; rewrite ?append_assoc; reflexivity).
    now apply trim_between.
  - replace ("s/" ++ old ++ "/" ++ new ++ "/" ++ "g")
      with (String "s" (("/" ++ old ++ "/" ++ new ++ "/") ++ String "g" ""))
      by (cbn; rewrite ?append_assoc; cbn; rewrite ?append_assoc; reflexivity).
    now apply trim_between.
Qed.

(** X19. The ex-command [s/old/new/] or [s/old/new/g], for texts [old] and
    [new] without a slash and the cursor on a line of the buffer: that line
    is rewritten by the substitution rule and every other line stays; the
    editor returns to normal mode with the cursor where it was.  When the
    rule leaves the line as it is, be it for want of an occurrence or because
    the replacement equals what it replaces, the message is [Pattern not
    found] and the modified flag is untouched; otherwise the message is
    [1 substitution], however many occurrences were replaced, and the buffer
    is marked modified. *)
Theorem substitute_command_rewrites_current_line (filename : string)
  (s : State) (old new flags : string) (idle : bool) :
  mode s = command ->
  0 <= line (cursor s) < Arr.length (lines s) ->
  Js.includes old "/" = false ->
  Js.includes new "/" = false ->
  flags = "" \/ flags = "g" ->
  commandBuffer s = "s/" ++ old ++ "/" ++ new ++ "/" ++ flags ->
  exists s' pre l post,
    step filename s (CommandSubmit idle) = Some s'
    /\ lines s = (pre ++ l :: post)%list
    /\ Arr.length pre = line (cursor s)
    /\ lines s' = (pre ++ substituteLine flags old new l :: post)%list
    /\ mode s' = normal /\ cursor s' = cursor s
    /\ (if String.eqb (substituteLine flags old new l) l
        then statusMessage s' = "Pattern not found"
             /\ modified s' = modified s
        else statusMessage s' = "1 substitution" /\ modified s' = true).
Proof.
  intros Hmode Hi Hold Hnew Hflags Hcmd.
  destruct (around_line (lines s) (line (cursor s)) Hi)
    as (pre & l & post & Hl & Hpre).
  assert (Hf : Js.includes flags "/" = false)
    by (destruct Hflags as [-> | ->]; reflexivity).
  destruct (substitute_command_dispatch (old ++ "/" ++ new ++ "/" ++ flags))
    as (Hp & Hw & Hq & Hq' & Hwq & Hx & Hwq' & Hs1 & Hs2 & Hs3).
  assert (Hexec :
    executeVimCommand filename s (commandBuffer s) idle
    = ((if String.eqb (substituteLine flags old new l) l
        then showStatus "Pattern not found" defaultDuration
        else updLines (fun prev =>
               Arr.set prev (line (cursor s)) (substituteLine flags old new l)) ;;
             upd (setModified true) ;;
             showStatus "1 substitution" defaultDuration) ;;
       upd (setMode normal))).
  { unfold executeVimCommand. rewrite Hcmd.
    rewrite (substitute_command_trim old new flags Hflags).
    cbv zeta. rewrite Hp, Hw, Hq, Hq', Hwq, Hx, Hwq', Hs1, Hs2, Hs3.
    cbn [orb].
    rewrite (split_substitute_command old new flags Hold Hnew Hf).
    change (3 <=? Arr.length ["s"; old; new; flags]) with true. cbv iota.
    change (partOr ["s"; old; new; flags] 1) with old.
    change (partOr ["s"; old; new; flags] 2) with new.
    change (partOr ["s"; old; new; flags] 3) with flags.
    assert (Hlo : lineOr (lines s) (line (cursor s)) = l)
      by (rewrite Hl, <- Hpre; apply lineOr_middle).
    rewrite !Hlo. reflexivity. }
  unfold step, handleEvent. rewrite Hmode. cbn [VimMode_eqb].
  unfold handleCommandSubmit. rewrite Hexec.
  destruct (String.eqb (substituteLine flags old new l) l) eqn:Heq.
  - apply String.eqb_eq in Heq.
    eexists. exists pre, l, post. split; [reflexivity|]. cbn.
    rewrite Heq, String.eqb_refl. repeat split; assumption.
  - unfold andThen, updLines, upd. rewrite Hl, <- Hpre, set_middle.
    eexists. exists pre, l, post. split; [reflexivity|]. cbn.
    rewrite Heq. repeat split; assumption.
Qed.

Lemma substitute_command_rewrites_current_line_witness :
  exists s',
    submit "notes.txt" "a,b,c" "s/,/;/g" = Some s'
    /\ lines s' = ["a;b;c"] /\ statusMessage s' = "1 substitution".
Proof.
  destruct (substitute_command_rewrites_current_line "notes.txt"
              (setCommandBuffer "s/,/;/g" (setMode command (initialState "a,b,c")))
              "," ";" "g" false eq_refl
              ltac:(vm_compute; split; [discriminate | reflexivity])
              eq_refl eq_refl (or_intror eq_refl) eq_refl)
    as (s' & pre & l & post & Hstep & _).
  eexists. split; [vm_compute; reflexivity|]. split; reflexivity.
Defined.

(** ** Substitution on every line *)

Lemma substituteAll_count flags oldText newText prev : forall count,
  snd (substituteAll flags oldText newText prev count)
  = count + changedLines (substituteLine flags oldText newText) prev.
Proof.
  unfold changedLines.
  induction prev as [|l prev IH]; intros count; cbn [substituteAll];
    [cbn; lia|].
  specialize (IH (if String.eqb (substituteLine flags oldText newText l) l
                  then count else count + 1)).
  destruct (substituteAll _ _ _ prev _) as [rest' count'']. cbn [snd] in *.
  rewrite IH. cbn [filter].
  destruct (String.eqb (substituteLine flags oldText newText l) l);
    cbn [negb List.length]; lia.
Qed.

Lemma percent_command_dispatch (rest : string) :
  Js.parseInt ("%s/" ++ rest) = None
  /\ String.eqb ("%s/" ++ rest) "w" = false
  /\ String.eqb ("%s/" ++ rest) "q" = false
  /\ String.eqb ("%s/" ++ rest) "q!" = false
  /\ String.eqb ("%s/" ++ rest) "wq" = false
  /\ String.eqb ("%s/" ++ rest) "x" = false
  /\ String.eqb ("%s/" ++ rest) "wq!" = false
  /\ Js.startsWith ("%s/" ++ rest) "/" = false
  /\ Js.startsWith ("%s/" ++ rest) "?" = false
  /\ Js.startsWith ("%s/" ++ rest) "s/" = false
  /\ Js.startsWith ("%s/" ++ rest) "%s/" = true
  /\ Js.sliceFrom ("%s/" ++ rest) 1 = "s/" ++ rest.
Proof.
  repeat split; try reflexivity.
  - apply (prefix_append "%s/" rest).
  - apply (sliceFrom_suffix "%" ("s/" ++ rest)).
Qed.

Lemma percent_command_trim (old new flags : string) :
  flags = "" \/ flags = "g" ->
  Js.trim ("%s/" ++ old ++ "/" ++ new ++ "/" ++ flags)
  = "%s/" ++ old ++ "/" ++ new ++ "/" ++ flags.
Proof.
  intros [-> | ->].
  - replace ("%s/" ++ old ++ "/" ++ new ++ "/" ++ "")
      with (String "%" (("s/" ++ old ++ "/" ++ new) ++ String "/" ""))
      by (cbn; rewrite ?append_assoc; cbn; rewrite ?append_assoc; reflexivity).
    now apply trim_between.
  - replace ("%s/" ++ old ++ "/" ++ new ++ "/" ++ "g")
      with (String "%" (("s/" ++ old ++ "/" ++ new ++ "/") ++ String "g" ""))
      by (cbn; rewrite ?append_assoc; cbn; rewrite ?append_assoc; reflexivity).
    now apply trim_between.
Qed.

(** C9. [%s/old/new/] and [%s/old/new/g], for texts [old] and [new] without
    a slash, apply the rule of [s/old/new/] to every line of the buffer, mark
    the buffer modified and return to normal mode.  The message prints the
    counter as it stands when the handler builds it: the number of lines the
    rule changed if React has run the updater inside [setLines], and 0 if the
    updater is still queued, whatever it is going to change.  So after [:],
    the typing of [%s/a/b/] and Enter on the text "a", the line becomes "b"
    and the message says [0 substitutions]. *)
Theorem percent_s_prints_count_before_updater_runs (filename : string)
  (s : State) (old new flags : string) (idle : bool) :
  mode s = command ->
  Js.includes old "/" = false ->
  Js.includes new "/" = false ->
  flags = "" \/ flags = "g" ->
  commandBuffer s = "%s/" ++ old ++ "/" ++ new ++ "/" ++ flags ->
  exists s',
    step filename s (CommandSubmit idle) = Some s'
    /\ lines s' = map (substituteLine flags old new) (lines s)
    /\ modified s' = true /\ mode s' = normal
    /\ (idle = true ->
        let n := changedLines (substituteLine flags old new) (lines s) in
        statusMessage s'
        = Js.ofNumber n ++ " substitution" ++ (if n =? 1 then "" else "s"))
    /\ (idle = false -> statusMessage s' = "0 substitutions").
Proof.
  intros Hmode Hold Hnew Hflags Hcmd.
  assert (Hf : Js.includes flags "/" = false)
    by (destruct Hflags as [-> | ->]; reflexivity).
  destruct (percent_command_dispatch (old ++ "/" ++ new ++ "/" ++ flags))
    as (Hp & Hw & Hq & Hq' & Hwq & Hx & Hwq' & Hs1 & Hs2 & Hs3 & Hs4 & Hsl).
  unfold step, handleEvent. rewrite Hmode. cbn [VimMode_eqb].
  unfold handleCommandSubmit, executeVimCommand. rewrite Hcmd.
  rewrite (percent_command_trim old new flags Hflags).
  cbv zeta. rewrite Hp, Hw, Hq, Hq', Hwq, Hx, Hwq', Hs1, Hs2, Hs3, Hs4, Hsl.
  cbn [orb].
  rewrite (split_substitute_command old new flags Hold Hnew Hf).
  change (3 <=? Arr.length ["s"; old; new; flags]) with true. cbv iota.
  change (partOr ["s"; old; new; flags] 1) with old.
  change (partOr ["s"; old; new; flags] 2) with new.
  change (partOr ["s"; old; new; flags] 3) with flags.
  rewrite substituteAll_count, Z.add_0_l.
  unfold andThen, updLines, upd, showStatus, andThen, upd, defaultDuration.
  cbn [option_map]. rewrite substituteAll_lines.
  change (0 <? 2000) with true. cbv iota.
  eexists. split; [reflexivity|]. cbn [lines mode modified statusMessage
    setLines setMode setModified setStatusMessage setCommandBuffer emit].
  repeat split.
  - now intros ->.
  - now intros ->.
Qed.

Lemma percent_s_prints_count_before_updater_runs_witness :
  exists s',
    run "notes.txt" (initialState "a")
      [key ":"; CommandChange "%s/a/b/"; CommandSubmit false] = Some s'
    /\ lines s' = ["b"] /\ statusMessage s' = "0 substitutions".
Proof.
  destruct (percent_s_prints_count_before_updater_runs "notes.txt"
              (setCommandBuffer "%s/a/b/"
                 (setMode command (initialState "a")))
              "a" "b" "" false eq_refl eq_refl eq_refl (or_introl eq_refl)
              eq_refl)
    as (s' & Hstep & Hl & _ & _ & _ & Hmsg).
  exists s'. split; [exact Hstep|]. split; [exact Hl | exact (Hmsg eq_refl)].
Defined.

(** ** Typing a text *)

Lemma insert_step (filename : string) (s : State) (pre post : list string)
  (a rest : string) (c : ascii) :
  mode s = insert ->
  lines s = (pre ++ (a ++ rest)%string :: post)%list ->
  cursor s = {| line := Arr.length pre; col := Js.length a |} ->
  step filename s (key (String c ""))
  = Some (setModified true
            (setCursor {| line := Arr.length pre; col := Js.length a + 1 |}
               (setLines (pre ++ (a ++ String c rest)%string :: post)%list s))).
Proof.
  intros Hmode Hl Hcur.
  unfold step, handleEvent, key, handleKeyDown. rewrite Hmode.
  rewrite insert_key_is_insertChar by reflexivity.
  unfold insertChar, andThen, updLines, updCursor, upd.
  rewrite Hcur. cbn [line col].
  rewrite Hl, lineOr_middle, set_middle, slice_prefix, sliceFrom_suffix.
  cbn. rewrite Hcur. reflexivity.
Qed.

Lemma dropChars_one (t : string) (n : nat) :
  dropChars n (dropChars 1 t) = dropChars (S n) t.
Proof.
  unfold dropChars. destruct t as [|c r].
  - cbn. now destruct n.
  - cbn [substring String.length].
    rewrite (substring_all r) by lia.
    apply substring_beyond; lia.
Qed.

Lemma replace_step (filename : string) (s : State) (pre post : list string)
  (a rest : string) (c : ascii) :
  mode s = replace ->
  lines s = (pre ++ (a ++ rest)%string :: post)%list ->
  cursor s = {| line := Arr.length pre; col := Js.length a |} ->
  step filename s (key (String c ""))
  = Some (setModified true
            (setCursor {| line := Arr.length pre; col := Js.length a + 1 |}
               (setLines
                  (pre ++ (a ++ String c (dropChars 1 rest))%string :: post)%list
                  s))).
Proof.
  intros Hmode Hl Hcur.
  unfold step, handleEvent, key, handleKeyDown. rewrite Hmode.
  unfold handleReplaceModeKey.
  rewrite (single_key_not_Escape (String c "")) by reflexivity.
  change (Js.length (String c "") =? 1) with true. cbn [andb negb].
  unfold andThen, updLines, updCursor, upd.
  rewrite Hcur. cbn [line col]. rewrite Hl, lineOr_middle.
  destruct rest as [|c0 r].
  - rewrite append_empty_r.
    destruct (Z.ltb_spec (Js.length a) (Js.length a)); [lia|].
    rewrite set_middle. cbn. rewrite Hcur. reflexivity.
  - destruct (Z.ltb_spec (Js.length a) (Js.length (a ++ String c0 r)))
      as [_ | Hge];
      [|rewrite js_length_append in Hge; unfold Js.length in Hge;
        cbn [String.length] in Hge; lia].
    rewrite set_middle, slice_prefix.
    assert (E : Js.sliceFrom (a ++ String c0 r) (Js.length a + 1) = r).
    { replace (Js.length a + 1) with (Js.length (a ++ String c0 ""))
        by (rewrite js_length_append; reflexivity).
      replace (a ++ String c0 r) with ((a ++ String c0 "") ++ r)
        by (now rewrite append_assoc).
      apply sliceFrom_suffix. }
    rewrite E. unfold dropChars. cbn [substring String.length].
    rewrite (substring_all r) by lia.
    cbn. rewrite Hcur. reflexivity.
Qed.

Lemma length_snoc_char (a : string) (c : ascii) :
  Js.length (a ++ String c "") = Js.length a + 1.
Proof. rewrite js_length_append. reflexivity. Qed.

Lemma typing_insert (filename : string) (pre post : list string)
  (rest w : string) : forall (a : string) (s : State),
  mode s = insert ->
  lines s = (pre ++ (a ++ rest)%string :: post)%list ->
  cursor s = {| line := Arr.length pre; col := Js.length a |} ->
  exists s',
    run filename s (typing w) = Some s'
    /\ lines s' = (pre ++ (a ++ w ++ rest)%string :: post)%list
    /\ cursor s'
       = {| line := Arr.length pre; col := Js.length a + Js.length w |}
    /\ mode s' = insert /\ yankBuffer s' = yankBuffer s.
Proof.
  induction w as [|c w IH]; intros a s Hmode Hl Hcur.
  - exists s. cbn. rewrite Z.add_0_r. now repeat split.
  - cbn [typing Js.chars map run]. fold (typing w).
    rewrite (insert_step filename s pre post a rest c Hmode Hl Hcur).
    edestruct (IH (a ++ String c "")) as (s' & Hrun & Hl' & Hc' & Hm' & Hy');
      [ | | | exists s'; split; [exact Hrun|] ].
    + exact Hmode.
    + cbn [lines setLines setCursor setModified].
      now rewrite append_assoc.
    + cbn [cursor setLines setCursor setModified].
      now rewrite length_snoc_char.
    + rewrite Hl', Hc', Hm', Hy', append_assoc, length_snoc_char.
      repeat split. f_equal. unfold Js.length. cbn [String.length]. lia.
Qed.

Lemma typing_replace (filename : string) (pre post : list string)
  (w : string) : forall (a rest : string) (s : State),
  mode s = replace ->
  lines s = (pre ++ (a ++ rest)%string :: post)%list ->
  cursor s = {| line := Arr.length pre; col := Js.length a |} ->
  exists s',
    run filename s (typing w) = Some s'
    /\ lines s'
       = (pre ++ (a ++ w ++ dropChars (String.length w) rest)%string
              :: post)%list
    /\ cursor s'
       = {| line := Arr.length pre; col := Js.length a + Js.length w |}
    /\ mode s' = replace /\ yankBuffer s' = yankBuffer s.
Proof.
  induction w as [|c w IH]; intros a rest s Hmode Hl Hcur.
  - exists s. cbn [typing Js.chars map run String.length].
    unfold dropChars. rewrite substring_all, Z.add_0_r by lia.
    now repeat split.
  - cbn [typing Js.chars map run]. fold (typing w).
    rewrite (replace_step filename s pre post a rest c Hmode Hl Hcur).
    edestruct (IH (a ++ String c "") (dropChars 1 rest))
      as (s' & Hrun & Hl' & Hc' & Hm' & Hy');
      [ | | | exists s'; split; [exact Hrun|] ].
    + exact Hmode.
    + cbn [lines setLines setCursor setModified].
      now rewrite append_assoc.
    + cbn [cursor setLines setCursor setModified].
      now rewrite length_snoc_char.
    + rewrite Hl', Hc', Hm', Hy', append_assoc, length_snoc_char, dropChars_one.
      repeat split. f_equal. unfold Js.length. cbn [String.length]. lia.
Qed.

(** X20. Typing a text [w], one key per character, with the cursor between [a]
    and [rest] on a line of the buffer: in insert mode the line becomes [a],
    [w], [rest]; in replace mode [w] overwrites as many characters of [rest]
    as it has, and what exceeds [rest] is appended.  In both the cursor ends
    right after [w], the mode stays, and the other lines and the register
    are untouched. *)
Theorem typed_text_lands_in_buffer (filename : string) (s : State)
  (pre post : list string) (a rest w : string) :
  lines s = (pre ++ (a ++ rest)%string :: post)%list ->
  cursor s = {| line := Arr.length pre; col := Js.length a |} ->
  mode s = insert \/ mode s = replace ->
  exists s',
    run filename s (typing w) = Some s'
    /\ lines s'
       = (pre ++ (a ++ w
                  ++ (if VimMode_eqb (mode s) insert then rest
                      else dropChars (String.length w) rest))%string
              :: post)%list
    /\ cursor s'
       = {| line := Arr.length pre; col := Js.length a + Js.length w |}
    /\ mode s' = mode s /\ yankBuffer s' = yankBuffer s.
Proof.
  intros Hl Hcur [Hmode | Hmode]; rewrite Hmode; cbn [VimMode_eqb].
  - now apply typing_insert.
  - now apply typing_replace.
Qed.

Lemma typed_text_lands_in_buffer_witness :
  exists s',
    run "notes.txt"
      (setCursor {| line := 0; col := 1 |}
         (setMode replace (initialState "abc")))
      (typing "xyz") = Some s'
    /\ lines s' = ["axyz"] /\ cursor s' = {| line := 0; col := 4 |}.
Proof.
  destruct (typed_text_lands_in_buffer "notes.txt"
              (setCursor {| line := 0; col := 1 |}
                 (setMode replace (initialState "abc")))
              [] [] "a" "bc" "xyz" eq_refl eq_refl (or_intror eq_refl))
    as (s' & Hrun & Hl & Hc & _).
  exists s'. split; [exact Hrun|]. split; [exact Hl | exact Hc].
Defined.

(** ** A count before [x], [X] and the motions *)

Lemma countOf_nonzero (numberBuffer : string) : countOf numberBuffer <> 0.
Proof.
  unfold countOf. destruct (Js.parseInt numberBuffer) as [n|]; [|discriminate].
  destruct (Z.eqb_spec n 0); [discriminate | assumption].
Qed.

(** [deleteChar] called once per character of [u], with the cursor in front
    of [u]. *)
Lemma times_deleteChar (s : State) (pre post : list string) (a b : string) :
  cursor s = {| line := Arr.length pre; col := Js.length a |} ->
  forall (u : string) (p : State),
    lines p = (pre ++ (a ++ u ++ b)%string :: post)%list ->
    times (String.length u) (deleteChar s) p
    = Some (match u with
            | EmptyString => p
            | _ => setModified true
                     (setLines (pre ++ (a ++ b)%string :: post)%list p)
            end).
Proof.
  intros Hcur. induction u as [|c u IH]; intros p Hp; [reflexivity|].
  cbn [times String.length]. unfold andThen at 1.
  assert (H1 : deleteChar s p
               = Some (setModified true
                         (setLines (pre ++ (a ++ u ++ b)%string :: post)%list
                            p))).
  { unfold deleteChar, andThen, updLines, upd. rewrite Hcur. cbn [line col].
    rewrite Hp, lineOr_middle.
    destruct (Z.ltb_spec (Js.length a) (Js.length (a ++ String c u ++ b)))
      as [_ | Hge];
      [|rewrite js_length_append in Hge; unfold Js.length in Hge;
        cbn [String.length append] in Hge; lia].
    rewrite set_middle, slice_prefix.
    assert (E : Js.sliceFrom (a ++ String c u ++ b) (Js.length a + 1)
                = u ++ b).
    { replace (Js.length a + 1) with (Js.length (a ++ String c ""))
        by (rewrite js_length_append; reflexivity).
      replace (a ++ String c u ++ b) with ((a ++ String c "") ++ u ++ b)
        by (now rewrite append_assoc).
      apply sliceFrom_suffix. }
    rewrite E. reflexivity. }
  rewrite H1, IH by reflexivity. now destruct u.
Qed.

(** X21. With a count [n] (1 without), [x] in normal mode removes the [n]
    characters that start at the cursor, when the line has that many: the
    line [a], [u], [b] with the cursor in front of [u] becomes [a], [b].
    The cursor is not moved or clamped, and the removed text does not go to
    the register. *)
Theorem x_deletes_count_chars (filename : string) (s : State)
  (pre post : list string) (a u b : string) :
  mode s = normal ->
  lines s = (pre ++ (a ++ u ++ b)%string :: post)%list ->
  cursor s = {| line := Arr.length pre; col := Js.length a |} ->
  countOf (numberBuffer s) = Js.length u ->
  step filename s (key "x")
  = Some (setNumberBuffer ""
            (setModified true
               (setLines (pre ++ (a ++ b)%string :: post)%list s))).
Proof.
  intros Hmode Hl Hcur Hcount. normal_key Hmode.
  rewrite Hcount. unfold Js.length at 1. rewrite Nat2Z.id.
  unfold andThen. rewrite (times_deleteChar s pre post a b Hcur u s Hl).
  destruct u; [|reflexivity].
  exfalso. apply (countOf_nonzero (numberBuffer s)). exact Hcount.
Qed.

Lemma x_deletes_count_chars_witness :
  exists s',
    run "notes.txt" (initialState "abcd") [key "l"; key "2"; key "x"] = Some s'
    /\ lines s' = ["ad"] /\ cursor s' = {| line := 0; col := 1 |}
    /\ yankBuffer s' = [].
Proof.
  eexists. split.
  - cbn [run].
    change (step "notes.txt" (initialState "abcd") (key "l"))
      with (Some (setCursor {| line := 0; col := 1 |} (initialState "abcd"))).
    cbv iota.
    change (step "notes.txt"
              (setCursor {| line := 0; col := 1 |} (initialState "abcd"))
              (key "2"))
      with (Some (setNumberBuffer "2"
                    (setCursor {| line := 0; col := 1 |}
                       (initialState "abcd")))).
    cbv iota.
    rewrite (x_deletes_count_chars "notes.txt"
               (setNumberBuffer "2"
                  (setCursor {| line := 0; col := 1 |} (initialState "abcd")))
               [] [] "a" "bc" "d" eq_refl eq_refl eq_refl eq_refl).
    reflexivity.
  - repeat split.
Defined.

(** [u] called [n] times when [u] only moves the cursor. *)
Lemma times_updCursor (F : CursorPosition -> CursorPosition) :
  forall (n : nat) (p : State),
    times (S n) (updCursor F) p
    = Some (setCursor (Nat.iter (S n) F (cursor p)) p).
Proof.
  induction n as [|n IH]; intros p; [reflexivity|].
  change (times (S (S n)) (updCursor F) p)
    with (times (S n) (updCursor F) (setCursor (F (cursor p)) p)).
  rewrite IH.
  change (cursor (setCursor (F (cursor p)) p)) with (F (cursor p)).
  rewrite <- Nat.iter_succ_r. reflexivity.
Qed.

(** A key that only moves the cursor, pressed [n] times without a count. *)
Lemma run_repeat_motion (filename : string) (s : State) (k : string)
  (F : CursorPosition -> CursorPosition) :
  (forall c, step filename (setNumberBuffer "" (setCursor c s)) (key k)
             = Some (setNumberBuffer "" (setCursor (F c) s))) ->
  forall n c,
    run filename (setNumberBuffer "" (setCursor c s)) (repeat (key k) n)
    = Some (setNumberBuffer "" (setCursor (Nat.iter n F c) s)).
Proof.
  intros Hstep. induction n as [|n IH]; intros c; [reflexivity|].
  cbn [repeat run]. rewrite Hstep, IH, <- Nat.iter_succ_r. reflexivity.
Qed.

(** One motion key: what its press with a count does, and what its press
    without a count does in a state that differs in cursor and count only. *)
Ltac motion_key Hmode Hcount :=
  normal_key Hmode; rewrite Hcount, Nat2Z.id;
  autounfold with callbacks; unfold andThen at 1;
  lazymatch goal with
  | |- context [times _ (updCursor ?F)] =>
      rewrite (times_updCursor F); symmetry;
      lazymatch goal with
      | |- run ?filename (setNumberBuffer "" ?s)
             (repeat (KeyDown ?k false false) ?n) = _ =>
          change (KeyDown k false false) with (key k);
          change (setNumberBuffer "" s)
            with (setNumberBuffer "" (setCursor (cursor s) s));
          rewrite (run_repeat_motion filename s k F); [reflexivity|];
          intros c; unfold step, handleEvent, key, handleKeyDown;
          rewrite (Hmode : mode (setNumberBuffer "" (setCursor c s)) = normal);
          reflexivity
      end
  end.

(** X22. A count before a motion is the key pressed that many times: in normal
    mode [h], [j], [k], [l], [w], [b] and the arrow keys, after a count [n],
    leave the editor in the state that [n] presses without a count reach.
    (So [3j] clamps the column on each line it passes, as three [j] do.) *)
Theorem count_repeats_motion (filename : string) (s : State) (k : string)
  (n : nat) :
  mode s = normal ->
  In k ["h"; "j"; "k"; "l"; "w"; "b";
        "ArrowLeft"; "ArrowDown"; "ArrowUp"; "ArrowRight"] ->
  countOf (numberBuffer s) = Z.of_nat (S n) ->
  step filename s (key k)
  = run filename (setNumberBuffer "" s) (repeat (key k) (S n)).
Proof.
  intros Hmode Hk Hcount. cbn [In] in Hk.
  destruct Hk as [<- | [<- | [<- | [<- | [<- | [<- | [<- | [<- | [<- | [<- | []]]]]]]]]]];
    motion_key Hmode Hcount.
Qed.

Lemma count_repeats_motion_witness :
  step "notes.txt"
    (setNumberBuffer "2" (initialState (Js.join newline ["abc"; ""; "def"])))
    (key "j")
  = run "notes.txt" (initialState (Js.join newline ["abc"; ""; "def"]))
      [key "j"; key "j"].
Proof.
  exact (count_repeats_motion "notes.txt"
           (setNumberBuffer "2"
              (initialState (Js.join newline ["abc"; ""; "def"])))
           "j" 1 eq_refl (or_intror (or_introl eq_refl)) eq_refl).
Defined.

(** [backspace] called once per character of [u], with the cursor one
    column after the start of [u]. *)
Lemma times_backspace (s : State) (pre post : list string) (a b : string) :
  cursor s = {| line := Arr.length pre; col := Js.length a + 1 |} ->
  forall (u : string) (p : State),
    lines p = (pre ++ (a ++ u ++ b)%string :: post)%list ->
    times (String.length u) (backspace s) p
    = Some (match u with
            | EmptyString => p
            | _ => setModified true
                     (setCursor {| line := line (cursor p);
                                   col := col (cursor p) - Js.length u |}
                        (setLines (pre ++ (a ++ b)%string :: post)%list p))
            end).
Proof.
  intros Hcur. induction u as [|c u IH]; intros p Hp; [reflexivity|].
  cbn [times String.length]. unfold andThen at 1.
  assert (H1 : backspace s p
               = Some (setModified true
                         (setCursor {| line := line (cursor p);
                                       col := col (cursor p) - 1 |}
                            (setLines
                               (pre ++ (a ++ u ++ b)%string :: post)%list p)))).
  { unfold backspace. rewrite Hcur. cbn [line col].
    pose proof (js_length_nonneg a).
    destruct (Z.ltb_spec 0 (Js.length a + 1)); [|lia].
    unfold andThen, updLines, updCursor, upd.
    rewrite Hp, lineOr_middle, set_middle.
    replace (Js.length a + 1 - 1) with (Js.length a) by lia.
    rewrite slice_prefix.
    assert (E : Js.sliceFrom (a ++ String c u ++ b) (Js.length a + 1)
                = u ++ b).
    { replace (Js.length a + 1) with (Js.length (a ++ String c ""))
        by (rewrite js_length_append; reflexivity).
      replace (a ++ String c u ++ b) with ((a ++ String c "") ++ u ++ b)
        by (now rewrite append_assoc).
      apply sliceFrom_suffix. }
    rewrite E. reflexivity. }
  rewrite H1, IH by reflexivity. destruct u as [|c' u]; [reflexivity|].
  assert (E : Js.length (String c (String c' u))
              = 1 + Js.length (String c' u))
    by (unfold Js.length; cbn [String.length]; lia).
  rewrite E. cbn [cursor setModified setCursor setLines line col].
  replace (col (cursor p) - 1 - Js.length (String c' u))
    with (col (cursor p) - (1 + Js.length (String c' u))) by lia.
  reflexivity.
Qed.

(** X23. With a count [n], [X] in normal mode does not remove the [n] characters
    before the cursor: it removes the character before the cursor and the
    [n - 1] characters that follow it, cursor's own included, and moves the
    cursor [n] columns to the left without clamping, below column 0 when [n]
    exceeds the cursor's column.  (Each of the [n] calls reads the cursor of
    the render in which the key was pressed.) *)
Theorem count_X_deletes_from_cursor_on (filename : string) (s : State)
  (pre post : list string) (a u b : string) :
  mode s = normal ->
  lines s = (pre ++ (a ++ u ++ b)%string :: post)%list ->
  cursor s = {| line := Arr.length pre; col := Js.length a + 1 |} ->
  countOf (numberBuffer s) = Js.length u ->
  step filename s (key "X")
  = Some (setNumberBuffer ""
            (setModified true
               (setCursor {| line := Arr.length pre;
                             col := Js.length a + 1 - Js.length u |}
                  (setLines (pre ++ (a ++ b)%string :: post)%list s)))).
Proof.
  intros Hmode Hl Hcur Hcount. normal_key Hmode.
  rewrite Hcount. unfold Js.length at 1. rewrite Nat2Z.id.
  unfold andThen. rewrite (times_backspace s pre post a b Hcur u s Hl).
  destruct u as [|c u].
  - exfalso. apply (countOf_nonzero (numberBuffer s)). exact Hcount.
  - rewrite Hcur. reflexivity.
Qed.

Lemma count_X_deletes_from_cursor_on_witness :
  exists s',
    step "notes.txt"
      (setNumberBuffer "3"
         (setCursor {| line := 0; col := 1 |} (initialState "abcd")))
      (key "X") = Some s'
    /\ lines s' = ["d"] /\ cursor s' = {| line := 0; col := -2 |}.
Proof.
  eexists. split.
  - exact (count_X_deletes_from_cursor_on "notes.txt"
             (setNumberBuffer "3"
                (setCursor {| line := 0; col := 1 |} (initialState "abcd")))
             [] [] "" "abc" "d" eq_refl eq_refl eq_refl eq_refl).
  - split; reflexivity.
Defined.

(** ** Replacing one character *)

Lemma substring_nothing (t : string) : forall n, substring n 0 t = "".
Proof. induction t as [|c t IH]; intros [|n]; cbn; auto. Qed.

Lemma slice_past_end (l : string) (c : Z) :
  Js.length l <= c ->
  Js.slice l 0 c = l /\ Js.sliceFrom l (c + 1) = "".
Proof.
  intros Hc. pose proof (js_length_nonneg l) as Hl.
  unfold Js.sliceFrom, Js.slice, Js.relIndex.
  destruct (Z.ltb_spec 0 0); [lia|].
  destruct (Z.ltb_spec c 0); [lia|].
  destruct (Z.ltb_spec (c + 1) 0); [lia|].
  destruct (Z.ltb_spec (Js.length l) 0); [lia|].
  replace (Z.min 0 (Js.length l)) with 0 by lia.
  replace (Z.min c (Js.length l)) with (Js.length l) by lia.
  replace (Z.min (c + 1) (Js.length l)) with (Js.length l) by lia.
  rewrite Z.min_id, Z.sub_0_r, Z.sub_diag.
  split.
  - change (Z.to_nat 0) with O. apply substring_all.
    unfold Js.length. lia.
  - apply substring_nothing.
Qed.

(** X24. [r] and then a character [k] that is not a digit joining a count and
    not a key normal mode binds itself, with the cursor on a line of the
    buffer at a column that is not negative: the character under the cursor
    becomes [k]; with the cursor at or past the end of the line [k] is
    appended to the line.  Cursor, mode and register stay as they are, the
    pending [r] is consumed and the buffer is marked modified. *)
Theorem r_replaces_char_under_cursor (filename : string) (s : State)
  (pre post : list string) (l k : string) :
  mode s = normal ->
  Js.length k = 1 ->
  isDigitKey k = false ->
  switchOn normalCases On_default k = On_default ->
  lines s = (pre ++ l :: post)%list ->
  line (cursor s) = Arr.length pre ->
  0 <= col (cursor s) ->
  exists s' l',
    run filename s [key "r"; key k] = Some s'
    /\ lines s' = (pre ++ l' :: post)%list
    /\ (forall a c b,
          l = a ++ String c b -> col (cursor s) = Js.length a ->
          l' = a ++ k ++ b)
    /\ (Js.length l <= col (cursor s) -> l' = l ++ k)
    /\ cursor s' = cursor s /\ mode s' = normal
    /\ yankBuffer s' = yankBuffer s
    /\ lastCommand s' = "" /\ modified s' = true.
Proof.
  intros Hmode Hk Hdigit Hfree Hl Hline Hcol. cbn [run].
  assert (H1 : step filename s (key "r")
               = Some (setNumberBuffer "" (setLastCommand "r" s))).
  { normal_key Hmode. reflexivity. }
  rewrite H1.
  unfold step, handleEvent, key, handleKeyDown.
  change (mode (setNumberBuffer "" (setLastCommand "r" s))) with (mode s).
  rewrite Hmode. unfold handleNormalModeKey. rewrite Hdigit, Hfree.
  cbn [andb]. cbv zeta.
  change (lastCommand (setNumberBuffer "" (setLastCommand "r" s))) with "r".
  change (String.eqb "r" "r") with true. rewrite Hk.
  change (1 =? 1) with true. cbn [andb].
  change (cursor (setNumberBuffer "" (setLastCommand "r" s))) with (cursor s).
  rewrite Hline.
  unfold andThen, updLines, upd.
  change (lines (setNumberBuffer "" (setLastCommand "r" s))) with (lines s).
  rewrite Hl, lineOr_middle, set_middle.
  cbn [option_map]. eexists. eexists. split; [reflexivity|].
  cbn [lines cursor mode yankBuffer lastCommand modified
       setLines setModified setLastCommand setNumberBuffer].
  split; [reflexivity|]. rewrite Hmode. repeat split.
  - intros a c b -> ->. rewrite slice_prefix. f_equal. f_equal.
    replace (Js.length a + 1) with (Js.length (a ++ String c ""))
      by (rewrite js_length_append; reflexivity).
    replace (a ++ String c b) with ((a ++ String c "") ++ b)
      by (now rewrite append_assoc).
    apply sliceFrom_suffix.
  - intros Hpast. destruct (slice_past_end l (col (cursor s)) Hpast)
      as [-> ->]. now rewrite append_empty_r.
Qed.

Lemma r_replaces_char_under_cursor_witness :
  exists s',
    run "notes.txt" (initialState "abc") [key "r"; key "z"] = Some s'
    /\ lines s' = ["zbc"].
Proof.
  destruct (r_replaces_char_under_cursor "notes.txt" (initialState "abc")
              [] [] "abc" "z" eq_refl eq_refl eq_refl eq_refl
              eq_refl eq_refl ltac:(vm_compute; discriminate))
    as (s' & l' & Hrun & Hl & Hin & _).
  exists s'. split; [exact Hrun|].
  rewrite Hl, (Hin "" "a"%char "bc" eq_refl eq_refl). reflexivity.
Defined.

(** ** Searching *)

(** Two ways of cutting the same text: the shorter head is a head of the
    longer one. *)
Lemma append_cut (x1 y1 x2 y2 : string) :
  x1 ++ y1 = x2 ++ y2 -> (String.length x1 <= String.length x2)%nat ->
  exists m, x2 = x1 ++ m /\ y1 = m ++ y2.
Proof.
  revert x2; induction x1 as [|c x1 IH]; intros x2 H Hlen.
  - exists x2. now split.
  - destruct x2 as [|c2 x2]; [cbn in Hlen; lia|].
    cbn in H. injection H as <- H.
    destruct (IH x2 H ltac:(cbn in Hlen; lia)) as (m & -> & ->).
    exists m. now split.
Qed.

(** [indexOf] returns the first occurrence that starts at or after the
    clamped start position, and -1 when there is none. *)
Lemma indexOf_spec (l p : string) (from : Z) :
  let start := Z.max 0 (Z.min from (Js.length l)) in
  (Js.indexOf l p from = -1
   /\ forall a b, l = a ++ p ++ b -> Js.length a < start)
  \/ (exists a b,
        l = a ++ p ++ b /\ Js.indexOf l p from = Js.length a
        /\ start <= Js.length a
        /\ forall a' b', l = a' ++ p ++ b' -> start <= Js.length a' ->
                         Js.length a <= Js.length a').
Proof.
  cbv zeta. unfold Js.indexOf. cbv zeta.
  set (start := Z.max 0 (Z.min from (Js.length l))).
  assert (Hstart : 0 <= start <= Js.length l)
    by (pose proof (js_length_nonneg l); lia).
  set (n := Z.to_nat start).
  assert (Hn : (n <= String.length l)%nat) by (unfold Js.length in *; lia).
  pose proof (substring_parts l n Hn) as Hparts.
  rewrite (substring_beyond l n (String.length l) (String.length l - n))
    by lia.
  set (h := substring 0 n l) in *.
  set (t := substring n (String.length l - n) l) in *.
  assert (Hh : String.length h = n)
    by (unfold h; rewrite substring_length; lia).
  assert (Hcut : forall a b, l = a ++ p ++ b -> start <= Js.length a ->
                 exists m, a = h ++ m /\ t = m ++ p ++ b).
  { intros a b Hab Ha. apply append_cut.
    - now rewrite Hparts.
    - unfold Js.length in Ha. lia. }
  destruct (Js.find p t) as [k|] eqn:Hf.
  - right. destruct (find_some_split p t k Hf) as [Ht Hk].
    exists (h ++ substring 0 k t),
      (substring (k + String.length p) (String.length t) t).
    repeat split.
    + rewrite append_assoc, <- Ht. now symmetry.
    + rewrite js_length_append. unfold Js.length. rewrite Hh, Hk. lia.
    + rewrite js_length_append. unfold Js.length. lia.
    + intros a' b' Hab Ha. destruct (Hcut a' b' Hab Ha) as (m & -> & Hm).
      destruct (find_leftmost p m b') as (k' & Hk' & Hle).
      rewrite <- Hm, Hf in Hk'. injection Hk' as <-.
      rewrite !js_length_append. unfold Js.length. rewrite Hk. lia.
  - left. split; [reflexivity|]. intros a b Hab.
    destruct (Z.ltb_spec (Js.length a) start) as [Hlt | Hge]; [exact Hlt|].
    destruct (Hcut a b Hab Hge) as (m & _ & Hm).
    exfalso. apply (find_none_no_occurrence p t Hf). now exists m, b.
Qed.

(** An occurrence of a non-empty text ends within the line. *)
Lemma occurrence_inside (p a b : string) :
  p <> "" -> Js.length a < Js.length (a ++ p ++ b).
Proof.
  intros Hp. rewrite !js_length_append. pose proof (js_length_nonneg b).
  destruct p; [congruence|]. unfold Js.length. cbn [String.length]. lia.
Qed.

(** The forward loop stops at the first occurrence after the cursor. *)
Lemma searchForward_spec (pattern : string) (cur : CursorPosition) :
  pattern <> "" ->
  forall rest i, line cur <= i ->
    match searchForward pattern cur i rest with
    | Some found =>
        (exists k l a b,
           nth_error rest k = Some l /\ line found = i + Z.of_nat k
           /\ l = a ++ pattern ++ b /\ col found = Js.length a)
        /\ laterThan cur found
        /\ forall k l a b,
             nth_error rest k = Some l -> l = a ++ pattern ++ b ->
             laterThan cur {| line := i + Z.of_nat k; col := Js.length a |} ->
             ~ laterThan {| line := i + Z.of_nat k; col := Js.length a |} found
    | None =>
        forall k l a b,
          nth_error rest k = Some l -> l = a ++ pattern ++ b ->
          ~ laterThan cur {| line := i + Z.of_nat k; col := Js.length a |}
    end.
Proof.
  intros Hp. induction rest as [|l rest IH]; intros i Hi; cbn [searchForward].
  - intros [|k] l a b H; discriminate H.
  - cbv zeta.
    set (from := if i =? line cur then col cur + 1 else 0).
    assert (Hafter : forall a b, l = a ++ pattern ++ b ->
              (laterThan cur {| line := i; col := Js.length a |}
               <-> Z.max 0 (Z.min from (Js.length l)) <= Js.length a)).
    { intros a b Hab. pose proof (occurrence_inside pattern a b Hp) as Hin.
      rewrite <- Hab in Hin. pose proof (js_length_nonneg a).
      unfold laterThan, from. cbn [line col].
      destruct (Z.eqb_spec i (line cur)); lia. }
    destruct (indexOf_spec l pattern from)
      as [[Hidx Hnone] | (a & b & Hab & Hidx & Hge & Hmin)];
      cbv zeta in *; rewrite Hidx.
    + change (-1 =? -1) with true. cbv iota.
      assert (Hhere : forall a b, l = a ++ pattern ++ b ->
                ~ laterThan cur {| line := i; col := Js.length a |}).
      { intros a b Hab Hl. apply (Hafter a b Hab) in Hl.
        specialize (Hnone a b Hab). lia. }
      specialize (IH (i + 1) ltac:(lia)).
      destruct (searchForward pattern cur (i + 1) rest) as [found|].
      * destruct IH as ((k & l' & a & b & Hk & Hline & Hab & Hcol) & Hl & Hm).
        split; [|split].
        -- exists (S k), l', a, b. repeat split; try assumption. lia.
        -- exact Hl.
        -- intros [|k'] l2 a2 b2 Hk' Hab2 Hl2.
           ++ injection Hk' as <-. cbn [Z.of_nat] in Hl2.
              rewrite Z.add_0_r in Hl2.
              exfalso. exact (Hhere a2 b2 Hab2 Hl2).
           ++ replace (i + Z.of_nat (S k')) with (i + 1 + Z.of_nat k') in * by lia.
              now apply (Hm k' l2 a2 b2).
      * intros [|k'] l2 a2 b2 Hk' Hab2 Hl2.
        -- injection Hk' as <-. cbn [Z.of_nat] in Hl2.
           rewrite Z.add_0_r in Hl2. exact (Hhere a2 b2 Hab2 Hl2).
        -- replace (i + Z.of_nat (S k')) with (i + 1 + Z.of_nat k') in * by lia.
           now apply (IH k' l2 a2 b2).
    + pose proof (js_length_nonneg a).
      destruct (Z.eqb_spec (Js.length a) (-1)); [lia|].
      split; [|split].
      * exists O, l, a, b. cbn [line col]. repeat split; try assumption. lia.
      * now apply (Hafter a b Hab).
      * intros [|k'] l2 a2 b2 Hk' Hab2 Hl2.
        -- injection Hk' as <-. cbn [Z.of_nat] in *. rewrite Z.add_0_r in *.
           apply (Hafter a2 b2 Hab2) in Hl2.
           specialize (Hmin a2 b2 Hab2 Hl2).
           unfold laterThan. cbn [line col]. lia.
        -- unfold laterThan. cbn [line col]. lia.
Qed.

(** The lines the forward loop visits are the lines of the buffer from the
    cursor's line on. *)
Lemma linesFrom_get (lns rest : list string) (i : Z) :
  linesFrom lns i = Some rest ->
  0 <= i /\ forall k, nth_error rest k = Arr.get lns (i + Z.of_nat k).
Proof.
  unfold linesFrom. destruct (Z.ltb_spec i 0); [discriminate|].
  intros [= <-]. split; [assumption|]. intros k.
  unfold Arr.get. destruct (Z.ltb_spec (i + Z.of_nat k) 0); [lia|].
  rewrite nth_error_skipn. f_equal. lia.
Qed.

(** X25. In normal mode, with a search pattern stored, [n] moves the cursor to
    the first place after it, in reading order, where the pattern occurs,
    and leaves it where it is when the pattern does not occur between the
    cursor and the end of the buffer: the search never wraps around to the
    top.  Buffer, mode and modified flag stay as they are. *)
Theorem n_finds_next_occurrence (filename : string) (s : State) :
  mode s = normal ->
  searchPattern s <> "" ->
  0 <= line (cursor s) ->
  exists s',
    step filename s (key "n") = Some s'
    /\ lines s' = lines s /\ mode s' = normal /\ modified s' = modified s
    /\ ((occursAt (searchPattern s) (lines s) (cursor s')
         /\ laterThan (cursor s) (cursor s')
         /\ forall pos, occursAt (searchPattern s) (lines s) pos ->
                        laterThan (cursor s) pos ->
                        ~ laterThan pos (cursor s'))
        \/ (cursor s' = cursor s
            /\ forall pos, occursAt (searchPattern s) (lines s) pos ->
                           ~ laterThan (cursor s) pos)).
Proof.
  intros Hmode Hpat Hline. normal_key Hmode.
  destruct (String.eqb_spec (searchPattern s) ""); [contradiction|].
  destruct (linesFrom (lines s) (line (cursor s))) as [rest|] eqn:Hrest;
    [|unfold linesFrom in Hrest;
      destruct (Z.ltb_spec (line (cursor s)) 0); [lia | discriminate]].
  destruct (linesFrom_get _ _ _ Hrest) as [_ Hget].
  pose proof (searchForward_spec (searchPattern s) (cursor s) Hpat rest
                (line (cursor s)) ltac:(lia)) as Hspec.
  assert (Hpos : forall pos, laterThan (cursor s) pos ->
            pos = {| line := line (cursor s)
                             + Z.of_nat (Z.to_nat (line pos - line (cursor s)));
                     col := col pos |}).
  { intros [pl pc] Hl. unfold laterThan in Hl. cbn [line col] in *.
    f_equal. lia. }
  destruct (searchForward (searchPattern s) (cursor s) (line (cursor s)) rest)
    as [found|].
  - destruct Hspec as ((k & l & a & b & Hk & Hfl & Hab & Hcol) & Hl & Hmin).
    eexists. split; [reflexivity|]. cbn. rewrite Hmode.
    repeat split. left. split; [|split].
    + exists l, a, b. rewrite Hfl, <- Hget. now repeat split.
    + exact Hl.
    + intros pos (l2 & a2 & b2 & Hg2 & Hab2 & Hc2) Hl2.
      pose proof (Hpos pos Hl2) as Heq. rewrite Heq in Hg2, Hl2 |- *.
      cbn [line col] in Hg2. rewrite <- Hget in Hg2. rewrite Hc2 in *.
      now apply (Hmin _ l2 a2 b2).
  - eexists. split; [reflexivity|]. cbn. rewrite Hmode.
    repeat split. right. split; [reflexivity|].
    intros pos (l2 & a2 & b2 & Hg2 & Hab2 & Hc2) Hl2.
    pose proof (Hpos pos Hl2) as Heq. rewrite Heq in Hg2, Hl2.
    cbn [line col] in Hg2. rewrite <- Hget in Hg2. rewrite Hc2 in *.
    exact (Hspec _ l2 a2 b2 Hg2 Hab2 Hl2).
Qed.

Lemma n_finds_next_occurrence_witness :
  exists s',
    step "notes.txt"
      (setSearchPattern "ab" (initialState (Js.join newline ["abab"; "ab"])))
      (key "n") = Some s'
    /\ cursor s' = {| line := 0; col := 2 |}.
Proof.
  destruct (n_finds_next_occurrence "notes.txt"
              (setSearchPattern "ab"
                 (initialState (Js.join newline ["abab"; "ab"])))
              eq_refl ltac:(discriminate) ltac:(vm_compute; discriminate))
    as (s' & Hstep & _).
  exists s'. split; [exact Hstep|].
  vm_compute in Hstep. injection Hstep as <-. reflexivity.
Defined.

(** X26. Submitting [/pattern] stores the pattern and moves the cursor exactly
    as [n] does once that pattern is stored: to the first occurrence after
    the cursor, without wrapping around.  It ends in normal mode with the
    command line emptied and the buffer as it was. *)
Theorem slash_search_moves_like_n (filename : string) (s : State)
  (pattern : string) (idle : bool) :
  mode s = command ->
  Js.trim (commandBuffer s) = "/" ++ pattern ->
  pattern <> "" ->
  0 <= line (cursor s) ->
  exists s1 s2,
    step filename s (CommandSubmit idle) = Some s1
    /\ step filename (setSearchPattern pattern (setMode normal s)) (key "n")
       = Some s2
    /\ cursor s1 = cursor s2
    /\ searchPattern s1 = pattern /\ mode s1 = normal
    /\ lines s1 = lines s /\ commandBuffer s1 = "".
Proof.
  intros Hmode Htrim Hpat Hline.
  assert (Hrest : linesFrom (lines s) (line (cursor s))
                  = Some (skipn (Z.to_nat (line (cursor s))) (lines s))).
  { unfold linesFrom. destruct (Z.ltb_spec (line (cursor s)) 0); [lia|].
    reflexivity. }
  assert (H2 : step filename (setSearchPattern pattern (setMode normal s))
                 (key "n")
               = Some (setNumberBuffer ""
                         (match searchForward pattern (cursor s)
                                  (line (cursor s))
                                  (skipn (Z.to_nat (line (cursor s))) (lines s))
                          with
                          | Some found =>
                              setCursor found
                                (setSearchPattern pattern (setMode normal s))
                          | None => setSearchPattern pattern (setMode normal s)
                          end))).
  { normal_key (eq_refl : mode (setSearchPattern pattern (setMode normal s))
                          = normal).
    change (searchPattern (setSearchPattern pattern (setMode normal s)))
      with pattern.
    destruct (String.eqb_spec pattern ""); [contradiction|].
    change (lines (setSearchPattern pattern (setMode normal s)))
      with (lines s).
    change (cursor (setSearchPattern pattern (setMode normal s)))
      with (cursor s).
    rewrite Hrest.
    now destruct (searchForward pattern (cursor s) (line (cursor s)) _). }
  rewrite H2.
  unfold step, handleEvent. rewrite Hmode. cbn [VimMode_eqb].
  unfold handleCommandSubmit, executeVimCommand. cbv zeta.
  rewrite Htrim. cbn [append].
  change (Js.parseInt (String "/" pattern)) with (@None Z). cbv iota.
  change (String.eqb (String "/" pattern) "w") with false.
  change (String.eqb (String "/" pattern) "q") with false.
  change (String.eqb (String "/" pattern) "q!") with false.
  change (String.eqb (String "/" pattern) "wq") with false.
  change (String.eqb (String "/" pattern) "x") with false.
  change (String.eqb (String "/" pattern) "wq!") with false.
  cbn [orb]. cbv iota.
  unfold Js.startsWith at 1.
  rewrite (prefix_append "/" pattern : prefix "/" (String "/" pattern) = true).
  assert (E : Js.sliceFrom (String "/" pattern) 1 = pattern)
    by (apply (sliceFrom_suffix "/" pattern)).
  rewrite E, Hrest.
  destruct (searchForward pattern (cursor s) (line (cursor s)) _) as [found|];
    (eexists; eexists; split; [reflexivity|]; split; [reflexivity|]);
    cbn; now repeat split.
Qed.

Lemma slash_search_moves_like_n_witness :
  exists s1,
    step "notes.txt"
      (setCommandBuffer "/ab"
         (setMode command (initialState (Js.join newline ["abab"; "ab"]))))
      (CommandSubmit false) = Some s1
    /\ cursor s1 = {| line := 0; col := 2 |}.
Proof.
  destruct (slash_search_moves_like_n "notes.txt"
              (setCommandBuffer "/ab"
                 (setMode command
                    (initialState (Js.join newline ["abab"; "ab"]))))
              "ab" false eq_refl eq_refl ltac:(discriminate)
              ltac:(vm_compute; discriminate))
    as (s1 & s2 & H1 & H2 & Hc & _).
  exists s1. split; [exact H1|]. rewrite Hc.
  vm_compute in H2. injection H2 as <-. reflexivity.
Defined.

(** [lastIndexOf] returns the last occurrence, and -1 when there is none. *)
Lemma findLast_spec (p : string) : forall t,
  (Js.findLast p t = None /\ ~ occursIn p t)
  \/ (exists a b,
        t = a ++ p ++ b /\ Js.findLast p t = Some (String.length a)
        /\ forall a' b', t = a' ++ p ++ b' ->
                         (String.length a' <= String.length a)%nat).
Proof.
  induction t as [|c t IH].
  - cbn [Js.findLast]. destruct (prefix p "") eqn:Hp.
    + right. exists "", "". destruct p; [|discriminate].
      repeat split. intros [|c a'] b' H; [cbn; lia | discriminate].
    + left. split; [reflexivity|]. intros (a & b & H).
      destruct a; [|discriminate]. destruct p; discriminate.
  - cbn [Js.findLast].
    destruct IH as [[Hnone Hno] | (a & b & Hab & Hk & Hmax)].
    + rewrite Hnone. destruct (prefix p (String c t)) eqn:Hp.
      * right. exists "", (substring (String.length p)
                             (String.length (String c t)) (String c t)).
        split; [now apply prefix_split|]. split; [reflexivity|].
        intros [|c' a'] b' H; [cbn; lia|].
        cbn in H. injection H as _ H. exfalso. apply Hno. now exists a', b'.
      * left. split; [reflexivity|]. intros ([|c' a'] & b' & H).
        -- cbn [append] in H. rewrite H, prefix_append in Hp. discriminate.
        -- cbn in H. injection H as _ H. apply Hno. now exists a', b'.
    + rewrite Hk. right. exists (String c a), b.
      split; [now rewrite Hab|]. split; [reflexivity|].
      intros [|c' a'] b' H; [cbn; lia|].
      cbn in H. injection H as _ H. specialize (Hmax a' b' H). cbn. lia.
Qed.

Lemma substring_append_prefix (x y : string) : forall n,
  (String.length x <= n)%nat ->
  substring 0 n (x ++ y) = x ++ substring 0 (n - String.length x) y.
Proof.
  induction x as [|c x IH]; intros n Hn.
  - cbn. now rewrite Nat.sub_0_r.
  - destruct n as [|n]; [cbn in Hn; lia|].
    cbn. f_equal. apply IH. cbn in Hn. lia.
Qed.

(** The occurrences in what precedes column [c] are the occurrences of the
    line that end at or before column [c]. *)
Lemma slice_occurrence (l p a : string) (c : Z) :
  0 <= c ->
  (exists b, Js.slice l 0 c = a ++ p ++ b)
  <-> ((exists b, l = a ++ p ++ b) /\ Js.length a + Js.length p <= c).
Proof.
  intros Hc. unfold Js.slice. pose proof (js_length_nonneg l) as Hlen.
  rewrite !relIndex_inside by lia.
  unfold Js.relIndex. destruct (Z.ltb_spec c 0); [lia|].
  rewrite Z.sub_0_r. change (Z.to_nat 0) with O.
  set (n := Z.to_nat (Z.min c (Js.length l))).
  assert (Hn : (n <= String.length l)%nat) by (unfold Js.length in *; lia).
  pose proof (substring_parts l n Hn) as Hparts.
  assert (Hh : String.length (substring 0 n l) = n)
    by (rewrite substring_length; lia).
  split.
  - intros (b & Hb). split.
    + exists (b ++ substring n (String.length l - n) l).
      rewrite <- Hparts at 1. rewrite Hb. now rewrite !append_assoc.
    + rewrite Hb in Hh. rewrite !length_append in Hh.
      unfold Js.length in *. lia.
  - intros ((b & Hb) & Hle).
    exists (substring 0 (n - String.length (a ++ p)) b).
    rewrite Hb at 1. rewrite <- append_assoc, substring_append_prefix.
    + now rewrite append_assoc.
    + assert (Hl : Js.length a + Js.length p <= Js.length l).
      { rewrite Hb at 1. rewrite !js_length_append.
        pose proof (js_length_nonneg b). lia. }
      rewrite length_append. unfold Js.length in *. lia.
Qed.

Lemma lastIndexOf_spec (t p : string) :
  (Js.lastIndexOf t p = -1 /\ ~ occursIn p t)
  \/ (exists a b,
        t = a ++ p ++ b /\ Js.lastIndexOf t p = Js.length a
        /\ forall a' b', t = a' ++ p ++ b' -> Js.length a' <= Js.length a).
Proof.
  unfold Js.lastIndexOf.
  destruct (findLast_spec p t) as [[-> Hno] | (a & b & Hab & -> & Hmax)].
  - now left.
  - right. exists a, b. repeat split; [assumption|].
    intros a' b' H. specialize (Hmax a' b' H). unfold Js.length. lia.
Qed.

(** The backward loop stops at the last occurrence that ends at or before
    the cursor. *)
Lemma searchBackward_spec (pattern : string) (cur : CursorPosition) :
  0 <= col cur ->
  forall downto i, i <= line cur ->
    match searchBackward pattern cur i downto with
    | Some found =>
        (exists k l a b,
           nth_error downto k = Some l /\ line found = i - Z.of_nat k
           /\ l = a ++ pattern ++ b /\ col found = Js.length a)
        /\ endsBefore pattern found cur
        /\ forall k l a b,
             nth_error downto k = Some l -> l = a ++ pattern ++ b ->
             endsBefore pattern
               {| line := i - Z.of_nat k; col := Js.length a |} cur ->
             ~ laterThan found {| line := i - Z.of_nat k; col := Js.length a |}
    | None =>
        forall k l a b,
          nth_error downto k = Some l -> l = a ++ pattern ++ b ->
          ~ endsBefore pattern
              {| line := i - Z.of_nat k; col := Js.length a |} cur
    end.
Proof.
  intros Hcol. induction downto as [|l rest IH]; intros i Hi;
    cbn [searchBackward].
  - intros [|k] l a b H; discriminate H.
  - cbv zeta.
    set (searchIn := if i =? line cur then Js.slice l 0 (col cur) else l).
    assert (Hin : forall a,
              (exists b, searchIn = a ++ pattern ++ b)
              <-> ((exists b, l = a ++ pattern ++ b)
                   /\ endsBefore pattern
                        {| line := i; col := Js.length a |} cur)).
    { intros a. unfold searchIn, endsBefore. cbn [line col].
      destruct (Z.eqb_spec i (line cur)) as [-> | Hne].
      - rewrite slice_occurrence by assumption.
        split; intros [H1 H2]; (split; [exact H1 | lia]).
      - split; [intros H; split; [exact H | lia] | now intros [H _]]. }
    destruct (lastIndexOf_spec searchIn pattern)
      as [[Hidx Hno] | (a & b & Hab & Hidx & Hmax)]; rewrite Hidx.
    + change (-1 =? -1) with true. cbv iota.
      assert (Hhere : forall a b, l = a ++ pattern ++ b ->
                ~ endsBefore pattern {| line := i; col := Js.length a |} cur).
      { intros a b Hab He. apply Hno.
        destruct (proj2 (Hin a) (conj (ex_intro _ b Hab) He)) as (b' & Hb').
        now exists a, b'. }
      specialize (IH (i - 1) ltac:(lia)).
      destruct (searchBackward pattern cur (i - 1) rest) as [found|].
      * destruct IH as ((k & l' & a & b & Hk & Hline & Hab & Hc) & He & Hm).
        split; [|split].
        -- exists (S k), l', a, b. repeat split; try assumption. lia.
        -- exact He.
        -- intros [|k'] l2 a2 b2 Hk' Hab2 He2.
           ++ injection Hk' as <-. cbn [Z.of_nat] in He2.
              rewrite Z.sub_0_r in He2.
              exfalso. exact (Hhere a2 b2 Hab2 He2).
           ++ replace (i - Z.of_nat (S k')) with (i - 1 - Z.of_nat k') in *
                by lia.
              now apply (Hm k' l2 a2 b2).
      * intros [|k'] l2 a2 b2 Hk' Hab2 He2.
        -- injection Hk' as <-. cbn [Z.of_nat] in He2.
           rewrite Z.sub_0_r in He2. exact (Hhere a2 b2 Hab2 He2).
        -- replace (i - Z.of_nat (S k')) with (i - 1 - Z.of_nat k') in *
             by lia.
           now apply (IH k' l2 a2 b2).
    + pose proof (js_length_nonneg a).
      destruct (Z.eqb_spec (Js.length a) (-1)); [lia|].
      destruct (proj1 (Hin a) (ex_intro _ b Hab)) as ((b0 & Hb0) & He).
      split; [|split].
      * exists O, l, a, b0. cbn [line col Z.of_nat].
        repeat split; try assumption. lia.
      * exact He.
      * intros [|k'] l2 a2 b2 Hk' Hab2 He2.
        -- injection Hk' as <-. cbn [Z.of_nat] in *. rewrite Z.sub_0_r in *.
           destruct (proj2 (Hin a2) (conj (ex_intro _ b2 Hab2) He2))
             as (b' & Hb').
           specialize (Hmax a2 b' Hb').
           unfold laterThan. cbn [line col]. lia.
        -- unfold laterThan. cbn [line col]. lia.
Qed.

(** The lines the backward loop visits are the lines of the buffer from the
    cursor's line up to the first. *)
Lemma linesDownFrom_get (lns : list string) (i : Z) :
  0 <= i < Arr.length lns ->
  exists downto,
    linesDownFrom lns i = Some downto
    /\ List.length downto = S (Z.to_nat i)
    /\ forall k, (Z.of_nat k <= i) ->
                 nth_error downto k = Arr.get lns (i - Z.of_nat k).
Proof.
  intros Hi. unfold linesDownFrom.
  destruct (Z.ltb_spec i 0); [lia|].
  destruct (Z.leb_spec (Arr.length lns) i); [lia|]. cbn [orb].
  unfold Arr.length in Hi.
  eexists. split; [reflexivity|]. split;
    [rewrite length_rev, length_firstn; lia|].
  intros k Hk.
  rewrite nth_error_rev, length_firstn.
  replace (Nat.min (S (Z.to_nat i)) (List.length lns)) with (S (Z.to_nat i))
    by lia.
  destruct (Nat.ltb_spec k (S (Z.to_nat i))); [|lia].
  rewrite nth_error_firstn.
  destruct (Nat.ltb_spec (S (Z.to_nat i) - S k) (S (Z.to_nat i))); [|lia].
  unfold Arr.get. destruct (Z.ltb_spec (i - Z.of_nat k) 0); [lia|].
  f_equal. lia.
Qed.

(** X27. In normal mode, with a search pattern stored and the cursor on a
    line of the buffer at a column that is not negative, [N] moves the cursor
    to the last occurrence of the pattern, in reading order, that ends at or
    before the cursor's column or lies on an earlier line: an occurrence
    that reaches over the cursor's column is passed over.  When there is
    none the cursor stays: the search never wraps around to the bottom.
    Buffer, mode and modified flag stay as they are. *)
Theorem N_finds_previous_occurrence (filename : string) (s : State) :
  mode s = normal ->
  searchPattern s <> "" ->
  0 <= line (cursor s) < Arr.length (lines s) ->
  0 <= col (cursor s) ->
  exists s',
    step filename s (key "N") = Some s'
    /\ lines s' = lines s /\ mode s' = normal /\ modified s' = modified s
    /\ ((occursAt (searchPattern s) (lines s) (cursor s')
         /\ endsBefore (searchPattern s) (cursor s') (cursor s)
         /\ forall pos, occursAt (searchPattern s) (lines s) pos ->
                        endsBefore (searchPattern s) pos (cursor s) ->
                        ~ laterThan (cursor s') pos)
        \/ (cursor s' = cursor s
            /\ forall pos, occursAt (searchPattern s) (lines s) pos ->
                           ~ endsBefore (searchPattern s) pos (cursor s))).
Proof.
  intros Hmode Hpat Hline Hcol. normal_key Hmode.
  destruct (String.eqb_spec (searchPattern s) ""); [contradiction|].
  destruct (Z.ltb_spec (line (cursor s)) 0); [lia|].
  destruct (linesDownFrom_get (lines s) (line (cursor s)) Hline)
    as (downto & Hdown & Hdlen & Hget).
  rewrite Hdown.
  pose proof (searchBackward_spec (searchPattern s) (cursor s) Hcol downto
                (line (cursor s)) ltac:(lia)) as Hspec.
  assert (Hpos : forall pos,
            occursAt (searchPattern s) (lines s) pos ->
            endsBefore (searchPattern s) pos (cursor s) ->
            exists k l a b,
              pos = {| line := line (cursor s) - Z.of_nat k;
                       col := Js.length a |}
              /\ nth_error downto k = Some l
              /\ l = a ++ searchPattern s ++ b).
  { intros [pl pc] (l & a & b & Hg & Hab & Hc) He.
    cbn [line col] in *.
    assert (0 <= pl).
    { unfold Arr.get in Hg. destruct (Z.ltb_spec pl 0); [discriminate | lia]. }
    assert (pl <= line (cursor s)) by (unfold endsBefore in He; cbn in He; lia).
    exists (Z.to_nat (line (cursor s) - pl)), l, a, b. repeat split.
    - f_equal; lia.
    - rewrite Hget by lia. rewrite <- Hg. f_equal. lia.
    - exact Hab. }
  destruct (searchBackward (searchPattern s) (cursor s) (line (cursor s))
              downto) as [found|].
  - destruct Hspec as ((k & l & a & b & Hk & Hfl & Hab & Hc) & He & Hmax).
    assert (Hkle : Z.of_nat k <= line (cursor s)).
    { assert (Hlt : (k < List.length downto)%nat)
        by (apply nth_error_Some; congruence).
      lia. }
    eexists. split; [reflexivity|]. cbn. rewrite Hmode.
    repeat split. left. split; [|split].
    + exists l, a, b. rewrite Hfl, <- Hget by lia. now repeat split.
    + exact He.
    + intros pos Ho Hb.
      destruct (Hpos pos Ho Hb) as (k2 & l2 & a2 & b2 & -> & Hk2 & Hab2).
      now apply (Hmax k2 l2 a2 b2).
  - eexists. split; [reflexivity|]. cbn. rewrite Hmode.
    repeat split. right. split; [reflexivity|].
    intros pos Ho Hb.
    destruct (Hpos pos Ho Hb) as (k2 & l2 & a2 & b2 & Heq & Hk2 & Hab2).
    rewrite Heq in Hb. exact (Hspec k2 l2 a2 b2 Hk2 Hab2 Hb).
Qed.

Lemma N_finds_previous_occurrence_witness :
  exists s',
    step "notes.txt"
      (setCursor {| line := 0; col := 3 |}
         (setSearchPattern "ab" (initialState "abab")))
      (key "N") = Some s'
    /\ cursor s' = {| line := 0; col := 0 |}.
Proof.
  destruct (N_finds_previous_occurrence "notes.txt"
              (setCursor {| line := 0; col := 3 |}
                 (setSearchPattern "ab" (initialState "abab")))
              eq_refl ltac:(discriminate)
              ltac:(vm_compute; split; [discriminate | reflexivity])
              ltac:(vm_compute; discriminate))
    as (s' & Hstep & _).
  exists s'. split; [exact Hstep|].
  vm_compute in Hstep. injection Hstep as <-. reflexivity.
Defined.

(** ** Leaving the editor *)

Lemma exitCalls_app log e :
  exitCalls (log ++ [e])
  = (exitCalls log + match e with OnExit => 1 | _ => 0 end)%nat.
Proof.
  unfold exitCalls. rewrite filter_app, length_app. now destruct e.
Qed.

Lemma quiet_emit e : e <> OnExit -> preserves exitsOf (upd (emit e)).
Proof.
  intros He. apply preserves_upd. intros p. unfold exitsOf. cbn [out emit].
  rewrite exitCalls_app. destruct e; [lia | congruence | lia].
Qed.

Lemma quiet_showStatus message duration :
  preserves exitsOf (showStatus message duration).
Proof.
  unfold showStatus.
  apply preserves_andThen; [apply preserves_upd; reflexivity|].
  apply preserves_if; [apply quiet_emit; discriminate | apply preserves_skip].
Qed.

(** Goals [preserves exitsOf u]: [u] calls [onExit] nowhere. *)
Ltac quiet_step :=
  match goal with
  | |- preserves exitsOf (showStatus _ _) => apply quiet_showStatus
  | |- preserves exitsOf (upd (emit (SetTimeout _ _))) =>
      apply quiet_emit; discriminate
  | |- preserves exitsOf (upd (emit (OnSave _))) =>
      apply quiet_emit; discriminate
  | |- preserves exitsOf _ => frame_step
  end.

Ltac quiet := repeat quiet_step.

Lemma quiet_handleKeyDown s k ctrlKey metaKey :
  preserves exitsOf (handleKeyDown s k ctrlKey metaKey).
Proof.
  unfold handleKeyDown. destruct (mode s).
  - unfold handleNormalModeKey. apply preserves_if; [quiet|]. cbv zeta.
    destruct (switchOn normalCases On_default k);
      autounfold with callbacks; cbv zeta; quiet.
  - unfold handleInsertModeKey. autounfold with callbacks. cbv zeta. quiet.
  - unfold handleVisualModeKey.
    destruct (switchOn visualCases Vis_none k);
      autounfold with callbacks; cbv zeta; quiet.
  - quiet.
  - unfold handleReplaceModeKey. quiet.
Qed.

Lemma quiet_executeVimCommand filename s cmd idle :
  ~ In (Js.trim cmd) ["q"; "q!"; "wq!"] ->
  preserves exitsOf (executeVimCommand filename s cmd idle).
Proof.
  intros Hnot. unfold executeVimCommand. cbv zeta.
  assert (Hne : forall t, In t ["q"; "q!"; "wq!"] ->
                          String.eqb (Js.trim cmd) t = false).
  { intros t Ht. destruct (String.eqb_spec (Js.trim cmd) t); [|reflexivity].
    subst t. contradiction. }
  rewrite (Hne "q"), (Hne "q!"), (Hne "wq!") by (cbn; tauto).
  cbv beta iota. quiet.
Qed.

Lemma run_cleanMeansSaved filename c events : forall s0 s,
  cleanMeansSaved c s0 -> run filename s0 events = Some s ->
  cleanMeansSaved c s.
Proof.
  induction events as [|e events IH]; intros s0 s H0 Hrun; cbn in Hrun.
  - now injection Hrun as <-.
  - destruct (step filename s0 e) as [s1|] eqn:Hstep; [|discriminate].
    eapply IH; [|exact Hrun]. eapply step_cleanMeansSaved; eauto.
Qed.

(** X28. The editor closes only on an ex-command or on the delayed exit that
    [wq] and [x] scheduled 100 ms earlier, never on a key pressed in the
    editor itself; and when an ex-command makes it call [onExit], either the
    command is [q!] or the text of the buffer is the text last handed to
    [onSave] (the initial content if nothing was saved). *)
Theorem vim_exit_keeps_text_safe (filename initialContent : string)
  (events : list Event) (s s' : State) (e : Event) :
  run filename (initialState initialContent) events = Some s ->
  step filename s e = Some s' ->
  (exitsOf s < exitsOf s')%nat ->
  e = TimerFires CallOnExit
  \/ ((exists idle, e = CommandSubmit idle)
      /\ (Js.trim (commandBuffer s) = "q!"
          \/ Js.join newline (lines s') = lastSaved initialContent (out s'))).
Proof.
  intros Hrun Hstep Hlt.
  assert (Hclean : cleanMeansSaved initialContent s).
  { apply (run_cleanMeansSaved filename initialContent events
             (initialState initialContent) s); [|exact Hrun].
    intros _. rewrite initial_lines. apply join_split. discriminate. }
  unfold step in Hstep.
  destruct e as [k ctrlKey metaKey | value | k | idle | cb]; cbn [handleEvent] in Hstep.
  - rewrite (quiet_handleKeyDown _ _ _ _ _ _ Hstep) in Hlt. lia.
  - assert (Hq : preserves exitsOf
                   (if VimMode_eqb (mode s) command
                    then upd (setCommandBuffer value) else skip)) by quiet.
    rewrite (Hq _ _ Hstep) in Hlt. lia.
  - assert (Hq : preserves exitsOf
                   (if VimMode_eqb (mode s) command && String.eqb k "Escape"
                    then upd (setMode normal) ;; upd (setCommandBuffer "")
                    else skip)) by quiet.
    rewrite (Hq _ _ Hstep) in Hlt. lia.
  - destruct (VimMode_eqb (mode s) command);
      [|injection Hstep as <-; lia].
    right. split; [now exists idle|].
    destruct (string_dec (Js.trim (commandBuffer s)) "q!") as [Hbang | Hnb];
      [now left|].
    right. revert Hstep. unfold handleCommandSubmit.
    destruct (string_dec (Js.trim (commandBuffer s)) "q") as [Hq | Hnq];
      [|destruct (string_dec (Js.trim (commandBuffer s)) "wq!")
          as [Hwq | Hnwq]].
    + unfold executeVimCommand. rewrite Hq. cbn.
      destruct (modified s) eqn:Hm; cbn; intros [= <-].
      * unfold exitsOf in Hlt. cbn -[exitCalls] in Hlt. lia.
      * cbn. rewrite lastSaved_app. now apply Hclean.
    + unfold executeVimCommand. rewrite Hwq. cbn. intros [= <-]. cbn.
      now rewrite !lastSaved_app.
    + intros Hstep.
      assert (Hquiet : preserves exitsOf
                (executeVimCommand filename s (commandBuffer s) idle ;;
                 upd (setCommandBuffer ""))).
      { apply preserves_andThen; [|quiet].
        apply quiet_executeVimCommand.
        intros [H | [H | [H | []]]]; congruence. }
      rewrite (Hquiet _ _ Hstep) in Hlt. lia.
  - destruct (timerSet cb s); [|injection Hstep as <-; lia].
    destruct cb; [|now left].
    injection Hstep as <-. unfold exitsOf in Hlt. cbn -[exitCalls] in Hlt. lia.
Qed.

Lemma vim_exit_keeps_text_safe_witness :
  exists s s',
    run "notes.txt" (initialState "ab")
      [key "x"; key ":"; CommandChange "wq!"] = Some s
    /\ step "notes.txt" s (CommandSubmit false) = Some s'
    /\ lines s' = ["b"] /\ lastSaved "ab" (out s') = "b".
Proof.
  eexists. eexists. split; [vm_compute; reflexivity|].
  split; [vm_compute; reflexivity|]. split; [reflexivity|].
  match goal with
  | |- lastSaved _ (out ?s1) = _ =>
      destruct (vim_exit_keeps_text_safe "notes.txt" "ab"
                  [key "x"; key ":"; CommandChange "wq!"] _ s1
                  (CommandSubmit false)
                  ltac:(vm_compute; reflexivity) ltac:(vm_compute; reflexivity)
                  ltac:(vm_compute; lia))
        as [H | [_ [H | H]]]; [discriminate H | discriminate H |]
  end.
  rewrite <- H. reflexivity.
Defined.

(** ** NanoEditor: saving and leaving *)

(** In nano too an unmodified text is the saved text. *)
Lemma nano_step_clean (c : string) (s : Nano.State) (e : Nano.Event) :
  (Nano.modified s = false -> Nano.content s = lastSaved c (Nano.out s)) ->
  Nano.modified (Nano.step s e) = false ->
  Nano.content (Nano.step s e) = lastSaved c (Nano.out (Nano.step s e)).
Proof.
  intros Hs. destruct e as [k ctrlKey | value | | | |]; cbn [Nano.step].
  - unfold Nano.handleKeyDown, Nano.handleSave, Nano.handleExit,
      Nano.showStatus.
    destruct ctrlKey, (String.eqb_spec k "o"), (String.eqb_spec k "x"),
      (String.eqb k "Escape"), (Nano.showSavePrompt s),
      (Nano.modified s) eqn:Hm0;
      try congruence; cbn; intros Hm; try discriminate Hm;
      repeat (rewrite lastSaved_app; cbn); auto; congruence.
  - unfold Nano.handleChange. destruct (Nano.modified s) eqn:Hm0; cbn;
      congruence.
  - unfold Nano.handleSavePromptResponse. destruct (Nano.showSavePrompt s);
      cbn; [|exact Hs]. intros _. now rewrite !lastSaved_app.
  - unfold Nano.handleSavePromptResponse. destruct (Nano.showSavePrompt s);
      cbn; [|exact Hs]. intros Hm. rewrite lastSaved_app. auto.
  - destruct (Nano.showSavePrompt s); cbn; exact Hs.
  - destruct (existsb _ _); cbn; exact Hs.
Qed.

Lemma nano_run_clean (c : string) (events : list Nano.Event) :
  forall s,
    (Nano.modified s = false -> Nano.content s = lastSaved c (Nano.out s)) ->
    Nano.modified (Nano.run s events) = false ->
    Nano.content (Nano.run s events)
    = lastSaved c (Nano.out (Nano.run s events)).
Proof.
  induction events as [|e events IH]; intros s Hs; cbn; [exact Hs|].
  apply IH. now apply nano_step_clean.
Qed.

(** X29. NanoEditor, in every state reached from the first render by keys,
    edits, prompt buttons and timers: when the modified mark is off, the text
    in the text area is the text of the last [onSave] call or, without one,
    the initial content. *)
Theorem nano_unmodified_text_is_saved (initialContent : string)
  (events : list Nano.Event) :
  let s := Nano.run (Nano.initialState initialContent) events in
  Nano.modified s = false ->
  Nano.content s = lastSaved initialContent (Nano.out s).
Proof.
  cbv zeta. apply nano_run_clean. reflexivity.
Qed.

Lemma nano_unmodified_text_is_saved_witness :
  let s := Nano.run (Nano.initialState "ab")
             [Nano.Change "abc"; Nano.KeyDown "o" true] in
  Nano.content s = "abc" /\ lastSaved "ab" (Nano.out s) = "abc".
Proof.
  cbv zeta. split; [reflexivity|].
  rewrite <- (nano_unmodified_text_is_saved "ab"
                [Nano.Change "abc"; Nano.KeyDown "o" true] eq_refl).
  reflexivity.
Defined.

(** X30. NanoEditor never closes over unsaved text unasked: whenever an
    event makes it call [onExit], either that event is the answer No to the
    save prompt, or the text in the text area is, after the event, the text
    last handed to [onSave] (or the initial content if nothing was ever
    saved). *)
Theorem nano_exit_keeps_text_safe (initialContent : string)
  (events : list Nano.Event) (e : Nano.Event) :
  let s := Nano.run (Nano.initialState initialContent) events in
  let s' := Nano.step s e in
  (exitCalls (Nano.out s) < exitCalls (Nano.out s'))%nat ->
  e = Nano.PromptNo
  \/ Nano.content s' = lastSaved initialContent (Nano.out s').
Proof.
  cbv zeta. set (s := Nano.run (Nano.initialState initialContent) events).
  assert (Hs : Nano.modified s = false ->
               Nano.content s = lastSaved initialContent (Nano.out s))
    by (apply nano_run_clean; reflexivity).
  destruct e as [k ctrlKey | value | | | |]; cbn [Nano.step].
  - unfold Nano.handleKeyDown, Nano.handleSave, Nano.handleExit,
      Nano.showStatus.
    destruct ctrlKey, (String.eqb_spec k "o"), (String.eqb_spec k "x"),
      (String.eqb k "Escape"), (Nano.showSavePrompt s),
      (Nano.modified s) eqn:Hm;
      try congruence; cbn;
      repeat (rewrite exitCalls_app; cbn); intros Hlt;
      unfold exitCalls in Hlt; try lia;
      right; repeat (rewrite lastSaved_app; cbn); auto.
  - unfold Nano.handleChange. destruct (Nano.modified s); cbn -[exitCalls];
      lia.
  - unfold Nano.handleSavePromptResponse. destruct (Nano.showSavePrompt s);
      cbn -[exitCalls]; [|lia]. intros _. right. now rewrite !lastSaved_app.
  - now left.
  - destruct (Nano.showSavePrompt s); cbn -[exitCalls]; lia.
  - destruct (existsb _ _); cbn -[exitCalls]; lia.
Qed.

Lemma nano_exit_keeps_text_safe_witness :
  let s := Nano.run (Nano.initialState "ab")
             [Nano.Change "abc"; Nano.KeyDown "x" true] in
  let s' := Nano.step s Nano.PromptYes in
  (exitCalls (Nano.out s) < exitCalls (Nano.out s'))%nat
  /\ (Nano.PromptYes = Nano.PromptNo
      \/ Nano.content s' = lastSaved "ab" (Nano.out s')).
Proof.
  cbv zeta. split; [vm_compute; lia|].
  apply (nano_exit_keeps_text_safe "ab"
           [Nano.Change "abc"; Nano.KeyDown "x" true] Nano.PromptYes).
  vm_compute; lia.
Defined.
